(** * Insight pipeline of the marketing deck platform

    A shallow embedding of [python/insightGenerator.py]: the four analyzers
    ([detect_trends], [detect_outliers], [analyze_correlations],
    [analyze_segments]), the quality scorer and the synthesis step of
    [analyze_dataframe], followed by the properties stated for them.

    Modelling conventions.
    - A pandas [DataFrame] is a list of typed columns of one common length.
      A null cell (NaN / None) is [None].
    - The frames of the model have finite numeric cells, exact rationals
      ([Q]): a cell holding an infinity, or an integer beyond what the
      arithmetic wraps at, is outside the model.  A Python float that can
      be non-finite is a [pyfloat].
    - Arithmetic is exact.  Where the binary computation can tell, the
      choice is the runtime's: [round] goes to a nearest multiple of the
      unit and a value exactly half-way is rounded up or down as the
      runtime says; [sort_values], which is not stable, orders rows of
      equal date as the runtime says.
    - The analyzers are modelled for frames whose column names are
      pairwise distinct ([distinct_names]); on a repeated name [df[col]]
      is a frame, not a column, and the source raises.
    - A [try: ... except Exception] block is an [option]-valued body; the
      handler of the source prints a warning and goes on, so [None] means
      "this unit contributes nothing".
    - What pandas, numpy, scikit-learn and the Python runtime compute
      (date parsing, Pearson's r, k-means, float formatting, the clock) is
      taken from a [Runtime] record, so every theorem holds for every
      behaviour of those libraries. *)

From Stdlib Require Import String Ascii.
From Stdlib Require Import ZArith QArith Qround Qabs Bool List Lia Lqa.
From Stdlib Require Import Sorted Permutation.
Import ListNotations.

Local Open Scope Z_scope.

(** ** Python floats *)

Inductive pyfloat : Type :=
| Fin (q : Q)
| PInf
| NInf
| NaN.

Definition Qsgn (q : Q) : Z := Z.sgn (Qnum q).

(** [a / b] where [a] is a numpy integer: division by zero does not raise,
    it yields [nan] for [0 / 0] and a signed infinity otherwise. *)
Definition np_true_divide (a b : Z) : pyfloat :=
  if b =? 0 then
    match a ?= 0 with
    | Eq => NaN
    | Gt => PInf
    | Lt => NInf
    end
  else Fin (inject_Z a / inject_Z b).

Definition fneg (x : pyfloat) : pyfloat :=
  match x with
  | Fin q => Fin (- q)
  | PInf => NInf
  | NInf => PInf
  | NaN => NaN
  end.

Definition fadd (x y : pyfloat) : pyfloat :=
  match x, y with
  | NaN, _ | _, NaN => NaN
  | Fin a, Fin b => Fin (a + b)
  | PInf, NInf | NInf, PInf => NaN
  | PInf, _ | _, PInf => PInf
  | NInf, _ | _, NInf => NInf
  end.

Definition fsub (x y : pyfloat) : pyfloat := fadd x (fneg y).

Definition inf_of_sign (s : Z) : pyfloat :=
  match s with
  | Z0 => NaN
  | Zpos _ => PInf
  | Zneg _ => NInf
  end.

Definition fmul (x y : pyfloat) : pyfloat :=
  match x, y with
  | NaN, _ | _, NaN => NaN
  | Fin a, Fin b => Fin (a * b)
  | Fin a, PInf | PInf, Fin a => inf_of_sign (Qsgn a)
  | Fin a, NInf | NInf, Fin a => inf_of_sign (- Qsgn a)
  | PInf, PInf | NInf, NInf => PInf
  | PInf, NInf | NInf, PInf => NInf
  end.

Definition fabs (x : pyfloat) : pyfloat :=
  match x with
  | Fin q => Fin (Qabs q)
  | PInf | NInf => PInf
  | NaN => NaN
  end.

Definition Qltb (a b : Q) : bool :=
  match Qcompare a b with Lt => true | _ => false end.

Definition Qleb (a b : Q) : bool :=
  match Qcompare a b with Gt => false | _ => true end.

(** [x < y]; every comparison with [nan] is [False]. *)
Definition flt (x y : pyfloat) : bool :=
  match x, y with
  | NaN, _ | _, NaN => false
  | Fin a, Fin b => Qltb a b
  | NInf, NInf | PInf, _ | _, NInf => false
  | NInf, _ | _, PInf => true
  end.

(** [x <= y]. *)
Definition fle (x y : pyfloat) : bool :=
  match x, y with
  | NaN, _ | _, NaN => false
  | Fin a, Fin b => Qleb a b
  | NInf, _ | _, PInf => true
  | PInf, _ | _, NInf => false
  end.

Definition fgt (x y : pyfloat) : bool := flt y x.
Definition fge (x y : pyfloat) : bool := fle y x.

(** The builtin [min(a, b)]: [b] replaces [a] only when [b < a]. *)
Definition py_min (a b : pyfloat) : pyfloat := if flt b a then b else a.

(** [int(x)]: truncation towards zero; [nan] and the infinities raise. *)
Definition Qtrunc (q : Q) : Z := Z.quot (Qnum q) (Zpos (Qden q)).

Definition py_int (x : pyfloat) : option Z :=
  match x with
  | Fin q => Some (Qtrunc q)
  | _ => None
  end.

(** Rounding to a nearest integer; [up] settles a value that lies exactly
    half-way between two integers. *)
Definition round_nearest (up : bool) (q : Q) : Z :=
  let f := Qfloor q in
  match Qcompare (q - inject_Z f) (1 # 2) with
  | Lt => f
  | Gt => f + 1
  | Eq => if up then f + 1 else f
  end.

(** Rounding to [ndigits] decimals. *)
Definition round_decimal (up : bool) (q : Q) (ndigits : nat) : Q :=
  let scale := Pos.pow 10 (Pos.of_nat ndigits) in
  match ndigits with
  | O => inject_Z (round_nearest up q)
  | S _ => Qmake (round_nearest up (q * inject_Z (Zpos scale))) scale
  end.

(** Division of two Python integers: [ZeroDivisionError] is [None]. *)
Definition py_div (a b : nat) : option Q :=
  match b with
  | O => None
  | S _ => Some (inject_Z (Z.of_nat a) / inject_Z (Z.of_nat b))%Q
  end.

(** ** The tabular dataset *)

(** A column by dtype: numeric ([np.number]), [object], or any other.  A
    numeric cell is null or a finite number; a cell holding an infinity
    (which [dropna] keeps and which makes a relative change [nan]) is not
    represented. *)
Inductive Column : Type :=
| NumCol (name : string) (vals : list (option Q))
| ObjCol (name : string) (vals : list (option string))
| OtherCol (name : string) (nulls : list bool).

Definition col_name (c : Column) : string :=
  match c with
  | NumCol n _ | ObjCol n _ | OtherCol n _ => n
  end.

Definition col_len (c : Column) : nat :=
  match c with
  | NumCol _ v => List.length v
  | ObjCol _ v => List.length v
  | OtherCol _ v => List.length v
  end.

Definition is_none {A : Type} (o : option A) : bool :=
  match o with None => true | Some _ => false end.

Definition is_some {A : Type} (o : option A) : bool := negb (is_none o).

(** [df[col].isnull().sum()] *)
Definition col_nulls (c : Column) : nat :=
  match c with
  | NumCol _ v => List.length (filter is_none v)
  | ObjCol _ v => List.length (filter is_none v)
  | OtherCol _ v => List.length (filter (fun b => b) v)
  end.

Definition uniform (n : nat) (cols : list Column) : bool :=
  forallb (fun c => Nat.eqb (col_len c) n) cols.

Record DataFrame : Type := mkDF {
  nrows : nat;                       (* len(df) *)
  columns : list Column;             (* df.columns, in order *)
  df_uniform : uniform nrows columns = true
}.

Record Series (A : Type) : Type := mkSeries {
  s_name : string;
  s_vals : list (option A)
}.
Arguments mkSeries {A} _ _.
Arguments s_name {A} _.
Arguments s_vals {A} _.

(** [df.select_dtypes(include=[np.number])] *)
Fixpoint select_numeric (cols : list Column) : list (Series Q) :=
  match cols with
  | [] => []
  | NumCol n v :: rest => mkSeries n v :: select_numeric rest
  | _ :: rest => select_numeric rest
  end.

(** [df.select_dtypes(include=['object'])] *)
Fixpoint select_object (cols : list Column) : list (Series string) :=
  match cols with
  | [] => []
  | ObjCol n v :: rest => mkSeries n v :: select_object rest
  | _ :: rest => select_object rest
  end.

Definition numeric_cols (df : DataFrame) : list (Series Q) :=
  select_numeric (columns df).

Definition categorical_cols (df : DataFrame) : list (Series string) :=
  select_object (columns df).

(** [df.isnull().sum().sum()] *)
Definition missing_total (df : DataFrame) : nat :=
  list_sum (map col_nulls (columns df)).

(** ** QualityScorer: [calculate_data_quality_score] *)

Definition missing_pct (df : DataFrame) : pyfloat :=
  fmul (np_true_divide (Z.of_nat (missing_total df))
                       (Z.of_nat (nrows df * List.length (columns df))))
       (Fin 100).

(** The variable [score] when the [return] statement is reached. *)
Definition running_score (df : DataFrame) : pyfloat :=
  let score := Fin 100 in
  let score := fsub score (py_min (Fin 40) (fmul (missing_pct df) (Fin 2))) in
  let score :=
    if (100 <=? nrows df)%nat then fadd score (Fin 5)
    else if (nrows df <? 10)%nat then fsub score (Fin 20)
    else score in
  let n_numeric := List.length (numeric_cols df) in
  let n_categorical := List.length (categorical_cols df) in
  let score :=
    if ((2 <=? n_numeric)%nat && (1 <=? n_categorical)%nat)%bool
    then fadd score (Fin 10) else score in
  if (20 <? List.length (columns df))%nat then fsub score (Fin 10)
  else score.

(** [return max(0, min(100, int(score)))]; [None] when [int] raises. *)
Definition calculate_data_quality_score (df : DataFrame) : option Z :=
  match py_int (running_score df) with
  | Some s => Some (Z.max 0 (Z.min 100 s))
  | None => None
  end.

(** ** What the libraries compute *)

Record Runtime : Type := mkRuntime {
  (* pd.to_datetime on one string; None: the parser raises *)
  to_datetime : string -> option Z;
  (* Timestamp.strftime('%Y-%m') *)
  strftime_ym : Z -> string;
  (* Series.quantile(q); nan when no value is present *)
  quantile : list (option Q) -> Q -> pyfloat;
  (* one entry of DataFrame.corr(): Pearson's r of two columns *)
  pearson : list (option Q) -> list (option Q) -> pyfloat;
  (* StandardScaler().fit_transform followed by
     KMeans(n_clusters=3, random_state=42, n_init=10).fit_predict;
     None: one of them raises *)
  fit_predict : list (list Q) -> option (list nat);
  (* str(x) and format(x, '.2f') of a float *)
  str_float : Q -> string;
  format_2f : pyfloat -> string;
  (* the import guards at the top of the module *)
  HAS_PROFILING : bool;
  HAS_SCIPY : bool;
  (* pd.Timestamp.now().isoformat(), sys.version, pd.__version__ *)
  now_isoformat : string;
  python_version : string;
  pandas_version : string;
  (* DataFrame.sort_values (quicksort, not stable) on the given rows, for
     two of them of equal date: whether the first ends in front of the
     second *)
  tie_before : list (option Z * option Q) ->
               option Z * option Q -> option Z * option Q -> bool;
  (* round(x, ndigits) of an expression whose exact value lies half-way
     between two candidates: whether the binary computation from these
     operands ends on the upper one *)
  round_tie_up : list Q -> Q -> nat -> bool
}.

(** [round(x, ndigits)] of a value [q] computed from [operands]. *)
Definition py_round (rt : Runtime) (operands : list Q) (q : Q) (ndigits : nat) : Q :=
  round_decimal (round_tie_up rt operands q ndigits) q ndigits.

Definition fround (rt : Runtime) (x : pyfloat) (ndigits : nat) : pyfloat :=
  match x with
  | Fin q => Fin (py_round rt [q] q ndigits)
  | _ => x
  end.

(** A count as a number. *)
Definition of_nat (n : nat) : Q := inject_Z (Z.of_nat n).

(** ** Helpers standing for list and Series operations *)

Fixpoint insert_by {A : Type} (before : A -> A -> bool) (x : A) (l : list A) : list A :=
  match l with
  | [] => [x]
  | y :: l' => if before y x then y :: insert_by before x l' else x :: l
  end.

(** A stable sort: [x] overtakes only the elements that are strictly
    [before] it. *)
Definition stable_sort {A : Type} (before : A -> A -> bool) (l : list A) : list A :=
  fold_right (insert_by before) [] l.

Fixpoint dropna {A : Type} (l : list (option A)) : list A :=
  match l with
  | [] => []
  | Some x :: l' => x :: dropna l'
  | None :: l' => dropna l'
  end.

Definition Qmax_list (x : Q) (l : list Q) : Q :=
  fold_left (fun m y => if Qltb m y then y else m) l x.

Definition Qmin_list (x : Q) (l : list Q) : Q :=
  fold_left (fun m y => if Qltb y m then y else m) l x.

Definition Zmax_list (x : Z) (l : list Z) : Z := fold_left Z.max l x.
Definition Zmin_list (x : Z) (l : list Z) : Z := fold_left Z.min l x.

(** [df.head()] *)
Definition head {A : Type} (l : list A) : list A := firstn 5 l.

(** ** Analyzer outputs *)

Module Trend.
Record t : Type := mk {
  metric : string;
  timeframe : string;
  direction : string;
  overall_change_pct : Q;
  latest_period_change_pct : Q;
  confidence : Z
}.
End Trend.

Module Outlier.
Record t : Type := mk {
  column : string;
  outlier_count : nat;
  outlier_percentage : Q;
  highest : option Q;
  lowest : option Q;
  upper : pyfloat;
  lower : pyfloat
}.
End Outlier.

Module Correlation.
Record t : Type := mk {
  variable_x : string;
  variable_y : string;
  correlation : pyfloat;
  strength : string;
  direction : string;
  business_insight : string
}.
End Correlation.

Module Category.
Record t : Type := mk {
  name : string;
  count : nat;
  percentage : Q
}.
End Category.

Module Cluster.
Record t : Type := mk {
  cluster_id : nat;
  size : nat;
  percentage : Q;
  (* feature name, (mean, median) *)
  characteristics : list (string * (Q * Q))
}.
End Cluster.

(** A segment is one of two variants, told apart by its ["type"] key. *)
Inductive Segment : Type :=
| Categorical (segment_by : string) (segments : list Category.t)
| NumericClusters (cluster_method : string) (features_used : list string)
                  (clusters : list Cluster.t).

Definition segment_type (s : Segment) : string :=
  match s with
  | Categorical _ _ => "categorical"%string
  | NumericClusters _ _ _ => "numeric_clusters"%string
  end.

Definition segment_by (s : Segment) : string :=
  match s with
  | Categorical by_col _ => by_col
  | NumericClusters _ _ _ => EmptyString
  end.

Definition segment_entries (s : Segment) : list Category.t :=
  match s with
  | Categorical _ entries => entries
  | NumericClusters _ _ _ => []
  end.

Module Insight.
Record t : Type := mk {
  type_ : string;
  title : string;
  description : string;
  business_impact : string;
  slide_recommendation : string
}.
End Insight.

Module Report.
Record stats : Type := mkStats {
  row_count : nat;
  column_count : nat;
  numeric_columns : nat;
  categorical_columns : nat;
  missing_values_total : nat;
  missing_percentage : pyfloat
}.
Record slides : Type := mkSlides {
  total_slides_suggested : Z;
  narrative_arc : string;
  chart_types_recommended : list string
}.
Record meta : Type := mkMeta {
  analysis_timestamp : string;
  python_version : string;
  pandas_version : string;
  has_profiling : bool;
  has_scipy : bool
}.
Record t : Type := mk {
  basic_statistics : stats;
  data_quality_score : Z;
  trends : list Trend.t;
  outliers : list Outlier.t;
  correlations : list Correlation.t;
  segments : list Segment;
  key_insights : list Insight.t;
  slide_recommendations : slides;
  metadata : meta
}.
End Report.

Section Analyzers.

Variable rt : Runtime.

(** ** TrendDetector: [detect_trends] *)

(** [pd.to_datetime] on a column: a null cell becomes NaT, a cell that does
  not parse makes the call raise. *)
Fixpoint to_datetime_series (cells : list (option string)) : option (list (option Z)) :=
match cells with
| [] => Some []
| None :: rest =>
    match to_datetime_series rest with
    | Some ds => Some (None :: ds)
    | None => None
    end
| Some s :: rest =>
    match to_datetime rt s, to_datetime_series rest with
    | Some d, Some ds => Some (Some d :: ds)
    | _, _ => None
    end
end.

(** The [object] columns whose first five values parse as dates.  (With
    a repeated column name [df[col]] is a frame and [.dtype] raises: the
    frames meant here have pairwise distinct names.) *)
Definition date_cols (df : DataFrame) : list (Series string) :=
filter (fun col => is_some (to_datetime_series (head (s_vals col))))
       (categorical_cols df).

(** [sort_values(date_col)]: ascending, NaT last; the order of two rows
  of equal date is the runtime's. *)
Definition date_before (temp_df : list (option Z * option Q))
  (r1 r2 : option Z * option Q) : bool :=
match fst r1, fst r2 with
| Some a, Some b => (a <? b) || ((a =? b) && tie_before rt temp_df r1 r2)
| Some _, None => true
| None, _ => false
end.

Definition sort_values (rows : list (option Z * option Q)) : list (option Z * option Q) :=
stable_sort (date_before rows) rows.

Fixpoint dropna_rows (rows : list (option Z * option Q)) : list (Z * Q) :=
match rows with
| [] => []
| (Some d, Some v) :: rest => (d, v) :: dropna_rows rest
| _ :: rest => dropna_rows rest
end.

(** [temp_df] of the source after [to_datetime], [sort_values] and
  [dropna]; [None] when a date does not parse. *)
Definition usable_rows (date_col : Series string) (metric_col : Series Q)
: option (list (Z * Q)) :=
match to_datetime_series (s_vals date_col) with
| Some dates => Some (dropna_rows (sort_values (combine dates (s_vals metric_col))))
| None => None
end.

(** [((b - a) / abs(a)) * 100 if a != 0 else 0] *)
Definition pct_change (a b : Q) : Q :=
if Qeq_bool a 0 then 0%Q else ((b - a) / Qabs a * 100)%Q.

Definition trend_direction (overall_growth : Q) : string :=
if Qltb 5 overall_growth then "growth"%string
else if Qltb overall_growth (-5) then "decline"%string
else "stable"%string.

Definition trend_confidence (n : nat) : Z :=
Z.min 100 (Z.max 50 (100 - Z.abs (100 - Z.of_nat n * 10))).

(** The body of the [try] block for one (date column, metric) pair:
  [None] when it raises, otherwise the trends it appends. *)
Definition trend_attempt (date_col : Series string) (metric_col : Series Q)
: option (list Trend.t) :=
match usable_rows date_col metric_col with
| None => None
| Some temp_df =>
    if (3 <=? List.length temp_df)%nat then
      let values := map snd temp_df in
      if (2 <=? List.length values)%nat then
        let v_last := last values 0%Q in
        let v_prev := nth (List.length values - 2) values 0%Q in
        let v_first := hd 0%Q values in
        let latest_growth := pct_change v_prev v_last in
        let overall_growth := pct_change v_first v_last in
        let dates := map fst temp_df in
        Some [Trend.mk
                (s_name metric_col)
                (strftime_ym rt (Zmin_list (hd 0 dates) dates) ++ " to "
                 ++ strftime_ym rt (Zmax_list (hd 0 dates) dates))%string
                (trend_direction overall_growth)
                (py_round rt [v_first; v_last] overall_growth 1)
                (py_round rt [v_prev; v_last] latest_growth 1)
                (trend_confidence (List.length values))]
      else Some []
    else Some []
end.

(** [try: ... except Exception: (warn and go on)] *)
Definition try_except {A : Type} (body : option (list A)) : list A :=
match body with
| Some appended => appended
| None => []
end.

Definition detect_trends (df : DataFrame) : list Trend.t :=
let dcs := date_cols df in
let ncs := numeric_cols df in
match dcs, ncs with
| _ :: _, _ :: _ =>
    flat_map (fun date_col =>
      flat_map (fun metric_col => try_except (trend_attempt date_col metric_col))
               (firstn 3 ncs))
      (firstn 1 dcs)
| _, _ => []
end.

(** ** OutlierDetector: [detect_outliers] *)

(** [df[col] < bound] on one cell; a null cell compares [False]. *)
Definition cell_lt (c : option Q) (bound : pyfloat) : bool :=
match c with Some v => flt (Fin v) bound | None => false end.

Definition cell_gt (c : option Q) (bound : pyfloat) : bool :=
match c with Some v => fgt (Fin v) bound | None => false end.

Definition outlier_attempt (df : DataFrame) (col : Series Q) : option (list Outlier.t) :=
let Q1 := quantile rt (s_vals col) (1 # 4) in
let Q3 := quantile rt (s_vals col) (3 # 4) in
let IQR := fsub Q3 Q1 in
let lower_bound := fsub Q1 (fmul (Fin (3 # 2)) IQR) in
let upper_bound := fadd Q3 (fmul (Fin (3 # 2)) IQR) in
let outlier_values :=
  dropna (filter (fun c => cell_lt c lower_bound || cell_gt c upper_bound)
                 (s_vals col)) in
if (0 <? List.length outlier_values)%nat then
  match py_div (List.length outlier_values) (nrows df) with
  | None => None
  | Some ratio =>
      Some [Outlier.mk
              (s_name col)
              (List.length outlier_values)
              (py_round rt [of_nat (List.length outlier_values); of_nat (nrows df)]
                        (ratio * 100) 1)
              (if (0 <? List.length outlier_values)%nat
               then Some (Qmax_list (hd 0%Q outlier_values) outlier_values) else None)
              (if (0 <? List.length outlier_values)%nat
               then Some (Qmin_list (hd 0%Q outlier_values) outlier_values) else None)
              upper_bound
              lower_bound]
  end
else Some [].

Definition detect_outliers (df : DataFrame) : list Outlier.t :=
flat_map (fun col => try_except (outlier_attempt df col))
         (firstn 5 (numeric_cols df)).

(** ** CorrelationAnalyzer: [analyze_correlations] *)

(** [generate_correlation_insight] *)
Definition generate_correlation_insight (col1 col2 : string) (corr_value : pyfloat) : string :=
let direction := (if fgt corr_value (Fin 0) then "increases" else "decreases")%string in
let strength :=
  (if fge (fabs corr_value) (Fin (7 # 10)) then "strongly" else "moderately")%string in
("As " ++ col1 ++ " increases, " ++ col2 ++ " " ++ strength ++ " " ++ direction
 ++ " (r=" ++ format_2f rt corr_value ++ ")")%string.

(** The index pairs [i < j] of the two nested [for] loops, in loop order. *)
Fixpoint pairs {A : Type} (l : list A) : list (A * A) :=
match l with
| [] => []
| x :: rest => map (pair x) rest ++ pairs rest
end.

Definition correlation_of_pair (p : Series Q * Series Q) : list Correlation.t :=
let (col1, col2) := p in
let corr_value := pearson rt (s_vals col1) (s_vals col2) in
if fge (fabs corr_value) (Fin (1 # 2)) then
  [Correlation.mk
     (s_name col1)
     (s_name col2)
     (fround rt corr_value 3)
     (if fge (fabs corr_value) (Fin (7 # 10)) then "strong" else "moderate")%string
     (if fgt corr_value (Fin 0) then "positive" else "negative")%string
     (generate_correlation_insight (s_name col1) (s_name col2) corr_value)]
else [].

(** [key=lambda x: abs(x["correlation"])] *)
Definition corr_key (c : Correlation.t) : pyfloat := fabs (Correlation.correlation c).

(** [list.sort(key=..., reverse=True)]: stable, an element moves in front
  of another only when its key is strictly greater. *)
Definition sort_desc {A : Type} (key : A -> pyfloat) (l : list A) : list A :=
stable_sort (fun y x => flt (key x) (key y)) l.

(** The body of the [try] block runs to its end on a frame of pairwise
    distinct column names, where [corr_matrix.loc[col1, col2]] is a
    number; on a repeated name it raises and the sort is skipped. *)
Definition analyze_correlations (df : DataFrame) : list Correlation.t :=
let ncs := numeric_cols df in
let correlations :=
  if (2 <=? List.length ncs)%nat
  then sort_desc corr_key (flat_map correlation_of_pair (pairs ncs))
  else [] in
firstn 5 correlations.

(** ** SegmentAnalyzer: [analyze_segments] *)

Fixpoint count_str (s : string) (l : list string) : nat :=
match l with
| [] => O
| x :: rest => if String.eqb x s then S (count_str s rest) else count_str s rest
end.

(** The distinct values, each at its first occurrence. *)
Fixpoint distinct (l : list string) : list string :=
match l with
| [] => []
| x :: rest => x :: filter (fun y => negb (String.eqb y x)) (distinct rest)
end.

(** [Series.value_counts()]: null cells are left out, the counts come in
  descending order (equal counts keep the order of first occurrence). *)
Definition value_counts (cells : list (option string)) : list (string * nat) :=
let present := dropna cells in
stable_sort (fun y x => (snd x <? snd y)%nat)
            (map (fun s => (s, count_str s present)) (distinct present)).

Fixpoint traverse {A B : Type} (f : A -> option B) (l : list A) : option (list B) :=
match l with
| [] => Some []
| x :: rest =>
    match f x, traverse f rest with
    | Some y, Some ys => Some (y :: ys)
    | _, _ => None
    end
end.

Definition category_entry (df : DataFrame) (item : string * nat) : option Category.t :=
let (category, count) := item in
match py_div count (nrows df) with
| Some ratio =>
    Some (Category.mk category count
            (py_round rt [of_nat count; of_nat (nrows df)] (ratio * 100) 1))
| None => None
end.

Definition categorical_attempt (df : DataFrame) (col : Series string) : option (list Segment) :=
let vc := value_counts (s_vals col) in
if ((2 <=? List.length vc)%nat && (List.length vc <=? 10)%nat)%bool then
  match traverse (category_entry df) (firstn 5 vc) with
  | Some entries => Some [Categorical (s_name col) entries]
  | None => None
  end
else Some [].

(** The rows of [df[cols]]. *)
Definition rows_of (n : nat) (cols : list (Series Q)) : list (list (option Q)) :=
map (fun i => map (fun col => nth i (s_vals col) None) cols) (seq 0 n).

(** [dropna()] on rows: a row with any null cell goes. *)
Fixpoint dropna_any (rows : list (list (option Q))) : list (list Q) :=
match rows with
| [] => []
| r :: rest =>
    if forallb is_some r then dropna r :: dropna_any rest else dropna_any rest
end.

Definition Qsum (l : list Q) : Q := fold_right Qplus 0%Q l.

Definition mean (l : list Q) : Q :=
(Qsum l / inject_Z (Z.of_nat (List.length l)))%Q.

Definition median (l : list Q) : Q :=
let sorted := stable_sort Qltb l in
let n := List.length sorted in
if Nat.even n
then ((nth (n / 2 - 1) sorted 0 + nth (n / 2) sorted 0) / 2)%Q
else nth (n / 2) sorted 0%Q.

Fixpoint select_mask {A : Type} (mask : list bool) (l : list A) : list A :=
match mask, l with
| true :: m, x :: r => x :: select_mask m r
| false :: m, _ :: r => select_mask m r
| _, _ => []
end.

Definition cluster_summary (names : list string) (cluster_data : list (list Q))
  (cluster_labels : list nat) (cluster_id : nat) : option (list Cluster.t) :=
let cluster_mask := map (Nat.eqb cluster_id) cluster_labels in
let cluster_subset := select_mask cluster_mask cluster_data in
if (0 <? List.length cluster_subset)%nat then
  match py_div (List.length cluster_subset) (List.length cluster_data) with
  | None => None
  | Some ratio =>
      Some [Cluster.mk
              cluster_id
              (List.length cluster_subset)
              (py_round rt [of_nat (List.length cluster_subset);
                            of_nat (List.length cluster_data)]
                        (ratio * 100) 1)
              (map (fun j =>
                      let column := map (fun row => nth j row 0%Q) cluster_subset in
                      (nth j names EmptyString,
                       (py_round rt column (mean column) 2,
                        py_round rt column (median column) 2)))
                   (seq 0 (Nat.min 2 (List.length names))))]
  end
else Some [].

Definition optimal_k : nat := 3.

Definition clustering_attempt (df : DataFrame) (ncs : list (Series Q)) : option (list Segment) :=
let selected := firstn 3 ncs in
let cluster_data := dropna_any (rows_of (nrows df) selected) in
if (10 <=? List.length cluster_data)%nat then
  match fit_predict rt cluster_data with
  | None => None
  | Some cluster_labels =>
      if Nat.eqb (List.length cluster_labels) (List.length cluster_data) then
        match traverse (cluster_summary (map s_name selected) cluster_data cluster_labels)
                       (seq 0 optimal_k) with
        | Some summaries =>
            Some [NumericClusters "kmeans"%string (firstn 3 (map s_name selected))
                                  (List.concat summaries)]
        | None => None
        end
      else None
  end
else Some [].

Definition analyze_segments (df : DataFrame) : list Segment :=
if negb (HAS_SCIPY rt) then []
else
  let ncs := numeric_cols df in
  let ccs := categorical_cols df in
  flat_map (fun col => try_except (categorical_attempt df col)) (firstn 3 ccs)
  ++ (if ((2 <=? List.length ncs)%nat && (10 <=? nrows df)%nat)%bool
      then try_except (clustering_attempt df ncs)
      else []).

(** ** InsightSynthesizer: the second half of [analyze_dataframe] *)

(** [max(l, key=...)] on a non-empty list: the first maximal element. *)
Definition max_by {A : Type} (key : A -> Q) (x : A) (l : list A) : A :=
fold_left (fun best y => if Qltb (key best) (key y) then y else best) l x.

Definition trend_insights (trends : list Trend.t) : list Insight.t :=
let growth_trends :=
  filter (fun t => (String.eqb (Trend.direction t) "growth"
                    && Qltb 10 (Trend.overall_change_pct t))%bool) trends in
match growth_trends with
| [] => []
| g :: rest =>
    let best_growth := max_by Trend.overall_change_pct g rest in
    [Insight.mk
       "growth_opportunity"
       (Trend.metric best_growth ++ " Shows Strong Growth")
       (Trend.metric best_growth ++ " increased "
        ++ str_float rt (Trend.overall_change_pct best_growth) ++ "% over "
        ++ Trend.timeframe best_growth)
       "high"
       "metrics_performance"]
end%string.

Definition correlation_insights (correlations : list Correlation.t) : list Insight.t :=
let strong_corr :=
  filter (fun c => String.eqb (Correlation.strength c) "strong") correlations in
match strong_corr with
| [] => []
| c0 :: _ =>
    [Insight.mk
       "relationship_discovery"
       ("Strong Relationship: " ++ Correlation.variable_x c0 ++ " & "
        ++ Correlation.variable_y c0)
       (Correlation.business_insight c0)
       "medium"
       "correlation_analysis"]
end%string.

(** The [for segment in segments] loop.  Its [break] closes the body of the
  outer [if]: the loop ends at the first categorical segment that has at
  least two categories, whether or not the insight was appended. *)
Fixpoint segment_insights (segments : list Segment) : list Insight.t :=
match segments with
| [] => []
| segment :: rest =>
    if (String.eqb (segment_type segment) "categorical"
        && (2 <=? List.length (segment_entries segment))%nat)%bool then
      match segment_entries segment with
      | [] => []
      | e :: es =>
          let largest_segment := max_by Category.percentage e es in
          if Qleb 40 (Category.percentage largest_segment) then
            [Insight.mk
               "market_segmentation"
               (segment_by segment ++ " Distribution Analysis")
               (Category.name largest_segment ++ " represents "
                ++ str_float rt (Category.percentage largest_segment)
                ++ "% of the data")
               "medium"
               "segment_breakdown"]
          else []
      end
    else segment_insights rest
end%string.

Definition key_insights_of (trends : list Trend.t) (correlations : list Correlation.t)
  (segments : list Segment) : list Insight.t :=
trend_insights trends ++ correlation_insights correlations ++ segment_insights segments.

(** [determine_narrative_arc] *)
Definition determine_narrative_arc (trends : list Trend.t)
  (correlations : list Correlation.t) (segments : list Segment) : string :=
if existsb (fun t => String.eqb (Trend.direction t) "growth") trends
then "growth_story"%string
else if (2 <=? List.length correlations)%nat then "relationship_analysis"%string
else if (1 <=? List.length segments)%nat then "segmentation_insights"%string
else "data_summary"%string.

(** [recommend_chart_types] *)
Definition recommend_chart_types (trends : list Trend.t)
  (correlations : list Correlation.t) (segments : list Segment) : list string :=
let recs := match trends with [] => [] | _ => ["line"%string] end in
let recs := recs ++ match correlations with [] => [] | _ => ["scatter"%string] end in
let categorical_segments :=
  filter (fun s => String.eqb (segment_type s) "categorical") segments in
let recs := recs ++ match categorical_segments with
                    | [] => []
                    | _ => ["bar"; "donut"]%string
                    end in
let recs := recs ++ ["metrics_cards"%string] in
let recs := match recs with [] => ["bar"; "line"]%string | _ => recs end in
firstn 4 recs.

(** [analyze_dataframe]; [None] when the quality scorer raises. *)
Definition analyze_dataframe (df : DataFrame) : option Report.t :=
let basic_stats :=
  Report.mkStats
    (nrows df)
    (List.length (columns df))
    (List.length (numeric_cols df))
    (List.length (categorical_cols df))
    (missing_total df)
    (fround rt (missing_pct df) 2) in
let trends := detect_trends df in
let outliers := detect_outliers df in
let correlations := analyze_correlations df in
let segments := analyze_segments df in
match calculate_data_quality_score df with
| None => None
| Some quality_score =>
    let key_insights := key_insights_of trends correlations segments in
    Some (Report.mk
            basic_stats
            quality_score
            trends
            outliers
            correlations
            segments
            key_insights
            (Report.mkSlides
               (Z.min 8 (Z.max 4 (Z.of_nat (List.length key_insights) + 2)))
               (determine_narrative_arc trends correlations segments)
               (recommend_chart_types trends correlations segments))
            (Report.mkMeta
               (now_isoformat rt)
               (python_version rt)
               (pandas_version rt)
               (HAS_PROFILING rt)
               (HAS_SCIPY rt)))
end.

End Analyzers.

(** ** The segmentation rule as the specification words it

    Follows the spec's words ("take the first categorical Segment whose
    largest category accounts for at least 40% of rows ... stop after the
    first such segment is found"): the scan goes past a categorical segment
    that does not qualify. *)

Fixpoint spec_segment_insights (rt : Runtime) (segments : list Segment) : list Insight.t :=
  match segments with
  | [] => []
  | segment :: rest =>
      match segment with
      | Categorical by_col (e :: es) =>
          let largest_segment := max_by Category.percentage e es in
          if Qleb 40 (Category.percentage largest_segment) then
            [Insight.mk
               "market_segmentation"
               (by_col ++ " Distribution Analysis")
               (Category.name largest_segment ++ " represents "
                ++ str_float rt (Category.percentage largest_segment)
                ++ "% of the data")
               "medium"
               "segment_breakdown"]
          else spec_segment_insights rt rest
      | _ => spec_segment_insights rt rest
      end
  end%string.

(** ** A reference runtime

    One concrete behaviour of the libraries, used to run the pipeline on
    sample frames: ISO dates, linearly interpolated quantiles, Pearson's r
    from the usual sums (exact whenever r is rational, to 12 decimals
    otherwise), fixed-point float formatting. *)

Module Reference.

Definition digit_of (c : ascii) : option Z :=
  let n := Z.of_nat (nat_of_ascii c) in
  if (48 <=? n) && (n <=? 57) then Some (n - 48) else None.

Fixpoint number_of (acc : Z) (cs : list ascii) : option Z :=
  match cs with
  | [] => Some acc
  | c :: rest =>
      match digit_of c with
      | Some d => number_of (acc * 10 + d) rest
      | None => None
      end
  end.

(** [YYYY-MM-DD] to a month-then-day ordinal. *)
Definition parse_iso (s : string) : option Z :=
  match list_ascii_of_string s with
  | [y1; y2; y3; y4; "-"%char; m1; m2; "-"%char; d1; d2] =>
      match number_of 0 [y1; y2; y3; y4], number_of 0 [m1; m2], number_of 0 [d1; d2] with
      | Some y, Some m, Some d =>
          if (1 <=? m) && (m <=? 12) && (1 <=? d) && (d <=? 31)
          then Some ((y * 12 + (m - 1)) * 31 + (d - 1))
          else None
      | _, _, _ => None
      end
  | _ => None
  end.

Definition digit_char (d : Z) : ascii := ascii_of_nat (Z.to_nat (48 + d)).

Fixpoint digits (fuel : nat) (n : Z) (acc : string) : string :=
  match fuel with
  | O => acc
  | S fuel' =>
      let acc' := String (digit_char (n mod 10)) acc in
      if n / 10 =? 0 then acc' else digits fuel' (n / 10) acc'
  end.

Definition string_of_Z (n : Z) : string :=
  let body := digits (S (Z.to_nat (Z.log2 (Z.abs n)))) (Z.abs n) EmptyString in
  if n <? 0 then String "-"%char body else body.

Definition pad2 (n : Z) : string :=
  if n <? 10 then String "0"%char (string_of_Z n) else string_of_Z n.

Definition year_month (t : Z) : string :=
  (string_of_Z (t / 31 / 12) ++ "-" ++ pad2 ((t / 31) mod 12 + 1))%string.

(** Linear interpolation between the two nearest order statistics. *)
Definition linear_quantile (cells : list (option Q)) (p : Q) : pyfloat :=
  let xs := stable_sort Qltb (dropna cells) in
  match xs with
  | [] => NaN
  | x0 :: _ =>
      let h := (inject_Z (Z.of_nat (List.length xs - 1)) * p)%Q in
      let i := Z.to_nat (Qfloor h) in
      let lo := nth i xs x0 in
      let hi := nth (S i) xs lo in
      Fin (Qred (lo + (hi - lo) * (h - inject_Z (Qfloor h))))
  end.

(** Rows where both columns are present. *)
Fixpoint complete_pairs (xs ys : list (option Q)) : list (Q * Q) :=
  match xs, ys with
  | Some x :: xs', Some y :: ys' => (x, y) :: complete_pairs xs' ys'
  | _ :: xs', _ :: ys' => complete_pairs xs' ys'
  | _, _ => []
  end.

Definition cross_sum (ps : list (Q * Q)) (f g : Q * Q -> Q) : Q :=
  let n := inject_Z (Z.of_nat (List.length ps)) in
  (n * Qsum (map (fun p => f p * g p) ps) - Qsum (map f ps) * Qsum (map g ps))%Q.

(** The square root of a non-negative rational, to 12 decimals. *)
Definition Qsqrt (q : Q) : Q :=
  let a := Qnum q in
  let b := Zpos (Qden q) in
  let scale := 10 ^ 12 in
  Qred (inject_Z (Z.sqrt (a * b * scale * scale)) / inject_Z (b * scale)).

Definition pearson_r (xs ys : list (option Q)) : pyfloat :=
  let ps := complete_pairs xs ys in
  let sxy := cross_sum ps fst snd in
  let sxx := cross_sum ps fst fst in
  let syy := cross_sum ps snd snd in
  if Qeq_bool (sxx * syy) 0 then NaN
  else Fin (Qred (sxy / Qsqrt (Qred (sxx * syy)))).

(** A fixed-point rendering with [nd] decimals of a value that has no
    more than [nd] decimals. *)
Definition fixed (nd : nat) (q : Q) : string :=
  let scale := 10 ^ Z.of_nat nd in
  let n := Qfloor (Qabs q * inject_Z scale) in
  let frac := string_of_Z (n mod scale) in
  let zeros := fix pad (k : nat) (s : string) :=
                 match k with
                 | O => s
                 | S k' => if (String.length s <? nd)%nat
                           then pad k' (String "0"%char s) else s
                 end in
  ((if Qltb q 0 then "-" else EmptyString) ++ string_of_Z (n / scale) ++ "."
   ++ zeros nd frac)%string.

(** Python's rule for a value exactly half-way: to the even neighbour. *)
Definition half_even (q : Q) (ndigits : nat) : bool :=
  Z.odd (Qfloor (q * inject_Z (10 ^ Z.of_nat ndigits))).

Definition format_float_2f (x : pyfloat) : string :=
  match x with
  | Fin q => fixed 2 (round_decimal (half_even q 2) q 2)
  | PInf => "inf"
  | NInf => "-inf"
  | NaN => "nan"
  end%string.

(** Clustering is reported as failing: the sample frames below stay
    under the ten rows it needs. *)
Definition runtime : Runtime :=
  mkRuntime parse_iso year_month linear_quantile pearson_r
            (fun _ => None)
            (fixed 1) format_float_2f
            false true
            "2024-01-01T00:00:00" "3.11.0" "2.1.0"
            (fun _ _ _ => false)
            (fun _ q ndigits => half_even q ndigits).

End Reference.

(** ** Sample frames *)

Module Samples.

Definition s (x : string) : option string := Some x.
Definition n (x : Z) : option Q := Some (inject_Z x).

(** Two monthly observations of one metric. *)
Definition two_months : DataFrame :=
  mkDF 2 [ObjCol "month" [s "2024-01-01"; s "2024-02-01"];
          NumCol "revenue" [n 10; n 20]] eq_refl.

(** A metric doubling from 50 to 100 over three months, given out of
    date order. *)
Definition doubling : DataFrame :=
  mkDF 3 [ObjCol "month" [s "2024-03-01"; s "2024-01-01"; s "2024-02-01"];
          NumCol "revenue" [n 100; n 50; n 70]] eq_refl.

(** A metric going from -5 to -10: twice the first value. *)
Definition doubling_negative : DataFrame :=
  mkDF 3 [ObjCol "month" [s "2024-01-01"; s "2024-02-01"; s "2024-03-01"];
          NumCol "balance" [n (-5); n (-7); n (-10)]] eq_refl.

(** One value far from the others. *)
Definition with_outlier : DataFrame :=
  mkDF 5 [NumCol "spend" [n 1; n 2; n 3; n 4; n 100]] eq_refl.

(** Three copies of one column: every pair has r = 1. *)
Definition three_copies : DataFrame :=
  mkDF 3 [NumCol "a" [n 1; n 2; n 3];
          NumCol "b" [n 1; n 2; n 3];
          NumCol "c" [n 1; n 2; n 3]] eq_refl.

(** Three rows, one category twice. *)
Definition thirds : DataFrame :=
  mkDF 3 [ObjCol "plan" [s "basic"; s "basic"; s "pro"]] eq_refl.

(** Ten rows; [region] splits 3/3/2/2, [tier] splits 8/2. *)
Definition two_categoricals : DataFrame :=
  mkDF 10 [ObjCol "region" [s "north"; s "north"; s "north"; s "south"; s "south";
                            s "south"; s "east"; s "east"; s "west"; s "west"];
           ObjCol "tier" [s "basic"; s "basic"; s "basic"; s "basic"; s "basic";
                          s "basic"; s "basic"; s "basic"; s "premium"; s "premium"]]
       eq_refl.

(** One numeric column and a text column holding a single value. *)
Definition plain : DataFrame :=
  mkDF 3 [ObjCol "source" [s "crm"; s "crm"; s "crm"];
          NumCol "id" [n 1; n 2; n 3]] eq_refl.

End Samples.

(** ** Vocabulary of the properties *)

(** A Python float that is a number. *)
Definition is_fin (x : pyfloat) : Prop :=
  match x with Fin _ => True | _ => False end.

(** [a] may stand in front of [b] in a list sorted by [before]: [b] is not
    strictly before [a]. *)
Definition in_order {A : Type} (before : A -> A -> bool) (a b : A) : Prop :=
  before b a = false.

(** The fences of a column and the cells beyond them, as the detector
    computes them. *)
Definition lower_fence (rt : Runtime) (col : Series Q) : pyfloat :=
  let Q1 := quantile rt (s_vals col) (1 # 4) in
  let Q3 := quantile rt (s_vals col) (3 # 4) in
  fsub Q1 (fmul (Fin (3 # 2)) (fsub Q3 Q1)).

Definition upper_fence (rt : Runtime) (col : Series Q) : pyfloat :=
  let Q1 := quantile rt (s_vals col) (1 # 4) in
  let Q3 := quantile rt (s_vals col) (3 # 4) in
  fadd Q3 (fmul (Fin (3 # 2)) (fsub Q3 Q1)).

Definition strictly_outside (lo hi : pyfloat) (v : Q) : Prop :=
  flt (Fin v) lo = true \/ flt hi (Fin v) = true.

Definition beyond_fences (rt : Runtime) (col : Series Q) : list Q :=
  dropna (filter (fun c => cell_lt c (lower_fence rt col) || cell_gt c (upper_fence rt col))
                 (s_vals col)).

(** What one entry of the result says about the frame it comes from. *)
Definition reports_pair (rt : Runtime) (df : DataFrame) (c : Correlation.t) : Prop :=
  exists col1 col2 : Series Q,
    In col1 (numeric_cols df) /\ In col2 (numeric_cols df) /\
    Correlation.variable_x c = s_name col1 /\
    Correlation.variable_y c = s_name col2 /\
    fge (fabs (pearson rt (s_vals col1) (s_vals col2))) (Fin (1 # 2)) = true /\
    Correlation.correlation c = fround rt (pearson rt (s_vals col1) (s_vals col2)) 3 /\
    fge (corr_key c) (Fin (1 # 2)) = true.

(** The number of distinct non-null values of a column. *)
Definition nunique (cells : list (option string)) : nat :=
  List.length (distinct (dropna cells)).

(** A list holding no insight, or a single one of the given kind. *)
Definition at_most_one_of (kind : string) (l : list Insight.t) : Prop :=
  (List.length l <= 1)%nat /\ Forall (fun i => Insight.type_ i = kind) l.

(** Some trend has direction "growth". *)
Definition has_growth (trends : list Trend.t) : Prop :=
  exists t, In t trends /\ Trend.direction t = "growth"%string.

(** ** Reading a pair's usable rows *)

(** The metric at the earliest and at the latest usable date: [values[0]]
    and [values[-1]] of the source. *)
Definition first_value (rows : list (Z * Q)) : Q := hd 0%Q (map snd rows).
Definition last_value (rows : list (Z * Q)) : Q := last (map snd rows) 0%Q.

(** ** Command line: [main] *)

(** What [pd.read_csv] does with the path it is given. *)
Inductive csv_load : Type :=
| FileNotFound                (* raises FileNotFoundError *)
| EmptyData                   (* raises pd.errors.EmptyDataError *)
| LoadError                   (* raises anything else *)
| Loaded (df : DataFrame).

Inductive output_format : Type := Json | Summary.

Record Args : Type := mkArgs {
  csv_path : string;
  format : output_format;          (* --output_format, default json *)
  quality_threshold : Z            (* --quality_threshold, default 50 *)
}.

(** What [main] prints: one of its JSON error objects, the report, or the
    five summary lines. *)
Inductive printed : Type :=
| ErrorEmptyCsv                                   (* "CSV file is empty" *)
| ErrorBelowThreshold (score threshold : Z)       (* "Data quality score .. below threshold .." *)
| ErrorNotFound (path : string)                   (* "CSV file not found: .." *)
| ErrorEmptyOrInvalid                             (* "CSV file is empty or invalid" *)
| ErrorAnalysisFailed                             (* "Analysis failed: .." *)
| PrintedReport (r : Report.t)
| PrintedSummary (score : Z) (rows : nat) (insights : nat) (slides : Z) (arc : string).

(** [main]: the text printed and the exit status of the process. *)
Definition main (rt : Runtime) (read_csv : string -> csv_load) (args : Args) : printed * Z :=
  match read_csv (csv_path args) with
  | FileNotFound => (ErrorNotFound (csv_path args), 1)
  | EmptyData => (ErrorEmptyOrInvalid, 1)
  | LoadError => (ErrorAnalysisFailed, 1)
  | Loaded df =>
      if Nat.eqb (nrows df) 0 then (ErrorEmptyCsv, 1)
      else
        match analyze_dataframe rt df with
        | None => (ErrorAnalysisFailed, 1)
        | Some analysis_result =>
            if Report.data_quality_score analysis_result <? quality_threshold args then
              (ErrorBelowThreshold (Report.data_quality_score analysis_result)
                                   (quality_threshold args), 1)
            else
              match format args with
              | Json => (PrintedReport analysis_result, 0)
              | Summary =>
                  (PrintedSummary
                     (Report.data_quality_score analysis_result)
                     (Report.row_count (Report.basic_statistics analysis_result))
                     (List.length (Report.key_insights analysis_result))
                     (Report.total_slides_suggested
                        (Report.slide_recommendations analysis_result))
                     (Report.narrative_arc (Report.slide_recommendations analysis_result)),
                   0)
              end
        end
  end.

(** A frame [main] loads in the samples: a complete table of twelve rows. *)
Definition sample_complete : DataFrame :=
  mkDF 12 [NumCol "units" (map (fun k => Some (inject_Z (Z.of_nat k))) (seq 1 12))] eq_refl.

(** Some segment is of the categorical variant. *)
Definition has_categorical (segments : list Segment) : Prop :=
  exists s, In s segments /\ segment_type s = "categorical"%string.

(** More sample frames. *)

(** A metric that starts at zero. *)
Definition sample_zero_start : DataFrame :=
  mkDF 3 [ObjCol "month" [Some "2024-01-01"; Some "2024-02-01"; Some "2024-03-01"]%string;
          NumCol "signups" [Some 0%Q; Some 5%Q; Some 9%Q]] eq_refl.

(** A date column whose sixth value is not a date. *)
Definition sample_bad_date : DataFrame :=
  mkDF 6 [ObjCol "day" [Some "2024-01-01"; Some "2024-01-02"; Some "2024-01-03";
                        Some "2024-01-04"; Some "2024-01-05"; Some "n/a"]%string;
          NumCol "visits" [Some 1%Q; Some 2%Q; Some 3%Q; Some 4%Q; Some 5%Q; Some 6%Q]]
       eq_refl.

(** A numeric column without any value beside one with an outlier. *)
Definition sample_null_column : DataFrame :=
  mkDF 5 [NumCol "empty" [None; None; None; None; None];
          NumCol "spend" [Some 1%Q; Some 2%Q; Some 3%Q; Some 4%Q; Some 100%Q]] eq_refl.

(** The entry the analyzer builds for a pair of columns that passes the
    threshold. *)
Definition entry_of_pair (rt : Runtime) (col1 col2 : Series Q) : Correlation.t :=
  let corr_value := pearson rt (s_vals col1) (s_vals col2) in
  Correlation.mk
    (s_name col1)
    (s_name col2)
    (fround rt corr_value 3)
    (if fge (fabs corr_value) (Fin (7 # 10)) then "strong" else "moderate")%string
    (if fgt corr_value (Fin 0) then "positive" else "negative")%string
    (generate_correlation_insight rt (s_name col1) (s_name col2) corr_value).

(** The rows [cluster_id] selects: the size of the cluster it labels. *)
Definition cluster_size (cluster_labels : list nat) (cluster_data : list (list Q))
    (cluster_id : nat) : nat :=
  List.length (select_mask (map (Nat.eqb cluster_id) cluster_labels) cluster_data).

(** A runtime whose clustering labels the rows 0, 1, 2, 0, 1, 2, ... *)
Definition runtime_round_robin : Runtime :=
  mkRuntime Reference.parse_iso Reference.year_month Reference.linear_quantile
            Reference.pearson_r
            (fun rows => Some (map (fun i => Nat.modulo i 3) (seq 0 (List.length rows))))
            (Reference.fixed 1) Reference.format_float_2f
            false true
            "2024-01-01T00:00:00" "3.11.0" "2.1.0"
            (fun _ _ _ => false)
            (fun _ q ndigits => Reference.half_even q ndigits).

(** A runtime on which the scipy / scikit-learn import failed. *)
Definition runtime_without_scipy : Runtime :=
  mkRuntime Reference.parse_iso Reference.year_month Reference.linear_quantile
            Reference.pearson_r
            (fun _ => None)
            (Reference.fixed 1) Reference.format_float_2f
            false false
            "2024-01-01T00:00:00" "3.11.0" "2.1.0"
            (fun _ _ _ => false)
            (fun _ q ndigits => Reference.half_even q ndigits).

(** Ten rows of two numeric columns. *)
Definition sample_two_features : DataFrame :=
  mkDF 10 [NumCol "price" (map (fun k => Some (inject_Z (Z.of_nat k))) (seq 1 10));
           NumCol "units" (map (fun k => Some (inject_Z (Z.of_nat (k * k)))) (seq 1 10))]
       eq_refl.

(** [r] is [x] rounded to the unit [1 / scale]: a multiple of the unit
    nearest to [x], either of the two when [x] lies half-way. *)
Definition rounds_to (scale : positive) (x r : Q) : Prop :=
  exists k : Z,
    r = Qmake k scale /\
    (Qabs (x * inject_Z (Zpos scale) - inject_Z k) <= 1 # 2)%Q.

(** The properties of one cluster entry, given the number of clustered
    rows. *)
Definition cluster_ok (n_clustered : nat) (c : Cluster.t) : Prop :=
  (Cluster.cluster_id c < 3)%nat /\
  (1 <= Cluster.size c)%nat /\
  rounds_to 10 (of_nat (Cluster.size c) / of_nat n_clustered * 100)
            (Cluster.percentage c) /\
  (List.length (Cluster.characteristics c) <= 2)%nat.

(** The rows the clustering works on: those of the first three numeric
    columns that hold no null. *)
Definition complete_rows (df : DataFrame) : list (list Q) :=
  dropna_any (rows_of (nrows df) (firstn 3 (numeric_cols df))).

(** No two columns of the frame bear the same name. *)
Fixpoint distinct_strings (l : list string) : bool :=
  match l with
  | [] => true
  | x :: rest => negb (existsb (String.eqb x) rest) && distinct_strings rest
  end.

Definition distinct_names (df : DataFrame) : bool :=
  distinct_strings (map col_name (columns df)).

(** Two rows of one date: the first usable value depends on how the sort
    leaves them. *)
Definition sample_tied_dates : DataFrame :=
  mkDF 3 [ObjCol "month" [Some "2024-01-01"; Some "2024-01-01"; Some "2024-02-01"]%string;
          NumCol "revenue" [Some 50%Q; Some 100%Q; Some 100%Q]]
       eq_refl.

(** The reference libraries with the other outcome on ties: the sort
    swaps rows of equal date, and a binary value just under the half-way
    point is rounded down. *)
Definition runtime_other_ties : Runtime :=
  mkRuntime Reference.parse_iso Reference.year_month Reference.linear_quantile
            Reference.pearson_r
            (fun _ => None)
            (Reference.fixed 1) Reference.format_float_2f
            false true
            "2024-01-01T00:00:00" "3.11.0" "2.1.0"
            (fun _ _ _ => true)
            (fun _ _ _ => false).

(** Eighty rows, no column. *)
Definition sample_eighty_rows : DataFrame := mkDF 80 [] eq_refl.

(** The entries of the correlation analyzer in the order in which its two
    loops append them, before the sort and the cut. *)
Definition loop_entries (rt : Runtime) (df : DataFrame) : list Correlation.t :=
  flat_map (correlation_of_pair rt) (pairs (numeric_cols df)).

(** The entry's absolute coefficient is [k]. *)
Definition has_key (k : pyfloat) (c : Correlation.t) : bool :=
  fle k (corr_key c) && fle (corr_key c) k.



(** The test that keeps the values other than [x]. *)
Definition differs_from (x : string) : string -> bool :=
  fun y => negb (String.eqb y x).

(** * Properties *)

(** ** Lists, sorting, rounding *)

Lemma insert_by_length {A : Type} (before : A -> A -> bool) (x : A) (l : list A) :
  List.length (insert_by before x l) = S (List.length l).
Proof.
  induction l as [| y l IH]; simpl; [reflexivity |].
  destruct (before y x); simpl; [now rewrite IH | reflexivity].
Qed.

Lemma stable_sort_length {A : Type} (before : A -> A -> bool) (l : list A) :
  List.length (stable_sort before l) = List.length l.
Proof.
  induction l as [| x l IH]; simpl; [reflexivity |].
  now rewrite insert_by_length, IH.
Qed.

Lemma insert_by_In {A : Type} (before : A -> A -> bool) (x z : A) (l : list A) :
  In z (insert_by before x l) <-> z = x \/ In z l.
Proof.
  induction l as [| y l IH]; simpl.
  - intuition.
  - destruct (before y x); simpl; rewrite ?IH; intuition.
Qed.

Lemma stable_sort_In {A : Type} (before : A -> A -> bool) (z : A) (l : list A) :
  In z (stable_sort before l) <-> In z l.
Proof.
  induction l as [| x l IH]; simpl; [tauto |].
  rewrite insert_by_In, IH. intuition.
Qed.

Section SortedInsertion.

Context {A : Type} (before : A -> A -> bool).
Hypothesis before_asym : forall x y, before x y = true -> before y x = false.

Lemma insert_by_sorted (x : A) (l : list A) :
  Sorted (in_order before) l -> Sorted (in_order before) (insert_by before x l).
Proof.
  induction l as [| y l IH]; intros Hs; simpl.
  - repeat constructor.
  - destruct (before y x) eqn:Hyx.
    + inversion Hs as [| ? ? Hs' Hhd]; subst.
      constructor; [now apply IH |].
      destruct l as [| z l']; simpl.
      * constructor. now apply before_asym.
      * destruct (before z x); constructor.
        -- now inversion Hhd.
        -- now apply before_asym.
    + constructor; [assumption |]. constructor. exact Hyx.
Qed.

Lemma stable_sort_sorted (l : list A) : Sorted (in_order before) (stable_sort before l).
Proof.
  induction l as [| x l IH]; simpl; [constructor |].
  now apply insert_by_sorted.
Qed.

End SortedInsertion.

Lemma Sorted_firstn {A : Type} (R : A -> A -> Prop) (n : nat) (l : list A) :
  Sorted R l -> Sorted R (firstn n l).
Proof.
  revert l. induction n as [| n IH]; intros l Hs; simpl; [constructor |].
  destruct l as [| x l]; [constructor |].
  inversion Hs as [| ? ? Hs' Hhd]; subst.
  constructor; [now apply IH |].
  destruct n; simpl; [constructor |].
  destruct l; [constructor |]. inversion Hhd; subst. now constructor.
Qed.

Lemma Sorted_weaken {A : Type} (R R' : A -> A -> Prop) (P : A -> Prop) (l : list A) :
  (forall a b, P a -> P b -> R a b -> R' a b) ->
  Forall P l -> Sorted R l -> Sorted R' l.
Proof.
  intros HR HP Hs. induction Hs as [| x l Hs IH Hhd]; [constructor |].
  inversion HP as [| ? ? Px Pl]; subst.
  constructor; [now apply IH |].
  destruct Hhd as [| y l' Hxy]; constructor.
  inversion Pl; subst. now apply HR.
Qed.

Lemma Forall_firstn {A : Type} (P : A -> Prop) (n : nat) (l : list A) :
  Forall P l -> Forall P (firstn n l).
Proof.
  intros H. revert n. induction H as [| x l Hx Hl IH]; intros [| n]; simpl;
    constructor; auto.
Qed.

Lemma In_firstn {A : Type} (x : A) (n : nat) (l : list A) :
  In x (firstn n l) -> In x l.
Proof.
  revert l. induction n as [| n IH]; intros [| y l]; simpl; try tauto.
  intros [H | H]; auto.
Qed.

Lemma In_dropna {A : Type} (x : A) (l : list (option A)) :
  In x (dropna l) <-> In (Some x) l.
Proof.
  induction l as [| [y |] l IH]; simpl.
  - tauto.
  - rewrite IH. split; intros [H | H]; auto; left; congruence.
  - rewrite IH. split; [auto | intros [H | H]; [discriminate | assumption]].
Qed.

Lemma traverse_Forall2 {A B : Type} (f : A -> option B) (l : list A) (ys : list B) :
  traverse f l = Some ys -> Forall2 (fun x y => f x = Some y) l ys.
Proof.
  revert ys. induction l as [| x l IH]; simpl; intros ys H.
  - injection H as <-. constructor.
  - destruct (f x) eqn:Hfx; [| discriminate].
    destruct (traverse f l); [| discriminate].
    injection H as <-. constructor; auto.
Qed.

Lemma Qltb_lt (a b : Q) : Qltb a b = true <-> (a < b)%Q.
Proof.
  unfold Qltb. rewrite Qlt_alt. destruct (a ?= b)%Q; split; congruence.
Qed.

Lemma Qltb_ge (a b : Q) : Qltb a b = false <-> (b <= a)%Q.
Proof.
  unfold Qltb. rewrite Qle_alt.
  rewrite <- (Qcompare_antisym a b).
  destruct (a ?= b)%Q; simpl; split; congruence.
Qed.

Lemma Qleb_le (a b : Q) : Qleb a b = true <-> (a <= b)%Q.
Proof.
  unfold Qleb. rewrite Qle_alt. destruct (a ?= b)%Q; split; congruence.
Qed.

Lemma round_nearest_bounds (up : bool) (q : Q) :
  Qfloor q <= round_nearest up q <= Qfloor q + 1.
Proof.
  unfold round_nearest.
  destruct (Qcompare _ _); [destruct up | |]; lia.
Qed.

Lemma round_nearest_eq (up : bool) (p q : Q) :
  (p == q)%Q -> round_nearest up p = round_nearest up q.
Proof.
  intros H. unfold round_nearest. cbv zeta.
  assert (Hf : Qfloor p = Qfloor q) by now apply Qfloor_comp.
  rewrite Hf.
  assert (Hc : (p - inject_Z (Qfloor q) ?= 1 # 2)%Q = (q - inject_Z (Qfloor q) ?= 1 # 2)%Q).
  { apply Qcompare_comp; [now rewrite H | reflexivity]. }
  now rewrite Hc.
Qed.

Lemma round_nearest_int (up : bool) (n : Z) : round_nearest up (inject_Z n) = n.
Proof.
  unfold round_nearest. cbv zeta. rewrite Qfloor_Z.
  assert (H : (inject_Z n - inject_Z n < 1 # 2)%Q) by lra.
  rewrite Qlt_alt in H. now rewrite H.
Qed.

Lemma round_nearest_ge (up : bool) (n : Z) (q : Q) :
  (inject_Z n <= q)%Q -> n <= round_nearest up q.
Proof.
  intros H. apply Qfloor_resp_le in H. rewrite Qfloor_Z in H.
  pose proof (round_nearest_bounds up q). lia.
Qed.

Lemma round_nearest_le (up : bool) (n : Z) (q : Q) :
  (q <= inject_Z n)%Q -> round_nearest up q <= n.
Proof.
  intros H.
  pose proof (Qfloor_resp_le _ _ H) as Hf. rewrite Qfloor_Z in Hf.
  destruct (Z.eq_dec (Qfloor q) n) as [He | Hne].
  - assert (Hq : (q == inject_Z n)%Q).
    { apply Qle_antisym; [assumption |]. rewrite <- He. apply Qfloor_le. }
    rewrite (round_nearest_eq up _ _ Hq), round_nearest_int. lia.
  - pose proof (round_nearest_bounds up q). lia.
Qed.

Lemma round_nearest_close (up : bool) (q : Q) :
  (Qabs (q - inject_Z (round_nearest up q)) <= 1 # 2)%Q.
Proof.
  pose proof (Qfloor_le q) as Hlo.
  pose proof (Qlt_floor q) as Hhi. rewrite inject_Z_plus in Hhi.
  change (inject_Z 1) with 1%Q in Hhi.
  unfold round_nearest. cbv zeta.
  apply Qabs_Qle_condition.
  destruct (q - inject_Z (Qfloor q) ?= 1 # 2)%Q eqn:E.
  - apply Qeq_alt in E.
    destruct up; [rewrite inject_Z_plus; change (inject_Z 1) with 1%Q |]; lra.
  - apply Qlt_alt in E. lra.
  - apply Qgt_alt in E. rewrite inject_Z_plus. change (inject_Z 1) with 1%Q. lra.
Qed.

Lemma py_round_1_rounds_to (rt : Runtime) (operands : list Q) (x : Q) :
  rounds_to 10 x (py_round rt operands x 1).
Proof.
  exists (round_nearest (round_tie_up rt operands x 1) (x * inject_Z 10)).
  split; [reflexivity | apply round_nearest_close].
Qed.

(** ** QualityScorer *)

Lemma py_min_40_fin (x : pyfloat) :
  x <> NInf -> is_fin (py_min (Fin 40) x).
Proof.
  intros Hx. unfold py_min.
  destruct x as [q | | |]; simpl; try exact I.
  - destruct (Qltb q 40); exact I.
  - contradiction.
Qed.

Lemma np_true_divide_nonneg (a b : Z) :
  0 <= a -> 0 <= b ->
  match np_true_divide a b with
  | Fin q => (0 <= q)%Q
  | PInf | NaN => True
  | NInf => False
  end.
Proof.
  intros Ha Hb. unfold np_true_divide.
  destruct (Z.eqb_spec b 0) as [-> | Hne].
  - destruct (Z.compare_spec a 0); try exact I. lia.
  - unfold Qdiv. apply Qmult_le_0_compat.
    + unfold Qle; simpl. lia.
    + apply Qinv_le_0_compat. unfold Qle; simpl. lia.
Qed.

Lemma missing_pct_times2_not_ninf (df : DataFrame) :
  fmul (missing_pct df) (Fin 2) <> NInf.
Proof.
  unfold missing_pct.
  pose proof (np_true_divide_nonneg (Z.of_nat (missing_total df))
                (Z.of_nat (nrows df * List.length (columns df)))
                ltac:(lia) ltac:(lia)) as H.
  destruct (np_true_divide _ _); simpl in *; try discriminate.
  contradiction.
Qed.

Lemma fin_add_fin (x : pyfloat) (q : Q) : is_fin x -> is_fin (fadd x (Fin q)).
Proof. destruct x; simpl; tauto. Qed.

Lemma fin_sub_fin (x : pyfloat) (q : Q) : is_fin x -> is_fin (fsub x (Fin q)).
Proof. destruct x; simpl; tauto. Qed.

Lemma fin_sub_from_fin (q : Q) (x : pyfloat) : is_fin x -> is_fin (fsub (Fin q) x).
Proof. destruct x; simpl; tauto. Qed.

(** The score handed to [int] is always a finite number. *)
Lemma running_score_fin (df : DataFrame) : is_fin (running_score df).
Proof.
  unfold running_score.
  set (s0 := fsub (Fin 100) (py_min (Fin 40) (fmul (missing_pct df) (Fin 2)))).
  assert (H0 : is_fin s0).
  { apply fin_sub_from_fin, py_min_40_fin, missing_pct_times2_not_ninf. }
  set (s1 := if (100 <=? nrows df)%nat then fadd s0 (Fin 5)
             else if (nrows df <? 10)%nat then fsub s0 (Fin 20) else s0).
  assert (H1 : is_fin s1).
  { subst s1. destruct (100 <=? nrows df)%nat.
    - now apply fin_add_fin.
    - destruct (nrows df <? 10)%nat; [now apply fin_sub_fin | exact H0]. }
  set (s2 := if ((2 <=? _)%nat && (1 <=? _)%nat)%bool then fadd s1 (Fin 10) else s1).
  assert (H2 : is_fin s2).
  { subst s2. destruct (_ && _)%bool; [now apply fin_add_fin | exact H1]. }
  destruct (20 <? _)%nat; [now apply fin_sub_fin | exact H2].
Qed.

(** A frame without rows: [0 / 0] is [nan], the penalty is the full 40. *)
Example quality_score_zero_rows :
  calculate_data_quality_score (mkDF 0 [NumCol "x" []; ObjCol "y" []] eq_refl) = Some 40.
Proof. reflexivity. Qed.

(** A frame whose every cell is null. *)
Example quality_score_all_null :
  calculate_data_quality_score
    (mkDF 2 [NumCol "x" [None; None]; ObjCol "y" [None; None]] eq_refl) = Some 40.
Proof. reflexivity. Qed.

(** C2. For every dataset, a zero-row or all-null one included, the quality
    scorer returns (it does not raise) an integer between 0 and 100. *)
Theorem quality_score_total_and_bounded (df : DataFrame) :
  exists s : Z,
    calculate_data_quality_score df = Some s /\ 0 <= s <= 100.
Proof.
  unfold calculate_data_quality_score.
  pose proof (running_score_fin df) as Hfin.
  destruct (running_score df) as [q | | |]; simpl in Hfin; try contradiction.
  simpl. exists (Z.max 0 (Z.min 100 (Qtrunc q))).
  split; [reflexivity |].
  split.
  - apply Z.le_max_l.
  - apply Z.max_lub; [lia | apply Z.le_min_l].
Qed.

(** ** TrendDetector *)

Lemma detect_trends_first_date (rt : Runtime) (df : DataFrame)
    (dc : Series string) (others : list (Series string)) :
  date_cols rt df = dc :: others ->
  detect_trends rt df =
  flat_map (fun mc => try_except (trend_attempt rt dc mc)) (firstn 3 (numeric_cols df)).
Proof.
  intros Hd. unfold detect_trends. rewrite Hd.
  destruct (numeric_cols df) as [| m ms]; [reflexivity |].
  simpl firstn at 2. simpl flat_map at 1. now rewrite app_nil_r.
Qed.

Lemma trend_attempt_short (rt : Runtime) (dc : Series string) (mc : Series Q)
    (rows : list (Z * Q)) :
  usable_rows rt dc mc = Some rows ->
  (List.length rows < 3)%nat ->
  trend_attempt rt dc mc = Some [].
Proof.
  intros Hu Hlen. unfold trend_attempt. rewrite Hu.
  destruct (Nat.leb_spec 3 (List.length rows)); [lia | reflexivity].
Qed.

(** C8. A (date column, metric) pair that keeps fewer than three rows once
    the rows with a null date or a null metric are dropped: the body of the
    [try] block returns without raising and appends nothing, so the pair
    contributes no trend to the detector's result. *)
Theorem short_pair_yields_no_trend (rt : Runtime) (df : DataFrame)
    (dc : Series string) (others : list (Series string))
    (pre post : list (Series Q)) (mc : Series Q) (rows : list (Z * Q)) :
  date_cols rt df = dc :: others ->
  firstn 3 (numeric_cols df) = pre ++ mc :: post ->
  usable_rows rt dc mc = Some rows ->
  (List.length rows < 3)%nat ->
  trend_attempt rt dc mc = Some [] /\
  detect_trends rt df =
    flat_map (fun m => try_except (trend_attempt rt dc m)) pre ++
    flat_map (fun m => try_except (trend_attempt rt dc m)) post.
Proof.
  intros Hd Hm Hu Hlen.
  pose proof (trend_attempt_short rt dc mc rows Hu Hlen) as Hshort.
  split; [exact Hshort |].
  rewrite (detect_trends_first_date rt df dc others Hd), Hm.
  rewrite flat_map_app. simpl. now rewrite Hshort.
Qed.

Lemma short_pair_yields_no_trend_witness :
  trend_attempt Reference.runtime
    (mkSeries "month" [Samples.s "2024-01-01"; Samples.s "2024-02-01"])
    (mkSeries "revenue" [Samples.n 10; Samples.n 20]) = Some [] /\
  detect_trends Reference.runtime Samples.two_months = [].
Proof.
  apply (short_pair_yields_no_trend Reference.runtime Samples.two_months
           (mkSeries "month" [Samples.s "2024-01-01"; Samples.s "2024-02-01"]) []
           [] [] (mkSeries "revenue" [Samples.n 10; Samples.n 20])
           [(752928, 10%Q); (752959, 20%Q)]).
  - reflexivity.
  - reflexivity.
  - reflexivity.
  - simpl. lia.
Defined.

Lemma pct_change_nonzero (a b : Q) :
  ~ (a == 0)%Q -> pct_change a b = ((b - a) / Qabs a * 100)%Q.
Proof.
  intros Ha. unfold pct_change.
  destruct (Qeq_bool a 0) eqn:E; [| reflexivity].
  apply Qeq_bool_iff in E. contradiction.
Qed.

Lemma pct_change_doubling (a b : Q) :
  (0 < a)%Q -> (b == 2 * a)%Q -> (pct_change a b == 100)%Q.
Proof.
  intros Ha Hb. rewrite pct_change_nonzero by lra.
  rewrite Qabs_pos by lra. rewrite Hb. field. lra.
Qed.

Lemma trend_direction_growth (x : Q) :
  (5 < x)%Q -> trend_direction x = "growth"%string.
Proof.
  intros H. unfold trend_direction.
  apply Qltb_lt in H. now rewrite H.
Qed.

Lemma py_round_1_eq {rt : Runtime} {operands : list Q} (x : Q) (n : Z) :
  (x == inject_Z n)%Q -> (py_round rt operands x 1 == inject_Z n)%Q.
Proof.
  intros H.
  change (py_round rt operands x 1)
    with (Qmake (round_nearest (round_tie_up rt operands x 1) (x * inject_Z 10)) 10).
  assert (Hx : (x * inject_Z 10 == inject_Z (n * 10))%Q).
  { rewrite H. rewrite inject_Z_mult. reflexivity. }
  rewrite (round_nearest_eq _ _ _ Hx), round_nearest_int.
  unfold Qeq; simpl. lia.
Qed.

Lemma trend_attempt_long (rt : Runtime) (dc : Series string) (mc : Series Q)
    (rows : list (Z * Q)) :
  usable_rows rt dc mc = Some rows ->
  (3 <= List.length rows)%nat ->
  exists t,
    trend_attempt rt dc mc = Some [t] /\
    Trend.metric t = s_name mc /\
    Trend.direction t = trend_direction (pct_change (first_value rows) (last_value rows)) /\
    Trend.overall_change_pct t =
      py_round rt [first_value rows; last_value rows]
               (pct_change (first_value rows) (last_value rows)) 1.
Proof.
  intros Hu Hlen. unfold trend_attempt. rewrite Hu.
  destruct (Nat.leb_spec 3 (List.length rows)); [| lia].
  rewrite length_map.
  destruct (Nat.leb_spec 2 (List.length rows)); [| lia].
  eexists. split; [reflexivity |]. simpl. repeat split.
Qed.

(** C6 (as amended). For the first date-like column and a metric among the
    first three numeric columns, take the usable rows in the order
    [sort_values] leaves them (rows of equal date in the order the runtime
    chooses).  When there are at least three of them and the metric starts
    at a positive value and ends at twice that value, the detector reports
    that metric with direction "growth" and an overall change of 100, a
    nearest tenth of (last - first) / |first| * 100. *)
Theorem doubling_metric_reports_growth (rt : Runtime) (df : DataFrame)
    (dc : Series string) (others : list (Series string))
    (mc : Series Q) (rows : list (Z * Q)) :
  date_cols rt df = dc :: others ->
  In mc (firstn 3 (numeric_cols df)) ->
  usable_rows rt dc mc = Some rows ->
  (3 <= List.length rows)%nat ->
  (0 < first_value rows)%Q ->
  (last_value rows == 2 * first_value rows)%Q ->
  exists t,
    In t (detect_trends rt df) /\
    Trend.metric t = s_name mc /\
    Trend.direction t = "growth"%string /\
    rounds_to 10
      ((last_value rows - first_value rows) / Qabs (first_value rows) * 100)
      (Trend.overall_change_pct t) /\
    (Trend.overall_change_pct t == 100)%Q.
Proof.
  intros Hd Hm Hu Hlen Hpos Hdbl.
  destruct (trend_attempt_long rt dc mc rows Hu Hlen) as (t & Ht & Hmet & Hdir & Hpct).
  pose proof (pct_change_doubling _ _ Hpos Hdbl) as H100.
  exists t. repeat split.
  - rewrite (detect_trends_first_date rt df dc others Hd).
    apply in_flat_map. exists mc. split; [assumption |].
    rewrite Ht. simpl. now left.
  - exact Hmet.
  - rewrite Hdir. apply trend_direction_growth. rewrite H100. reflexivity.
  - rewrite Hpct. rewrite pct_change_nonzero by lra. apply py_round_1_rounds_to.
  - rewrite Hpct. apply (py_round_1_eq _ 100). exact H100.
Qed.

Lemma doubling_metric_reports_growth_witness :
  exists t,
    In t (detect_trends Reference.runtime Samples.doubling) /\
    Trend.metric t = "revenue"%string /\
    Trend.direction t = "growth"%string /\
    rounds_to 10 ((100 - 50) / Qabs 50 * 100) (Trend.overall_change_pct t) /\
    (Trend.overall_change_pct t == 100)%Q.
Proof.
  apply (doubling_metric_reports_growth Reference.runtime Samples.doubling
           (mkSeries "month" [Samples.s "2024-03-01"; Samples.s "2024-01-01";
                              Samples.s "2024-02-01"]) []
           (mkSeries "revenue" [Samples.n 100; Samples.n 50; Samples.n 70])
           [(752928, 50%Q); (752959, 70%Q); (752990, 100%Q)]).
  - reflexivity.
  - simpl. left. reflexivity.
  - reflexivity.
  - simpl. lia.
  - reflexivity.
  - reflexivity.
Defined.

(** C6 (as stated) fails: a metric going from -5 to -10 ends at twice its
    first value, and the detector reports it as a decline of 100. *)
Lemma doubling_negative_metric_declines :
  ~ (forall (rt : Runtime) (df : DataFrame) (dc : Series string)
            (others : list (Series string)) (mc : Series Q) (rows : list (Z * Q)),
        date_cols rt df = dc :: others ->
        In mc (firstn 3 (numeric_cols df)) ->
        usable_rows rt dc mc = Some rows ->
        (3 <= List.length rows)%nat ->
        (last_value rows == 2 * first_value rows)%Q ->
        exists t,
          In t (detect_trends rt df) /\
          Trend.metric t = s_name mc /\
          Trend.direction t = "growth"%string /\
          (Trend.overall_change_pct t == 100)%Q).
Proof.
  intros H.
  destruct (H Reference.runtime Samples.doubling_negative
              (mkSeries "month" [Samples.s "2024-01-01"; Samples.s "2024-02-01";
                                 Samples.s "2024-03-01"]) []
              (mkSeries "balance" [Samples.n (-5); Samples.n (-7); Samples.n (-10)])
              [(752928, (-5)%Q); (752959, (-7)%Q); (752990, (-10)%Q)])
    as (t & Hin & _ & Hdir & _).
  - reflexivity.
  - simpl. left. reflexivity.
  - reflexivity.
  - simpl. lia.
  - reflexivity.
  - vm_compute in Hin. destruct Hin as [<- | []]. discriminate Hdir.
Qed.

(** What the detector reports on that frame. *)
Example doubling_negative_trend :
  map (fun t => (Trend.direction t, Trend.overall_change_pct t))
      (detect_trends Reference.runtime Samples.doubling_negative)
  = [("decline"%string, (-1000 # 10)%Q)].
Proof. reflexivity. Qed.

(** ** OutlierDetector *)

Lemma Qmax_list_In (x : Q) (l : list Q) : In (Qmax_list x l) (x :: l).
Proof.
  unfold Qmax_list. revert x. induction l as [| y l IH]; intros x; simpl.
  - now left.
  - destruct (Qltb x y).
    + destruct (IH y) as [H | H]; [right; left; exact H | right; right; exact H].
    + destruct (IH x) as [H | H]; [left; exact H | right; right; exact H].
Qed.

Lemma Qmin_list_In (x : Q) (l : list Q) : In (Qmin_list x l) (x :: l).
Proof.
  unfold Qmin_list. revert x. induction l as [| y l IH]; intros x; simpl.
  - now left.
  - destruct (Qltb y x).
    + destruct (IH y) as [H | H]; [right; left; exact H | right; right; exact H].
    + destruct (IH x) as [H | H]; [left; exact H | right; right; exact H].
Qed.

Lemma hd_cons_incl {A : Type} (d : A) (l : list A) (x : A) :
  l <> [] -> In x (hd d l :: l) -> In x l.
Proof.
  destruct l as [| y l]; [congruence |]. simpl. intuition.
Qed.

Lemma beyond_fences_outside (rt : Runtime) (col : Series Q) (v : Q) :
  In v (beyond_fences rt col) ->
  In (Some v) (s_vals col) /\
  strictly_outside (lower_fence rt col) (upper_fence rt col) v.
Proof.
  unfold beyond_fences. rewrite In_dropna, filter_In.
  intros [Hin Hc]. split; [assumption |].
  apply orb_true_iff in Hc. unfold strictly_outside.
  destruct Hc as [Hc | Hc]; [left | right]; exact Hc.
Qed.

Lemma outlier_attempt_group (rt : Runtime) (df : DataFrame) (col : Series Q)
    (g : Outlier.t) :
  In g (try_except (outlier_attempt rt df col)) ->
  Outlier.column g = s_name col /\
  Outlier.lower g = lower_fence rt col /\
  Outlier.upper g = upper_fence rt col /\
  Outlier.outlier_count g = List.length (beyond_fences rt col) /\
  (1 <= Outlier.outlier_count g)%nat /\
  Outlier.highest g =
    Some (Qmax_list (hd 0%Q (beyond_fences rt col)) (beyond_fences rt col)) /\
  Outlier.lowest g =
    Some (Qmin_list (hd 0%Q (beyond_fences rt col)) (beyond_fences rt col)).
Proof.
  unfold outlier_attempt.
  change (dropna (filter _ (s_vals col))) with (beyond_fences rt col).
  destruct (Nat.ltb_spec 0 (List.length (beyond_fences rt col))) as [Hpos | Hz];
    [| simpl; tauto].
  destruct (py_div _ _) as [ratio |]; [| simpl; tauto].
  simpl. intros [<- | []]. simpl. repeat split. exact Hpos.
Qed.

(** C5. Every group the outlier detector emits belongs to one of the first
    five numeric columns; its bounds are Q1 - 1.5 IQR and Q3 + 1.5 IQR of
    that column; it counts the cells strictly outside the bounds, at least
    one; and the extreme values it reports are cells of the column lying
    strictly outside the bounds. *)
Theorem outlier_group_within_spec (rt : Runtime) (df : DataFrame) (g : Outlier.t) :
  In g (detect_outliers rt df) ->
  exists col : Series Q,
    In col (firstn 5 (numeric_cols df)) /\
    Outlier.column g = s_name col /\
    Outlier.lower g =
      fsub (quantile rt (s_vals col) (1 # 4))
           (fmul (Fin (3 # 2))
                 (fsub (quantile rt (s_vals col) (3 # 4)) (quantile rt (s_vals col) (1 # 4)))) /\
    Outlier.upper g =
      fadd (quantile rt (s_vals col) (3 # 4))
           (fmul (Fin (3 # 2))
                 (fsub (quantile rt (s_vals col) (3 # 4)) (quantile rt (s_vals col) (1 # 4)))) /\
    Outlier.outlier_count g = List.length (beyond_fences rt col) /\
    (1 <= Outlier.outlier_count g)%nat /\
    (forall v, In v (beyond_fences rt col) ->
               In (Some v) (s_vals col) /\
               strictly_outside (Outlier.lower g) (Outlier.upper g) v) /\
    exists hi lo : Q,
      Outlier.highest g = Some hi /\ Outlier.lowest g = Some lo /\
      In (Some hi) (s_vals col) /\ In (Some lo) (s_vals col) /\
      strictly_outside (Outlier.lower g) (Outlier.upper g) hi /\
      strictly_outside (Outlier.lower g) (Outlier.upper g) lo.
Proof.
  unfold detect_outliers. intros Hg.
  apply in_flat_map in Hg. destruct Hg as (col & Hcol & Hg).
  destruct (outlier_attempt_group rt df col g Hg)
    as (Hname & Hlo & Hup & Hcnt & Hpos & Hhi & Hlow).
  assert (Hne : beyond_fences rt col <> []).
  { intros E. rewrite Hcnt, E in Hpos. simpl in Hpos. lia. }
  exists col. split; [assumption |]. split; [assumption |].
  split; [exact Hlo |]. split; [exact Hup |].
  split; [exact Hcnt |]. split; [exact Hpos |].
  rewrite Hlo, Hup. split.
  - intros v Hv. now apply beyond_fences_outside.
  - eexists; eexists. split; [exact Hhi |]. split; [exact Hlow |].
    pose proof (hd_cons_incl 0%Q _ _ Hne (Qmax_list_In _ _)) as Hmax.
    pose proof (hd_cons_incl 0%Q _ _ Hne (Qmin_list_In _ _)) as Hmin.
    apply beyond_fences_outside in Hmax, Hmin.
    tauto.
Qed.

Lemma outlier_group_within_spec_witness :
  exists col : Series Q,
    In col (firstn 5 (numeric_cols Samples.with_outlier)) /\
    Outlier.column (Outlier.mk "spend" 1 (200 # 10) (Some 100%Q) (Some 100%Q)
                               (Fin (14 # 2)) (Fin (-2 # 2))) = s_name col.
Proof.
  destruct (outlier_group_within_spec Reference.runtime Samples.with_outlier
              (Outlier.mk "spend" 1 (200 # 10) (Some 100%Q) (Some 100%Q)
                          (Fin (14 # 2)) (Fin (-2 # 2))))
    as (col & Hcol & Hname & _).
  - vm_compute. left. reflexivity.
  - exists col. split; assumption.
Defined.

(** ** CorrelationAnalyzer *)

Lemma In_pairs {A : Type} (a b : A) (l : list A) :
  In (a, b) (pairs l) -> In a l /\ In b l.
Proof.
  induction l as [| x l IH]; simpl; [tauto |].
  intros H. apply in_app_or in H. destruct H as [H | H].
  - apply in_map_iff in H. destruct H as (y & E & Hy).
    injection E as <- <-. auto.
  - destruct (IH H). auto.
Qed.

Lemma flt_asym (x y : pyfloat) : flt x y = true -> flt y x = false.
Proof.
  destruct x as [a | | |], y as [b | | |]; simpl; try congruence.
  rewrite Qltb_lt, Qltb_ge. intros H. lra.
Qed.

Lemma fle_of_not_flt (x y : pyfloat) :
  x <> NaN -> y <> NaN -> flt x y = false -> fle y x = true.
Proof.
  destruct x as [a | | |], y as [b | | |]; simpl; try congruence.
  intros _ _. rewrite Qltb_ge, Qleb_le. tauto.
Qed.

Lemma fge_half_not_nan (x : pyfloat) : fge x (Fin (1 # 2)) = true -> x <> NaN.
Proof. destruct x; simpl; congruence. Qed.

Lemma py_round_3_abs_ge_half (rt : Runtime) (operands : list Q) (q : Q) :
  (1 # 2 <= Qabs q)%Q -> (1 # 2 <= Qabs (py_round rt operands q 3))%Q.
Proof.
  intros H.
  change (py_round rt operands q 3)
    with (Qmake (round_nearest (round_tie_up rt operands q 3) (q * inject_Z 1000)) 1000).
  destruct (Qlt_le_dec q 0) as [Hneg | Hpos].
  - rewrite Qabs_neg in H by lra.
    assert (Hr : round_nearest (round_tie_up rt operands q 3) (q * inject_Z 1000) <= -500).
    { apply round_nearest_le.
      change (inject_Z (-500)) with (-500 # 1)%Q.
      change (inject_Z 1000) with (1000 # 1)%Q. lra. }
    rewrite Qabs_neg; unfold Qle, Qopp; simpl; lia.
  - rewrite Qabs_pos in H by lra.
    assert (Hr : 500 <= round_nearest (round_tie_up rt operands q 3) (q * inject_Z 1000)).
    { apply round_nearest_ge.
      change (inject_Z 500) with (500 # 1)%Q.
      change (inject_Z 1000) with (1000 # 1)%Q. lra. }
    rewrite Qabs_pos; unfold Qle; simpl; lia.
Qed.

Lemma fround_3_abs_ge_half (rt : Runtime) (r : pyfloat) :
  fge (fabs r) (Fin (1 # 2)) = true ->
  fge (fabs (fround rt r 3)) (Fin (1 # 2)) = true.
Proof.
  destruct r as [q | | |]; simpl; try congruence.
  rewrite !Qleb_le. apply py_round_3_abs_ge_half.
Qed.

Lemma correlation_of_pair_reports (rt : Runtime) (df : DataFrame)
    (col1 col2 : Series Q) (c : Correlation.t) :
  In col1 (numeric_cols df) -> In col2 (numeric_cols df) ->
  In c (correlation_of_pair rt (col1, col2)) ->
  reports_pair rt df c.
Proof.
  intros H1 H2. unfold correlation_of_pair.
  destruct (fge (fabs (pearson rt (s_vals col1) (s_vals col2))) (Fin (1 # 2))) eqn:Hge;
    [| simpl; tauto].
  intros [<- | []]. exists col1, col2. unfold corr_key. simpl.
  repeat split; try assumption.
  now apply fround_3_abs_ge_half.
Qed.

Lemma sort_desc_sorted {A : Type} (key : A -> pyfloat) (l : list A) :
  Forall (fun a => key a <> NaN) l ->
  Sorted (fun a b => fle (key b) (key a) = true) (sort_desc key l).
Proof.
  intros Hk. unfold sort_desc.
  apply (Sorted_weaken
           (in_order (fun y x => flt (key x) (key y)))
           (fun a b => fle (key b) (key a) = true)
           (fun a => key a <> NaN)).
  - intros a b Ha Hb Hab. unfold in_order in Hab. now apply fle_of_not_flt.
  - rewrite Forall_forall in *. intros x Hx. apply Hk.
    exact (proj1 (stable_sort_In _ x l) Hx).
  - apply stable_sort_sorted. intros x y. apply flt_asym.
Qed.

Lemma insert_by_filter {A : Type} (before : A -> A -> bool) (p : A -> bool)
    (x : A) (l : list A) :
  (forall a b, p a = true -> p b = true -> before a b = false) ->
  filter p (insert_by before x l) = filter p (x :: l).
Proof.
  intros Hp. induction l as [| y l IH]; [reflexivity |].
  simpl insert_by. destruct (before y x) eqn:E; [| reflexivity].
  simpl in *. rewrite IH.
  destruct (p x) eqn:Ex; destruct (p y) eqn:Ey; try reflexivity.
  rewrite (Hp y x Ey Ex) in E. discriminate E.
Qed.

Lemma stable_sort_filter {A : Type} (before : A -> A -> bool) (p : A -> bool)
    (l : list A) :
  (forall a b, p a = true -> p b = true -> before a b = false) ->
  filter p (stable_sort before l) = filter p l.
Proof.
  intros Hp. induction l as [| x l IH]; [reflexivity |].
  change (stable_sort before (x :: l)) with (insert_by before x (stable_sort before l)).
  rewrite (insert_by_filter before p x _ Hp). simpl. now rewrite IH.
Qed.

Lemma flt_of_fle (x y : pyfloat) : fle y x = true -> flt x y = false.
Proof.
  destruct x as [a | | |], y as [b | | |]; simpl; try congruence.
  unfold Qleb, Qltb. rewrite <- (Qcompare_antisym a b).
  destruct (Qcompare a b); simpl; congruence.
Qed.

Lemma fle_chain (x y z : pyfloat) :
  fle x y = true -> fle y z = true -> fle x z = true.
Proof.
  destruct x as [a | | |], y as [b | | |], z as [c | | |]; simpl; try congruence.
  rewrite !Qleb_le. intros. lra.
Qed.

Lemma sort_desc_ties (k : pyfloat) (l : list Correlation.t) :
  filter (has_key k) (sort_desc corr_key l) = filter (has_key k) l.
Proof.
  unfold sort_desc. apply stable_sort_filter.
  intros a b Ha Hb. unfold has_key in Ha, Hb.
  apply andb_true_iff in Ha, Hb. destruct Ha as [Ha1 Ha2], Hb as [Hb1 Hb2].
  apply flt_of_fle. exact (fle_chain _ _ _ Ha2 Hb1).
Qed.

(** C3 (as amended). On a frame whose column names are pairwise distinct,
    every entry of the analyzer's result stands for a pair of numeric
    columns whose Pearson coefficient has absolute value at least 0.5 (and
    so has the rounded coefficient reported); the entries come by absolute
    rounded coefficient in non-increasing order; the entries of one
    absolute coefficient come in the order in which the loops reach their
    pairs, as a first part of all such entries; there are at most five
    entries. *)
Theorem correlations_thresholded_sorted_capped (rt : Runtime) (df : DataFrame) :
  distinct_names df = true ->
  Forall (reports_pair rt df) (analyze_correlations rt df) /\
  Sorted (fun a b => fle (corr_key b) (corr_key a) = true) (analyze_correlations rt df) /\
  (forall k : pyfloat,
     exists later : list Correlation.t,
       filter (has_key k) (loop_entries rt df)
       = filter (has_key k) (analyze_correlations rt df) ++ later) /\
  (List.length (analyze_correlations rt df) <= 5)%nat.
Proof.
  intros _.
  assert (Hties : forall k : pyfloat,
             exists later : list Correlation.t,
               filter (has_key k) (loop_entries rt df)
               = filter (has_key k) (analyze_correlations rt df) ++ later).
  { intros k. unfold analyze_correlations. fold (loop_entries rt df).
    destruct (2 <=? _)%nat.
    - exists (filter (has_key k) (skipn 5 (sort_desc corr_key (loop_entries rt df)))).
      rewrite <- filter_app, firstn_skipn. symmetry. apply sort_desc_ties.
    - rewrite firstn_nil. simpl. eexists. reflexivity. }
  revert Hties.
  unfold analyze_correlations.
  set (entries := flat_map (correlation_of_pair rt) (pairs (numeric_cols df))).
  assert (He : Forall (reports_pair rt df) entries).
  { apply Forall_forall. intros c Hc. subst entries.
    apply in_flat_map in Hc. destruct Hc as ([col1 col2] & Hp & Hc).
    apply In_pairs in Hp. destruct Hp.
    now apply (correlation_of_pair_reports rt df col1 col2). }
  assert (Hk : Forall (fun c => corr_key c <> NaN) entries).
  { eapply Forall_impl; [| exact He].
    intros c (? & ? & _ & _ & _ & _ & _ & _ & H). now apply fge_half_not_nan. }
  intros Hties. split; [| split; [| split]].
  - apply Forall_firstn.
    destruct (2 <=? _)%nat; [| constructor].
    apply Forall_forall. intros c Hc.
    rewrite Forall_forall in He. apply He.
    exact (proj1 (stable_sort_In _ c entries) Hc).
  - apply Sorted_firstn.
    destruct (2 <=? _)%nat; [| constructor].
    now apply sort_desc_sorted.
  - exact Hties.
  - rewrite length_firstn. lia.
Qed.

Lemma correlations_thresholded_sorted_capped_witness :
  Forall (reports_pair Reference.runtime Samples.three_copies)
         (analyze_correlations Reference.runtime Samples.three_copies) /\
  (List.length (analyze_correlations Reference.runtime Samples.three_copies) <= 5)%nat.
Proof.
  destruct (correlations_thresholded_sorted_capped Reference.runtime Samples.three_copies)
    as (H1 & _ & _ & H2).
  - reflexivity.
  - split; assumption.
Defined.

(** C3 (as stated) fails: three copies of one column give three pairs with
    coefficient 1, so two neighbours of the result have the same absolute
    coefficient. *)
Lemma equal_correlations_are_not_strictly_sorted :
  ~ (forall (rt : Runtime) (df : DataFrame),
        Sorted (fun a b => flt (corr_key b) (corr_key a) = true)
               (analyze_correlations rt df)).
Proof.
  intros H. specialize (H Reference.runtime Samples.three_copies).
  vm_compute in H.
  inversion H as [| ? ? _ Hhd]; subst.
  inversion Hhd as [| ? ? Hlt]; subst.
  discriminate Hlt.
Qed.

(** The coefficients reported for that frame. *)
Example three_copies_correlations :
  map Correlation.correlation (analyze_correlations Reference.runtime Samples.three_copies)
  = [Fin (1000 # 1000); Fin (1000 # 1000); Fin (1000 # 1000)].
Proof. reflexivity. Qed.

(** ** SegmentAnalyzer *)

Lemma value_counts_length (cells : list (option string)) :
  List.length (value_counts cells) = nunique cells.
Proof.
  unfold value_counts, nunique. now rewrite stable_sort_length, length_map.
Qed.

Lemma value_counts_item (cells : list (option string)) (item : string * nat) :
  In item (value_counts cells) ->
  snd item = count_str (fst item) (dropna cells).
Proof.
  unfold value_counts. intros H.
  apply (proj1 (stable_sort_In _ _ _)) in H.
  apply in_map_iff in H. destruct H as (x & <- & _). reflexivity.
Qed.

Lemma value_counts_sorted (cells : list (option string)) :
  Sorted (fun a b => (snd b <= snd a)%nat) (value_counts cells).
Proof.
  unfold value_counts.
  apply (Sorted_weaken
           (in_order (fun y x : string * nat => (snd x <? snd y)%nat))
           (fun a b => (snd b <= snd a)%nat)
           (fun _ => True)).
  - intros a b _ _ Hab. unfold in_order in Hab.
    apply Nat.ltb_ge in Hab. exact Hab.
  - apply Forall_forall. auto.
  - apply stable_sort_sorted. intros x y Hxy.
    apply Nat.ltb_lt in Hxy. apply Nat.ltb_ge. lia.
Qed.

Lemma category_entry_some (rt : Runtime) (df : DataFrame) (item : string * nat) (e : Category.t) :
  category_entry rt df item = Some e ->
  nrows df <> O /\
  Category.name e = fst item /\
  Category.count e = snd item /\
  Category.percentage e =
    py_round rt [of_nat (snd item); of_nat (nrows df)]
             (of_nat (snd item) / of_nat (nrows df) * 100) 1.
Proof.
  destruct item as [category count]. unfold category_entry, py_div.
  destruct (nrows df) as [| k]; [discriminate |].
  intros H. injection H as <-. simpl. repeat split. discriminate.
Qed.

Lemma Forall2_length_eq {A B : Type} (R : A -> B -> Prop) (l : list A) (l' : list B) :
  Forall2 R l l' -> List.length l = List.length l'.
Proof. induction 1; simpl; congruence. Qed.

Lemma Forall2_Sorted {A B : Type} (R : A -> B -> Prop)
    (RA : A -> A -> Prop) (RB : B -> B -> Prop) (l : list A) (l' : list B) :
  (forall a a' b b', R a b -> R a' b' -> RA a a' -> RB b b') ->
  Forall2 R l l' -> Sorted RA l -> Sorted RB l'.
Proof.
  intros Hmono HF. induction HF as [| a b l l' Hab HF IH]; intros Hs.
  - constructor.
  - inversion Hs as [| ? ? Hs' Hhd]; subst.
    constructor; [now apply IH |].
    destruct HF as [| a' b' l l' Hab' HF]; constructor.
    inversion Hhd; subst. eapply Hmono; eassumption.
Qed.

Lemma Forall2_Forall_r {A B : Type} (R : A -> B -> Prop) (P : A -> Prop)
    (Q : B -> Prop) (l : list A) (l' : list B) :
  (forall a b, P a -> R a b -> Q b) ->
  Forall P l -> Forall2 R l l' -> Forall Q l'.
Proof.
  intros H HP HF. induction HF; constructor; inversion HP; subst; eauto.
Qed.

Lemma categorical_attempt_segment (rt : Runtime) (df : DataFrame) (col : Series string) (seg : Segment) :
  In seg (try_except (categorical_attempt rt df col)) ->
  exists entries,
    seg = Categorical (s_name col) entries /\
    (2 <= nunique (s_vals col) <= 10)%nat /\
    Forall2 (fun item e => category_entry rt df item = Some e)
            (firstn 5 (value_counts (s_vals col))) entries.
Proof.
  unfold categorical_attempt. rewrite value_counts_length.
  destruct (Nat.leb_spec 2 (nunique (s_vals col))); simpl; [| tauto].
  destruct (Nat.leb_spec (nunique (s_vals col)) 10); simpl; [| tauto].
  destruct (traverse _ _) as [entries |] eqn:Ht; simpl; [| tauto].
  intros [<- | []]. exists entries. split; [reflexivity |].
  split; [lia |]. now apply traverse_Forall2.
Qed.

Lemma clustering_attempt_not_categorical (rt : Runtime) (df : DataFrame)
    (ncs : list (Series Q)) (by_col : string) (entries : list Category.t) :
  ~ In (Categorical by_col entries) (try_except (clustering_attempt rt df ncs)).
Proof.
  unfold clustering_attempt.
  destruct (10 <=? _)%nat; [| intros []].
  destruct (fit_predict rt _); [| intros []].
  destruct (Nat.eqb _ _); [| intros []].
  destruct (traverse (cluster_summary _ _ _ _) _); [| intros []].
  intros [H | []]. discriminate H.
Qed.

Lemma categorical_segment_origin (rt : Runtime) (df : DataFrame)
    (by_col : string) (entries : list Category.t) :
  In (Categorical by_col entries) (analyze_segments rt df) ->
  exists col,
    In col (firstn 3 (categorical_cols df)) /\
    In (Categorical by_col entries) (try_except (categorical_attempt rt df col)).
Proof.
  unfold analyze_segments.
  destruct (negb (HAS_SCIPY rt)); [simpl; tauto |].
  intros H. apply in_app_or in H. destruct H as [H | H].
  - apply in_flat_map in H. exact H.
  - destruct (_ && _)%bool; [| contradiction].
    now apply clustering_attempt_not_categorical in H.
Qed.

(** C10 (as amended). A categorical segment emitted by the analyzer comes
    from one of the first three categorical columns, one whose number of
    distinct values lies in [2,10]; it lists between 2 and 5 categories, by
    count in descending order; each listed category carries its number of
    occurrences and, as percentage, a nearest tenth of that count divided
    by the row count of the frame times 100 (a value half-way between two
    tenths goes to either). *)
Theorem categorical_segment_shape (rt : Runtime) (df : DataFrame)
    (by_col : string) (entries : list Category.t) :
  In (Categorical by_col entries) (analyze_segments rt df) ->
  exists col : Series string,
    In col (firstn 3 (categorical_cols df)) /\
    by_col = s_name col /\
    (2 <= nunique (s_vals col) <= 10)%nat /\
    (2 <= List.length entries <= 5)%nat /\
    Sorted (fun a b => (Category.count b <= Category.count a)%nat) entries /\
    Forall (fun e =>
              Category.count e = count_str (Category.name e) (dropna (s_vals col)) /\
              nrows df <> O /\
              rounds_to 10
                (of_nat (Category.count e) / of_nat (nrows df) * 100)
                (Category.percentage e))
           entries.
Proof.
  intros H.
  destruct (categorical_segment_origin rt df by_col entries H) as (col & Hcol & Hseg).
  destruct (categorical_attempt_segment rt df col _ Hseg) as (entries' & E & Hn & HF).
  injection E as -> <-.
  exists col. split; [assumption |]. split; [reflexivity |]. split; [assumption |].
  split; [| split].
  - rewrite <- (Forall2_length_eq _ _ _ HF), length_firstn, value_counts_length. lia.
  - apply (Forall2_Sorted _ (fun a b => (snd b <= snd a)%nat) _ _ _) with (3 := Sorted_firstn _ 5 _ (value_counts_sorted (s_vals col))) (2 := HF).
    intros a a' b b' Hb Hb' Hle.
    apply category_entry_some in Hb, Hb'.
    destruct Hb as (_ & _ & -> & _), Hb' as (_ & _ & -> & _). exact Hle.
  - apply (Forall2_Forall_r _ (fun item => snd item = count_str (fst item) (dropna (s_vals col)))
                            _ _ _) with (3 := HF).
    + intros item e Hitem He. apply category_entry_some in He.
      destruct He as (Hrows & Hname & Hcount & Hpct).
      rewrite Hname, Hcount, Hpct.
      repeat split; try assumption. apply py_round_1_rounds_to.
    + apply Forall_firstn. apply Forall_forall. apply value_counts_item.
Qed.

Lemma categorical_segment_shape_witness :
  exists col : Series string,
    In col (firstn 3 (categorical_cols Samples.thirds)) /\
    "plan"%string = s_name col /\
    (2 <= nunique (s_vals col) <= 10)%nat /\
    Forall (fun e =>
              Category.count e = count_str (Category.name e) (dropna (s_vals col)) /\
              nrows Samples.thirds <> O /\
              rounds_to 10
                (of_nat (Category.count e) / of_nat (nrows Samples.thirds) * 100)
                (Category.percentage e))
           [Category.mk "basic" 2 (667 # 10); Category.mk "pro" 1 (333 # 10)].
Proof.
  destruct (categorical_segment_shape Reference.runtime Samples.thirds "plan"
              [Category.mk "basic" 2 (667 # 10); Category.mk "pro" 1 (333 # 10)])
    as (col & Hcol & Hname & Hn & _ & _ & Hall).
  - vm_compute. left. reflexivity.
  - exists col. repeat split; try assumption; apply Hn.
Defined.

(** 23 rows of 80 are 28.75 percent: listed as 28.8 or as 28.7, as the
    binary computation falls. *)
Example half_way_percentage :
  option_map Category.percentage
             (category_entry Reference.runtime sample_eighty_rows ("basic"%string, 23%nat))
  = Some (288 # 10)%Q /\
  option_map Category.percentage
             (category_entry runtime_other_ties sample_eighty_rows ("basic"%string, 23%nat))
  = Some (287 # 10)%Q.
Proof. split; reflexivity. Qed.

(** C10 (as stated) fails: in a frame of three rows a category that occurs
    twice is listed with 66.7, not with 2 / 3 * 100. *)
Lemma listed_percentage_is_rounded :
  ~ (forall (rt : Runtime) (df : DataFrame) (by_col : string)
            (entries : list Category.t) (e : Category.t),
        In (Categorical by_col entries) (analyze_segments rt df) ->
        In e entries ->
        (Category.percentage e ==
         inject_Z (Z.of_nat (Category.count e)) / inject_Z (Z.of_nat (nrows df)) * 100)%Q).
Proof.
  intros H.
  specialize (H Reference.runtime Samples.thirds "plan"%string
                [Category.mk "basic" 2 (667 # 10); Category.mk "pro" 1 (333 # 10)]
                (Category.mk "basic" 2 (667 # 10))).
  assert (Hq : ~ (667 # 10 == inject_Z 2 / inject_Z 3 * 100)%Q).
  { intros E. vm_compute in E. discriminate E. }
  apply Hq, H.
  - vm_compute. left. reflexivity.
  - left. reflexivity.
Qed.

(** ** InsightSynthesizer *)

Lemma at_most_one_nil (kind : string) : at_most_one_of kind [].
Proof. split; [simpl; lia | constructor]. Qed.

Lemma at_most_one_single (kind : string) (i : Insight.t) :
  Insight.type_ i = kind -> at_most_one_of kind [i].
Proof. intros H. split; [simpl; lia | repeat constructor; exact H]. Qed.

Lemma trend_insights_kind (rt : Runtime) (trends : list Trend.t) :
  at_most_one_of "growth_opportunity" (trend_insights rt trends).
Proof.
  unfold trend_insights. destruct (filter _ trends).
  - apply at_most_one_nil.
  - now apply at_most_one_single.
Qed.

Lemma correlation_insights_kind (correlations : list Correlation.t) :
  at_most_one_of "relationship_discovery" (correlation_insights correlations).
Proof.
  unfold correlation_insights. destruct (filter _ correlations).
  - apply at_most_one_nil.
  - now apply at_most_one_single.
Qed.

Lemma segment_insights_kind (rt : Runtime) (segments : list Segment) :
  at_most_one_of "market_segmentation" (segment_insights rt segments).
Proof.
  induction segments as [| segment rest IH]; simpl.
  - apply at_most_one_nil.
  - destruct (_ && _)%bool; [| exact IH].
    destruct (segment_entries segment) as [| e es]; [apply at_most_one_nil |].
    destruct (Qleb _ _); [now apply at_most_one_single | apply at_most_one_nil].
Qed.

(** The loop never looks past the first categorical segment that lists at
    least two categories. *)
Lemma segment_insights_stops (rt : Runtime) (by_col : string)
    (entries : list Category.t) (rest : list Segment) :
  (2 <= List.length entries)%nat ->
  segment_insights rt (Categorical by_col entries :: rest) =
  segment_insights rt [Categorical by_col entries].
Proof.
  intros H.
  destruct entries as [| e1 [| e2 es]]; simpl in H; try lia.
  reflexivity.
Qed.

Lemma analyze_dataframe_defined (rt : Runtime) (df : DataFrame) :
  exists r : Report.t,
    analyze_dataframe rt df = Some r /\
    Report.trends r = detect_trends rt df /\
    Report.correlations r = analyze_correlations rt df /\
    Report.segments r = analyze_segments rt df /\
    Report.key_insights r =
      key_insights_of rt (Report.trends r) (Report.correlations r) (Report.segments r) /\
    Report.total_slides_suggested (Report.slide_recommendations r) =
      Z.min 8 (Z.max 4 (Z.of_nat (List.length (Report.key_insights r)) + 2)) /\
    Report.narrative_arc (Report.slide_recommendations r) =
      determine_narrative_arc (Report.trends r) (Report.correlations r) (Report.segments r).
Proof.
  pose proof (running_score_fin df) as Hfin.
  unfold analyze_dataframe, calculate_data_quality_score.
  destruct (running_score df) as [q | | |]; simpl in Hfin; try contradiction.
  simpl. eexists. split; [reflexivity |]. simpl. repeat split.
Qed.

(** C9. The report always exists, and its insights are at most one
    growth_opportunity, then at most one relationship_discovery, then at
    most one market_segmentation: no more than three in all, so that the
    suggested slide count is 4 or 5. *)
Theorem key_insights_one_per_kind (rt : Runtime) (df : DataFrame) :
  exists (r : Report.t) (growth relationship segmentation : list Insight.t),
    analyze_dataframe rt df = Some r /\
    Report.key_insights r = growth ++ relationship ++ segmentation /\
    at_most_one_of "growth_opportunity" growth /\
    at_most_one_of "relationship_discovery" relationship /\
    at_most_one_of "market_segmentation" segmentation /\
    (List.length (Report.key_insights r) <= 3)%nat /\
    (Report.total_slides_suggested (Report.slide_recommendations r) = 4 \/
     Report.total_slides_suggested (Report.slide_recommendations r) = 5).
Proof.
  destruct (analyze_dataframe_defined rt df) as (r & Hr & _ & _ & _ & Hk & Hslides & _).
  pose proof (trend_insights_kind rt (Report.trends r)) as Hg.
  pose proof (correlation_insights_kind (Report.correlations r)) as Hc.
  pose proof (segment_insights_kind rt (Report.segments r)) as Hsg.
  exists r, (trend_insights rt (Report.trends r)),
         (correlation_insights (Report.correlations r)),
         (segment_insights rt (Report.segments r)).
  assert (Hlen : (List.length (Report.key_insights r) <= 3)%nat).
  { rewrite Hk. unfold key_insights_of. rewrite !length_app.
    destruct Hg, Hc, Hsg. lia. }
  repeat split; try assumption; try apply Hg; try apply Hc; try apply Hsg.
  rewrite Hslides. lia.
Qed.

Lemma flat_map_nil {A B : Type} (f : A -> list B) (l : list A) :
  (forall x, In x l -> f x = []) -> flat_map f l = [].
Proof.
  induction l as [| x l IH]; intros H; simpl; [reflexivity |].
  rewrite (H x (or_introl eq_refl)), IH; [reflexivity |].
  intros y Hy. apply H. now right.
Qed.

Lemma detect_trends_no_date (rt : Runtime) (df : DataFrame) :
  date_cols rt df = [] -> detect_trends rt df = [].
Proof. intros H. unfold detect_trends. now rewrite H. Qed.

Lemma analyze_correlations_few_numeric (rt : Runtime) (df : DataFrame) :
  (List.length (numeric_cols df) < 2)%nat -> analyze_correlations rt df = [].
Proof.
  intros H. unfold analyze_correlations.
  destruct (Nat.leb_spec 2 (List.length (numeric_cols df))); [lia | reflexivity].
Qed.

Lemma categorical_attempt_skips (rt : Runtime) (df : DataFrame) (col : Series string) :
  ~ (2 <= nunique (s_vals col) <= 10)%nat ->
  try_except (categorical_attempt rt df col) = [].
Proof.
  intros H. unfold categorical_attempt. rewrite value_counts_length.
  destruct (Nat.leb_spec 2 (nunique (s_vals col)));
    destruct (Nat.leb_spec (nunique (s_vals col)) 10); simpl; try reflexivity.
  lia.
Qed.

Lemma analyze_segments_nothing (rt : Runtime) (df : DataFrame) :
  (List.length (numeric_cols df) < 2)%nat ->
  (forall col, In col (categorical_cols df) ->
               ~ (2 <= nunique (s_vals col) <= 10)%nat) ->
  analyze_segments rt df = [].
Proof.
  intros Hn Hc. unfold analyze_segments.
  destruct (negb (HAS_SCIPY rt)); [reflexivity |].
  rewrite flat_map_nil.
  - destruct (Nat.leb_spec 2 (List.length (numeric_cols df))); [lia | reflexivity].
  - intros col Hcol. apply categorical_attempt_skips, Hc.
    now apply In_firstn in Hcol.
Qed.

Lemma has_growth_existsb (trends : list Trend.t) :
  existsb (fun t => String.eqb (Trend.direction t) "growth") trends = true <->
  has_growth trends.
Proof.
  rewrite existsb_exists. unfold has_growth.
  split; intros (t & Ht & Hd); exists t; split; try assumption;
    now apply String.eqb_eq.
Qed.

(** The order in which [determine_narrative_arc] tries its labels. *)
Lemma narrative_arc_priority (trends : list Trend.t)
    (correlations : list Correlation.t) (segments : list Segment) :
  (has_growth trends ->
   determine_narrative_arc trends correlations segments = "growth_story"%string) /\
  (~ has_growth trends -> (2 <= List.length correlations)%nat ->
   determine_narrative_arc trends correlations segments = "relationship_analysis"%string) /\
  (~ has_growth trends -> (List.length correlations < 2)%nat ->
   (1 <= List.length segments)%nat ->
   determine_narrative_arc trends correlations segments = "segmentation_insights"%string) /\
  (~ has_growth trends -> (List.length correlations < 2)%nat ->
   List.length segments = O ->
   determine_narrative_arc trends correlations segments = "data_summary"%string).
Proof.
  unfold determine_narrative_arc.
  pose proof (has_growth_existsb trends) as Hg.
  destruct (existsb _ trends).
  - repeat split; intros; try reflexivity; exfalso; tauto.
  - assert (Hno : ~ has_growth trends) by (intros H; apply Hg in H; discriminate).
    destruct (Nat.leb_spec 2 (List.length correlations));
      destruct (Nat.leb_spec 1 (List.length segments));
      repeat split; intros; try reflexivity; try tauto; lia.
Qed.

(** C7. A dataset with no date-like column, fewer than two numeric columns
    and no categorical column with between 2 and 10 distinct values gets
    the narrative arc "data_summary"; in general the arc is "growth_story"
    when some trend grows, else "relationship_analysis" with two or more
    correlations, else "segmentation_insights" with one or more segments,
    else "data_summary". *)
Theorem plain_dataset_is_data_summary (rt : Runtime) (df : DataFrame) :
  date_cols rt df = [] ->
  (List.length (numeric_cols df) < 2)%nat ->
  (forall col, In col (categorical_cols df) ->
               ~ (2 <= nunique (s_vals col) <= 10)%nat) ->
  (exists r : Report.t,
     analyze_dataframe rt df = Some r /\
     Report.narrative_arc (Report.slide_recommendations r) = "data_summary"%string) /\
  (forall trends correlations segments,
     (has_growth trends ->
      determine_narrative_arc trends correlations segments = "growth_story"%string) /\
     (~ has_growth trends -> (2 <= List.length correlations)%nat ->
      determine_narrative_arc trends correlations segments
      = "relationship_analysis"%string) /\
     (~ has_growth trends -> (List.length correlations < 2)%nat ->
      (1 <= List.length segments)%nat ->
      determine_narrative_arc trends correlations segments
      = "segmentation_insights"%string) /\
     (~ has_growth trends -> (List.length correlations < 2)%nat ->
      List.length segments = O ->
      determine_narrative_arc trends correlations segments = "data_summary"%string)).
Proof.
  intros Hd Hn Hc. split; [| exact narrative_arc_priority].
  destruct (analyze_dataframe_defined rt df) as (r & Hr & Ht & Hco & Hs & _ & _ & Harc).
  exists r. split; [exact Hr |].
  rewrite Harc, Ht, Hco, Hs.
  rewrite (detect_trends_no_date rt df Hd).
  rewrite (analyze_correlations_few_numeric rt df Hn).
  rewrite (analyze_segments_nothing rt df Hn Hc).
  reflexivity.
Qed.

Lemma plain_dataset_is_data_summary_witness :
  exists r : Report.t,
    analyze_dataframe Reference.runtime Samples.plain = Some r /\
    Report.narrative_arc (Report.slide_recommendations r) = "data_summary"%string.
Proof.
  apply (plain_dataset_is_data_summary Reference.runtime Samples.plain).
  - reflexivity.
  - simpl. lia.
  - intros col [<- | []]. vm_compute. lia.
Defined.

(** C1. On a frame whose first categorical column splits 3/3/2/2 and whose
    second splits 8/2, the analyzer emits both segments, the second with
    an 80% category; the synthesizer's loop ends at the first one and no
    segmentation insight is appended, where the rule as the specification
    words it takes the second segment. *)
Theorem segment_scan_ends_at_first_categorical :
  analyze_segments Reference.runtime Samples.two_categoricals =
    [Categorical "region"
       [Category.mk "north" 3 (300 # 10); Category.mk "south" 3 (300 # 10);
        Category.mk "east" 2 (200 # 10); Category.mk "west" 2 (200 # 10)];
     Categorical "tier"
       [Category.mk "basic" 8 (800 # 10); Category.mk "premium" 2 (200 # 10)]] /\
  option_map Report.key_insights
             (analyze_dataframe Reference.runtime Samples.two_categoricals) = Some [] /\
  spec_segment_insights Reference.runtime
    (analyze_segments Reference.runtime Samples.two_categoricals) =
    [Insight.mk "market_segmentation" "tier Distribution Analysis"
                "basic represents 80.0% of the data" "medium" "segment_breakdown"].
Proof. repeat split. Qed.

(** * Further properties of the pipeline *)

(** ** QualityScorer: the range actually reached *)

Lemma py_min_40_range (x : pyfloat) :
  match x with Fin q => (0 <= q)%Q | PInf | NaN => True | NInf => False end ->
  exists p : Q, py_min (Fin 40) x = Fin p /\ (0 <= p <= 40)%Q /\
                (x = Fin 0 -> p = 0%Q).
Proof.
  unfold py_min. destruct x as [q | | |]; simpl; intros H; try contradiction.
  - destruct (Qltb q 40) eqn:E.
    + exists q. apply Qltb_lt in E. repeat split; try lra. congruence.
    + exists 40%Q. repeat split; try lra.
      intros Hq. injection Hq as ->. discriminate E.
  - exists 40%Q. repeat split; try lra. discriminate.
  - exists 40%Q. repeat split; try lra. discriminate.
Qed.

Lemma missing_pct_times2_nonneg (df : DataFrame) :
  match fmul (missing_pct df) (Fin 2) with
  | Fin q => (0 <= q)%Q
  | PInf | NaN => True
  | NInf => False
  end.
Proof.
  unfold missing_pct.
  pose proof (np_true_divide_nonneg (Z.of_nat (missing_total df))
                (Z.of_nat (nrows df * List.length (columns df)))
                ltac:(lia) ltac:(lia)) as H.
  destruct (np_true_divide _ _) as [q | | |]; simpl in *; try exact I; try contradiction.
  assert (0 <= q * 100)%Q by (apply Qmult_le_0_compat; lra).
  apply Qmult_le_0_compat; lra.
Qed.

Lemma running_score_range (df : DataFrame) :
  exists q : Q, running_score df = Fin q /\ (30 <= q <= 115)%Q.
Proof.
  unfold running_score. cbv zeta.
  destruct (py_min_40_range _ (missing_pct_times2_nonneg df)) as (p & Hmin & Hp & _).
  rewrite Hmin.
  destruct (100 <=? nrows df)%nat; [| destruct (nrows df <? 10)%nat];
    destruct (_ && _)%bool; destruct (20 <? _)%nat; simpl;
    eexists; (split; [reflexivity | lra]).
Qed.

Lemma Qtrunc_ge (n : Z) (q : Q) : (inject_Z n <= q)%Q -> n <= Qtrunc q.
Proof.
  intros H. unfold Qtrunc. apply Z.quot_le_lower_bound; [lia |].
  unfold Qle in H. simpl in H. lia.
Qed.

(** X1. The lower clamp of the scorer is never reached: whatever the
    dataset, the score is at least 30 (40 points at most for missing data,
    20 for size, 10 for width). *)
Theorem quality_score_at_least_30 (df : DataFrame) :
  exists s : Z, calculate_data_quality_score df = Some s /\ 30 <= s <= 100.
Proof.
  unfold calculate_data_quality_score.
  destruct (running_score_range df) as (q & -> & Hq).
  simpl. eexists. split; [reflexivity |].
  assert (30 <= Qtrunc q) by (apply Qtrunc_ge; change (inject_Z 30) with 30%Q; lra).
  lia.
Qed.

Lemma missing_pct_complete (df : DataFrame) :
  missing_total df = O -> nrows df <> O -> columns df <> [] ->
  exists q, missing_pct df = Fin q /\ (q == 0)%Q.
Proof.
  intros Hm Hr Hc. unfold missing_pct, np_true_divide. rewrite Hm.
  destruct (Z.eqb_spec (Z.of_nat (nrows df * List.length (columns df))) 0) as [E | E].
  - destruct (columns df); [congruence |]. simpl in E. lia.
  - simpl. eexists. split; [reflexivity |].
    unfold Qeq. simpl. reflexivity.
Qed.

(** X2. A table without any missing value and with at least ten rows
    scores 90 or more: only the width penalty can apply. *)
Theorem complete_dataset_scores_90 (df : DataFrame) :
  missing_total df = O ->
  (10 <= nrows df)%nat ->
  columns df <> [] ->
  exists s : Z, calculate_data_quality_score df = Some s /\ 90 <= s <= 100.
Proof.
  intros Hm Hr Hc.
  destruct (missing_pct_complete df Hm ltac:(lia) Hc) as (m & Hmp & Hm0).
  unfold calculate_data_quality_score, running_score. cbv zeta. rewrite Hmp.
  change (fmul (Fin m) (Fin 2)) with (Fin (m * 2)).
  unfold py_min. change (flt (Fin (m * 2)) (Fin 40)) with (Qltb (m * 2) 40).
  assert (Hlt : Qltb (m * 2) 40 = true) by (apply Qltb_lt; lra).
  rewrite Hlt.
  destruct (Nat.ltb_spec (nrows df) 10); [lia |].
  assert (Hge : forall q : Q, (90 <= q)%Q ->
            90 <= Z.max 0 (Z.min 100 (Qtrunc q)) <= 100).
  { intros q Hq.
    assert (90 <= Qtrunc q) by (apply Qtrunc_ge; change (inject_Z 90) with 90%Q; lra).
    lia. }
  destruct (100 <=? nrows df)%nat; destruct (_ && _)%bool; destruct (20 <? _)%nat;
    simpl; eexists; (split; [reflexivity | apply Hge; lra]).
Qed.

Lemma complete_dataset_scores_90_witness :
  exists s : Z, calculate_data_quality_score sample_complete = Some s /\ 90 <= s <= 100.
Proof.
  apply (complete_dataset_scores_90 sample_complete).
  - reflexivity.
  - simpl. lia.
  - discriminate.
Defined.

(** ** The report's basic statistics *)

Lemma col_nulls_le_len (c : Column) : (col_nulls c <= col_len c)%nat.
Proof. destruct c; simpl; apply filter_length_le. Qed.

Lemma missing_le_cells (n : nat) (cols : list Column) :
  uniform n cols = true ->
  (list_sum (map col_nulls cols) <= n * List.length cols)%nat.
Proof.
  unfold uniform. induction cols as [| c cols IH]; simpl; intros H; [lia |].
  apply andb_true_iff in H. destruct H as [Hc H].
  apply Nat.eqb_eq in Hc. pose proof (col_nulls_le_len c). specialize (IH H). nia.
Qed.

Lemma select_lengths (cols : list Column) :
  (List.length (select_numeric cols) + List.length (select_object cols)
   <= List.length cols)%nat.
Proof.
  induction cols as [| [n v | n v | n v] cols IH]; simpl; lia.
Qed.

(** X3. For a frame whose column names are pairwise distinct the report
    exists and its statistics are consistent: the row and column counts
    are those of the frame, the number of missing cells does not exceed
    rows times columns, the numeric and categorical columns together do
    not exceed the column count, and the quality score lies between 30
    and 100.  (On a repeated column name [df[col].dtype] raises and there
    is no report.) *)
Theorem report_statistics_consistent (rt : Runtime) (df : DataFrame) :
  distinct_names df = true ->
  exists r : Report.t,
    analyze_dataframe rt df = Some r /\
    Report.row_count (Report.basic_statistics r) = nrows df /\
    Report.column_count (Report.basic_statistics r) = List.length (columns df) /\
    (Report.missing_values_total (Report.basic_statistics r)
     <= Report.row_count (Report.basic_statistics r)
        * Report.column_count (Report.basic_statistics r))%nat /\
    (Report.numeric_columns (Report.basic_statistics r)
     + Report.categorical_columns (Report.basic_statistics r)
     <= Report.column_count (Report.basic_statistics r))%nat /\
    30 <= Report.data_quality_score r <= 100.
Proof.
  intros _.
  unfold analyze_dataframe, calculate_data_quality_score.
  destruct (running_score_range df) as (q & -> & Hq).
  eexists. split; [reflexivity |]. simpl.
  split; [reflexivity |]. split; [reflexivity |].
  split; [apply missing_le_cells, df_uniform |].
  split; [apply select_lengths |].
  assert (30 <= Qtrunc q) by (apply Qtrunc_ge; change (inject_Z 30) with 30%Q; lra).
  lia.
Qed.

Lemma report_statistics_consistent_witness :
  exists r : Report.t,
    analyze_dataframe Reference.runtime Samples.three_copies = Some r /\
    Report.row_count (Report.basic_statistics r) = 3%nat /\
    Report.column_count (Report.basic_statistics r) = 3%nat.
Proof.
  destruct (report_statistics_consistent Reference.runtime Samples.three_copies)
    as (r & Hr & Hrows & Hcols & _).
  - reflexivity.
  - exists r. split; [exact Hr |]. split; [exact Hrows | exact Hcols].
Defined.

(** ** Two runs on one dataset *)


(** ** Command line *)

Lemma analyze_dataframe_score (rt : Runtime) (df : DataFrame) (r : Report.t) :
  analyze_dataframe rt df = Some r ->
  calculate_data_quality_score df = Some (Report.data_quality_score r).
Proof.
  unfold analyze_dataframe.
  destruct (calculate_data_quality_score df) as [s |]; [| discriminate].
  intros H. injection H as <-. reflexivity.
Qed.

(** X4. [main] exits with status 0 exactly when the file loads, has at
    least one row and its quality score is not below the threshold; it
    then prints the report or its summary, never an error object. *)
Theorem main_succeeds_iff (rt : Runtime) (read_csv : string -> csv_load) (args : Args) :
  snd (main rt read_csv args) = 0 <->
  exists (df : DataFrame) (s : Z),
    read_csv (csv_path args) = Loaded df /\
    nrows df <> O /\
    calculate_data_quality_score df = Some s /\
    quality_threshold args <= s.
Proof.
  unfold main. split.
  - destruct (read_csv (csv_path args)) as [| | | df]; simpl; try discriminate.
    destruct (Nat.eqb_spec (nrows df) 0); simpl; [discriminate |].
    destruct (analyze_dataframe rt df) as [r |] eqn:Hr; simpl; [| discriminate].
    destruct (Z.ltb_spec (Report.data_quality_score r) (quality_threshold args));
      simpl; [discriminate |].
    intros _. exists df, (Report.data_quality_score r).
    repeat split; try assumption. now apply (analyze_dataframe_score rt).
  - intros (df & s & -> & Hrows & Hs & Hthr).
    destruct (Nat.eqb_spec (nrows df) 0); [contradiction |].
    destruct (analyze_dataframe_defined rt df) as (r & Hr & _).
    rewrite Hr.
    pose proof (analyze_dataframe_score rt df r Hr) as Hs'.
    rewrite Hs in Hs'. injection Hs' as ->.
    destruct (Z.ltb_spec (Report.data_quality_score r) (quality_threshold args)); [lia |].
    destruct (format args); reflexivity.
Qed.

(** X5. With a threshold of 30 or less [main] never turns down a file
    that loads with at least one row. *)
Theorem main_low_threshold_accepts (rt : Runtime) (read_csv : string -> csv_load)
    (args : Args) (df : DataFrame) :
  read_csv (csv_path args) = Loaded df ->
  nrows df <> O ->
  quality_threshold args <= 30 ->
  snd (main rt read_csv args) = 0.
Proof.
  intros Hl Hr Ht. unfold main. rewrite Hl.
  destruct (Nat.eqb_spec (nrows df) 0); [contradiction |].
  destruct (analyze_dataframe_defined rt df) as (r & Hrep & _). rewrite Hrep.
  pose proof (analyze_dataframe_score rt df r Hrep) as Hs.
  unfold calculate_data_quality_score in Hs.
  destruct (running_score_range df) as (q & Hq & Hrange). rewrite Hq in Hs.
  simpl in Hs. injection Hs as Hs.
  assert (30 <= Qtrunc q) by (apply Qtrunc_ge; change (inject_Z 30) with 30%Q; lra).
  destruct (Z.ltb_spec (Report.data_quality_score r) (quality_threshold args)); [lia |].
  destruct (format args); reflexivity.
Qed.

Lemma main_low_threshold_accepts_witness :
  snd (main Reference.runtime (fun _ => Loaded Samples.thirds)
            (mkArgs "data.csv" Summary 30)) = 0.
Proof.
  apply (main_low_threshold_accepts Reference.runtime (fun _ => Loaded Samples.thirds)
           (mkArgs "data.csv" Summary 30) Samples.thirds).
  - reflexivity.
  - discriminate.
  - simpl. lia.
Defined.

(** ** Chart recommendations *)

Lemma has_categorical_filter (segments : list Segment) :
  has_categorical segments <->
  filter (fun s => String.eqb (segment_type s) "categorical") segments <> [].
Proof.
  unfold has_categorical. split.
  - intros (s & Hin & Ht) E.
    assert (H : In s (filter (fun s => String.eqb (segment_type s) "categorical") segments)).
    { apply filter_In. split; [assumption |]. now apply String.eqb_eq. }
    rewrite E in H. contradiction.
  - destruct (filter _ segments) as [| s l] eqn:E; [congruence |].
    intros _. exists s.
    assert (H : In s (s :: l)) by now left.
    rewrite <- E in H. apply filter_In in H. destruct H as [Hin Ht].
    split; [assumption |]. now apply String.eqb_eq.
Qed.

(** X6. The chart list: "line" is recommended exactly when some trend
    exists, "scatter" exactly when some correlation exists, "bar" and
    "donut" exactly when some categorical segment exists; "metrics_cards"
    is recommended except when all three are present, the cut to four
    entries then dropping it.  The list has between one and four entries. *)
Theorem chart_types_characterised (trends : list Trend.t)
    (correlations : list Correlation.t) (segments : list Segment) :
  (In "line"%string (recommend_chart_types trends correlations segments)
   <-> trends <> []) /\
  (In "scatter"%string (recommend_chart_types trends correlations segments)
   <-> correlations <> []) /\
  (In "bar"%string (recommend_chart_types trends correlations segments)
   <-> has_categorical segments) /\
  (In "donut"%string (recommend_chart_types trends correlations segments)
   <-> has_categorical segments) /\
  (In "metrics_cards"%string (recommend_chart_types trends correlations segments)
   <-> ~ (trends <> [] /\ correlations <> [] /\ has_categorical segments)) /\
  (1 <= List.length (recommend_chart_types trends correlations segments) <= 4)%nat.
Proof.
  rewrite has_categorical_filter. unfold recommend_chart_types. cbv zeta.
  destruct trends as [| t ts]; destruct correlations as [| c cs];
    destruct (filter _ segments) as [| s ss];
    simpl; intuition (discriminate || congruence || lia).
Qed.

(** ** TrendDetector: what an emitted trend carries *)

Lemma flat_map_length_le {A B : Type} (f : A -> list B) (l : list A) :
  (forall x, (List.length (f x) <= 1)%nat) ->
  (List.length (flat_map f l) <= List.length l)%nat.
Proof.
  intros H. induction l as [| x l IH]; simpl; [lia |].
  rewrite length_app. specialize (H x). lia.
Qed.

Lemma trend_attempt_at_most_one (rt : Runtime) (dc : Series string) (mc : Series Q) :
  (List.length (try_except (trend_attempt rt dc mc)) <= 1)%nat.
Proof.
  unfold trend_attempt.
  destruct (usable_rows rt dc mc) as [rows |]; [| simpl; lia].
  destruct (3 <=? List.length rows)%nat; [| simpl; lia].
  destruct (2 <=? List.length (map snd rows))%nat; simpl; lia.
Qed.

Lemma trend_attempt_emitted (rt : Runtime) (dc : Series string) (mc : Series Q)
    (t : Trend.t) :
  In t (try_except (trend_attempt rt dc mc)) ->
  exists rows,
    usable_rows rt dc mc = Some rows /\
    (3 <= List.length rows)%nat /\
    Trend.metric t = s_name mc /\
    Trend.direction t = trend_direction (pct_change (first_value rows) (last_value rows)) /\
    Trend.overall_change_pct t =
      py_round rt [first_value rows; last_value rows]
               (pct_change (first_value rows) (last_value rows)) 1 /\
    Trend.confidence t = trend_confidence (List.length rows).
Proof.
  unfold trend_attempt.
  destruct (usable_rows rt dc mc) as [rows |]; [| intros []].
  destruct (Nat.leb_spec 3 (List.length rows)); [| intros []].
  rewrite length_map.
  destruct (Nat.leb_spec 2 (List.length rows)); [| lia].
  intros [<- | []]. exists rows. simpl. repeat split. assumption.
Qed.

Lemma detect_trends_emitted (rt : Runtime) (df : DataFrame) (t : Trend.t) :
  In t (detect_trends rt df) ->
  exists dc others mc rows,
    date_cols rt df = dc :: others /\
    In mc (firstn 3 (numeric_cols df)) /\
    usable_rows rt dc mc = Some rows /\
    (3 <= List.length rows)%nat /\
    Trend.metric t = s_name mc /\
    Trend.direction t = trend_direction (pct_change (first_value rows) (last_value rows)) /\
    Trend.overall_change_pct t =
      py_round rt [first_value rows; last_value rows]
               (pct_change (first_value rows) (last_value rows)) 1 /\
    Trend.confidence t = trend_confidence (List.length rows).
Proof.
  intros Ht.
  destruct (date_cols rt df) as [| dc others] eqn:Hd.
  - rewrite (detect_trends_no_date rt df Hd) in Ht. contradiction.
  - rewrite (detect_trends_first_date rt df dc others Hd) in Ht.
    apply in_flat_map in Ht. destruct Ht as (mc & Hmc & Ht).
    destruct (trend_attempt_emitted rt dc mc t Ht) as (rows & H).
    exists dc, others, mc, rows. tauto.
Qed.

(** X7. The detector reports at most three trends, each for one of the
    first three numeric columns, and none at all when the frame has no
    date-like column or no numeric column. *)
Theorem trends_at_most_three (rt : Runtime) (df : DataFrame) :
  (List.length (detect_trends rt df) <= 3)%nat /\
  (forall t, In t (detect_trends rt df) ->
             exists mc, In mc (firstn 3 (numeric_cols df)) /\ Trend.metric t = s_name mc) /\
  (date_cols rt df = [] \/ numeric_cols df = [] -> detect_trends rt df = []).
Proof.
  split; [| split].
  - destruct (date_cols rt df) as [| dc others] eqn:Hd.
    + rewrite (detect_trends_no_date rt df Hd). simpl. lia.
    + rewrite (detect_trends_first_date rt df dc others Hd).
      etransitivity.
      * apply flat_map_length_le. intros mc. apply trend_attempt_at_most_one.
      * rewrite length_firstn. lia.
  - intros t Ht.
    destruct (detect_trends_emitted rt df t Ht) as (dc & others & mc & rows & H).
    exists mc. tauto.
  - intros [H | H]; unfold detect_trends; rewrite H; [reflexivity |].
    destruct (date_cols rt df); reflexivity.
Qed.

Lemma trend_confidence_range (n : nat) :
  50 <= trend_confidence n <= 100 /\
  (trend_confidence n = 100 <-> n = 10%nat) /\
  ((15 <= n)%nat -> trend_confidence n = 50) /\
  ((n <= 5)%nat -> trend_confidence n = 50).
Proof. unfold trend_confidence. lia. Qed.

(** X8. An emitted trend belongs to a pair of the frame: the first
    date-like column and one of the first three numeric columns, the one
    the trend names, with n >= 3 usable rows.  Its confidence is
    min(100, max(50, 100 - |100 - 10 n|)) for that n: between 50 and 100,
    100 exactly when the pair has ten usable rows, and 50 up to five and
    from fifteen usable rows on. *)
Theorem trend_confidence_of_emitted (rt : Runtime) (df : DataFrame) (t : Trend.t) :
  In t (detect_trends rt df) ->
  exists dc others mc rows,
    date_cols rt df = dc :: others /\
    In mc (firstn 3 (numeric_cols df)) /\
    usable_rows rt dc mc = Some rows /\
    (3 <= List.length rows)%nat /\
    Trend.metric t = s_name mc /\
    Trend.confidence t
    = Z.min 100 (Z.max 50 (100 - Z.abs (100 - Z.of_nat (List.length rows) * 10))) /\
    50 <= Trend.confidence t <= 100 /\
    (Trend.confidence t = 100 <-> List.length rows = 10%nat) /\
    ((List.length rows <= 5)%nat -> Trend.confidence t = 50) /\
    ((15 <= List.length rows)%nat -> Trend.confidence t = 50).
Proof.
  intros Ht.
  destruct (detect_trends_emitted rt df t Ht)
    as (dc & others & mc & rows & Hd & Hin & Hu & Hlen & Hm & _ & _ & Hc).
  exists dc, others, mc, rows.
  pose proof (trend_confidence_range (List.length rows)) as Hr.
  rewrite Hc. unfold trend_confidence at 1.
  repeat split; try assumption; try reflexivity; apply Hr.
Qed.

Lemma trend_confidence_of_emitted_witness :
  exists dc others mc rows,
    date_cols Reference.runtime Samples.doubling = dc :: others /\
    In mc (firstn 3 (numeric_cols Samples.doubling)) /\
    usable_rows Reference.runtime dc mc = Some rows /\
    (3 <= List.length rows)%nat /\
    Trend.metric (Trend.mk "revenue" "2024-01 to 2024-03" "growth" (1000 # 10) (429 # 10) 50)
    = s_name mc.
Proof.
  destruct (trend_confidence_of_emitted Reference.runtime Samples.doubling
              (Trend.mk "revenue" "2024-01 to 2024-03" "growth" (1000 # 10) (429 # 10) 50))
    as (dc & others & mc & rows & Hd & Hin & Hu & Hlen & Hm & _).
  - vm_compute. left. reflexivity.
  - exists dc, others, mc, rows. repeat split; assumption.
Defined.

Lemma py_round_1_ge {rt : Runtime} {operands : list Q} (n : Z) (x : Q) :
  (inject_Z n <= x)%Q -> (inject_Z n <= py_round rt operands x 1)%Q.
Proof.
  intros H.
  change (py_round rt operands x 1)
    with (Qmake (round_nearest (round_tie_up rt operands x 1) (x * inject_Z 10)) 10).
  assert (Hr : n * 10 <= round_nearest (round_tie_up rt operands x 1) (x * inject_Z 10)).
  { apply round_nearest_ge. rewrite inject_Z_mult.
    change (inject_Z 10) with 10%Q. lra. }
  unfold Qle. simpl. lia.
Qed.

Lemma py_round_1_le {rt : Runtime} {operands : list Q} (n : Z) (x : Q) :
  (x <= inject_Z n)%Q -> (py_round rt operands x 1 <= inject_Z n)%Q.
Proof.
  intros H.
  change (py_round rt operands x 1)
    with (Qmake (round_nearest (round_tie_up rt operands x 1) (x * inject_Z 10)) 10).
  assert (Hr : round_nearest (round_tie_up rt operands x 1) (x * inject_Z 10) <= n * 10).
  { apply round_nearest_le. rewrite inject_Z_mult.
    change (inject_Z 10) with 10%Q. lra. }
  unfold Qle. simpl. lia.
Qed.

Lemma trend_direction_cases (x : Q) :
  (trend_direction x = "growth"%string /\ (5 < x)%Q) \/
  (trend_direction x = "decline"%string /\ (x < -5)%Q) \/
  (trend_direction x = "stable"%string /\ (-5 <= x <= 5)%Q).
Proof.
  unfold trend_direction.
  destruct (Qltb 5 x) eqn:E1.
  - left. apply Qltb_lt in E1. auto.
  - apply Qltb_ge in E1. destruct (Qltb x (-5)) eqn:E2.
    + right; left. apply Qltb_lt in E2. auto.
    + right; right. apply Qltb_ge in E2. auto.
Qed.

(** X9. On a frame whose numeric cells are finite, the direction of an
    emitted trend agrees with the change it reports: "growth" comes with
    an overall change of at least 5.0, "decline" with at most -5.0,
    "stable" with a value between -5.0 and 5.0; no other direction
    occurs.  (A cell holding an infinity can make the change nan, which
    is reported as "stable"; such frames are outside the model.) *)
Theorem trend_direction_matches_change (rt : Runtime) (df : DataFrame) (t : Trend.t) :
  In t (detect_trends rt df) ->
  (Trend.direction t = "growth"%string /\ (5 <= Trend.overall_change_pct t)%Q) \/
  (Trend.direction t = "decline"%string /\ (Trend.overall_change_pct t <= -5)%Q) \/
  (Trend.direction t = "stable"%string /\ (-5 <= Trend.overall_change_pct t <= 5)%Q).
Proof.
  intros Ht.
  destruct (detect_trends_emitted rt df t Ht)
    as (dc & others & mc & rows & _ & _ & _ & _ & _ & Hd & Hp & _).
  rewrite Hd, Hp.
  destruct (trend_direction_cases (pct_change (first_value rows) (last_value rows)))
    as [[-> H] | [[-> H] | [-> H]]].
  - left. split; [reflexivity |]. apply (py_round_1_ge 5).
    change (inject_Z 5) with 5%Q. lra.
  - right; left. split; [reflexivity |]. apply (py_round_1_le (-5)).
    change (inject_Z (-5)) with (-5)%Q. lra.
  - right; right. split; [reflexivity |]. split.
    + apply (py_round_1_ge (-5)). change (inject_Z (-5)) with (-5)%Q. lra.
    + apply (py_round_1_le 5). change (inject_Z 5) with 5%Q. lra.
Qed.

Lemma trend_direction_matches_change_witness :
  (Trend.direction (Trend.mk "balance" "2024-01 to 2024-03" "decline"
                             (-1000 # 10) (-429 # 10) 50) = "decline"%string
   /\ (-1000 # 10 <= -5)%Q).
Proof.
  destruct (trend_direction_matches_change Reference.runtime Samples.doubling_negative
              (Trend.mk "balance" "2024-01 to 2024-03" "decline"
                        (-1000 # 10) (-429 # 10) 50))
    as [[H _] | [H | [H _]]].
  - vm_compute. left. reflexivity.
  - discriminate H.
  - exact H.
  - discriminate H.
Defined.

Lemma pct_change_zero_base (a b : Q) : (a == 0)%Q -> pct_change a b = 0%Q.
Proof.
  intros H. unfold pct_change.
  apply Qeq_bool_iff in H. now rewrite H.
Qed.

(** X10. A metric whose first usable value, in the order [sort_values]
    leaves the rows (rows of equal date in the order the runtime chooses),
    is zero has no defined relative change: the detector reports it as
    "stable" with an overall change of 0, whatever its last value. *)
Theorem zero_baseline_is_stable (rt : Runtime) (df : DataFrame)
    (dc : Series string) (others : list (Series string))
    (mc : Series Q) (rows : list (Z * Q)) :
  date_cols rt df = dc :: others ->
  In mc (firstn 3 (numeric_cols df)) ->
  usable_rows rt dc mc = Some rows ->
  (3 <= List.length rows)%nat ->
  (first_value rows == 0)%Q ->
  exists t,
    In t (detect_trends rt df) /\
    Trend.metric t = s_name mc /\
    Trend.direction t = "stable"%string /\
    (Trend.overall_change_pct t == 0)%Q.
Proof.
  intros Hd Hm Hu Hlen Hz.
  destruct (trend_attempt_long rt dc mc rows Hu Hlen) as (t & Ht & Hmet & Hdir & Hpct).
  rewrite (pct_change_zero_base _ _ Hz) in Hdir, Hpct.
  exists t. repeat split; try assumption.
  - rewrite (detect_trends_first_date rt df dc others Hd).
    apply in_flat_map. exists mc. split; [assumption |].
    rewrite Ht. simpl. now left.
  - rewrite Hpct. apply (py_round_1_eq _ 0). reflexivity.
Qed.

Lemma zero_baseline_is_stable_witness :
  exists t,
    In t (detect_trends Reference.runtime sample_zero_start) /\
    Trend.metric t = "signups"%string /\
    Trend.direction t = "stable"%string /\
    (Trend.overall_change_pct t == 0)%Q.
Proof.
  apply (zero_baseline_is_stable Reference.runtime sample_zero_start
           (mkSeries "month" [Some "2024-01-01"; Some "2024-02-01"; Some "2024-03-01"]%string)
           []
           (mkSeries "signups" [Some 0%Q; Some 5%Q; Some 9%Q])
           [(752928, 0%Q); (752959, 5%Q); (752990, 9%Q)]).
  - reflexivity.
  - simpl. left. reflexivity.
  - reflexivity.
  - simpl. lia.
  - reflexivity.
Defined.

(** On rows of equal date the reported trend follows the order the sort
    leaves them in. *)
Example tied_dates_follow_the_sort :
  map (fun t => (Trend.direction t, Trend.overall_change_pct t))
      (detect_trends Reference.runtime sample_tied_dates)
  = [("growth"%string, (1000 # 10)%Q)] /\
  map (fun t => (Trend.direction t, Trend.overall_change_pct t))
      (detect_trends runtime_other_ties sample_tied_dates)
  = [("stable"%string, (0 # 10)%Q)].
Proof. split; reflexivity. Qed.

Lemma trend_attempt_unparsed (rt : Runtime) (dc : Series string) (mc : Series Q) :
  to_datetime_series rt (s_vals dc) = None ->
  try_except (trend_attempt rt dc mc) = [].
Proof.
  intros H. unfold trend_attempt, usable_rows. now rewrite H.
Qed.

(** X11. Date detection looks at the first five rows only.  When a later
    value of the chosen date column does not parse, every pair raises
    inside its [try] block and the detector returns no trend at all. *)
Theorem unparsed_date_silences_detector (rt : Runtime) (df : DataFrame)
    (dc : Series string) (others : list (Series string)) :
  date_cols rt df = dc :: others ->
  to_datetime_series rt (s_vals dc) = None ->
  detect_trends rt df = [].
Proof.
  intros Hd Hp.
  rewrite (detect_trends_first_date rt df dc others Hd).
  apply flat_map_nil. intros mc _. now apply trend_attempt_unparsed.
Qed.

Lemma unparsed_date_silences_detector_witness :
  detect_trends Reference.runtime sample_bad_date = [].
Proof.
  apply (unparsed_date_silences_detector Reference.runtime sample_bad_date
           (mkSeries "day" [Some "2024-01-01"; Some "2024-01-02"; Some "2024-01-03";
                            Some "2024-01-04"; Some "2024-01-05"; Some "n/a"]%string) []).
  - reflexivity.
  - reflexivity.
Defined.

(** ** OutlierDetector: undefined quartiles, counts and extremes *)

Lemma fences_nan (rt : Runtime) (col : Series Q) :
  quantile rt (s_vals col) (1 # 4) = NaN \/ quantile rt (s_vals col) (3 # 4) = NaN ->
  lower_fence rt col = NaN /\ upper_fence rt col = NaN.
Proof.
  unfold lower_fence, upper_fence. cbv zeta.
  intros [-> | ->]; destruct (quantile rt (s_vals col) _) as [q | | |]; split; reflexivity.
Qed.

Lemma outlier_attempt_nan (rt : Runtime) (df : DataFrame) (col : Series Q) :
  quantile rt (s_vals col) (1 # 4) = NaN \/ quantile rt (s_vals col) (3 # 4) = NaN ->
  try_except (outlier_attempt rt df col) = [].
Proof.
  intros H. destruct (fences_nan rt col H) as [Hlo Hup].
  assert (Hb : beyond_fences rt col = []).
  { unfold beyond_fences. rewrite Hlo, Hup. clear.
    induction (s_vals col) as [| [v |] l IH]; simpl; auto. }
  unfold outlier_attempt.
  change (dropna (filter _ (s_vals col))) with (beyond_fences rt col).
  rewrite Hb. reflexivity.
Qed.

(** X12. A numeric column one of whose quartiles is undefined (nan, as for
    a column without values) gets nan bounds, no cell compares outside
    them, and the column contributes no group; the other columns are
    examined as usual. *)
Theorem undefined_quartile_gives_no_group (rt : Runtime) (df : DataFrame)
    (pre post : list (Series Q)) (col : Series Q) :
  firstn 5 (numeric_cols df) = pre ++ col :: post ->
  quantile rt (s_vals col) (1 # 4) = NaN \/ quantile rt (s_vals col) (3 # 4) = NaN ->
  try_except (outlier_attempt rt df col) = [] /\
  detect_outliers rt df =
    flat_map (fun c => try_except (outlier_attempt rt df c)) pre ++
    flat_map (fun c => try_except (outlier_attempt rt df c)) post.
Proof.
  intros Hc Hq. pose proof (outlier_attempt_nan rt df col Hq) as Hnone.
  split; [exact Hnone |].
  unfold detect_outliers. rewrite Hc, flat_map_app. simpl. now rewrite Hnone.
Qed.

Lemma undefined_quartile_gives_no_group_witness :
  try_except (outlier_attempt Reference.runtime sample_null_column
                (mkSeries "empty" [None; None; None; None; None])) = [] /\
  List.length (detect_outliers Reference.runtime sample_null_column) = 1%nat.
Proof.
  destruct (undefined_quartile_gives_no_group Reference.runtime sample_null_column
              [] [mkSeries "spend" [Some 1%Q; Some 2%Q; Some 3%Q; Some 4%Q; Some 100%Q]]
              (mkSeries "empty" [None; None; None; None; None])) as [H1 H2].
  - reflexivity.
  - left. reflexivity.
  - split; [exact H1 |]. rewrite H2. reflexivity.
Defined.

Lemma select_numeric_len (n : nat) (cols : list Column) (col : Series Q) :
  uniform n cols = true -> In col (select_numeric cols) ->
  List.length (s_vals col) = n.
Proof.
  unfold uniform. induction cols as [| c cols IH]; simpl; [tauto |].
  intros H Hin. apply andb_true_iff in H. destruct H as [Hc H].
  destruct c as [nm v | nm v | nm v]; simpl in *; auto.
  destruct Hin as [<- | Hin]; auto. simpl. now apply Nat.eqb_eq.
Qed.

Lemma select_object_len (n : nat) (cols : list Column) (col : Series string) :
  uniform n cols = true -> In col (select_object cols) ->
  List.length (s_vals col) = n.
Proof.
  unfold uniform. induction cols as [| c cols IH]; simpl; [tauto |].
  intros H Hin. apply andb_true_iff in H. destruct H as [Hc H].
  destruct c as [nm v | nm v | nm v]; simpl in *; auto.
  destruct Hin as [<- | Hin]; auto. simpl. now apply Nat.eqb_eq.
Qed.

Lemma dropna_length_le {A : Type} (l : list (option A)) :
  (List.length (dropna l) <= List.length l)%nat.
Proof. induction l as [| [x |] l IH]; simpl; lia. Qed.

Lemma Qmax_list_ge (x : Q) (l : list Q) : (x <= Qmax_list x l)%Q.
Proof.
  unfold Qmax_list. revert x. induction l as [| y l IH]; intros x; simpl; [lra |].
  destruct (Qltb x y) eqn:E.
  - apply Qltb_lt in E. specialize (IH y). lra.
  - apply IH.
Qed.

Lemma Qmin_list_le (x : Q) (l : list Q) : (Qmin_list x l <= x)%Q.
Proof.
  unfold Qmin_list. revert x. induction l as [| y l IH]; intros x; simpl; [lra |].
  destruct (Qltb y x) eqn:E.
  - apply Qltb_lt in E. specialize (IH y). lra.
  - apply IH.
Qed.

Lemma ratio_percent_range (a b : nat) :
  (a <= b)%nat -> b <> O ->
  (0 <= inject_Z (Z.of_nat a) / inject_Z (Z.of_nat b) * 100 <= 100)%Q.
Proof.
  intros Hab Hb.
  assert (Hb' : (0 < inject_Z (Z.of_nat b))%Q).
  { unfold Qlt. simpl. lia. }
  assert (Ha : (0 <= inject_Z (Z.of_nat a))%Q).
  { unfold Qle. simpl. lia. }
  assert (Hle : (inject_Z (Z.of_nat a) <= inject_Z (Z.of_nat b))%Q).
  { unfold Qle. simpl. lia. }
  assert (H0 : (0 <= inject_Z (Z.of_nat a) / inject_Z (Z.of_nat b))%Q).
  { apply Qle_shift_div_l; [assumption | lra]. }
  assert (H1 : (inject_Z (Z.of_nat a) / inject_Z (Z.of_nat b) <= 1)%Q).
  { apply Qle_shift_div_r; [assumption | lra]. }
  lra.
Qed.

(** X13. No more than five groups are emitted.  A group counts at most as
    many outliers as the frame has rows; its percentage is a nearest tenth
    of that count over the row count times 100 (a value half-way between
    two tenths goes to either) and lies between 0 and 100; its lowest
    value does not exceed its highest. *)
Theorem outlier_group_counts (rt : Runtime) (df : DataFrame) (g : Outlier.t) :
  In g (detect_outliers rt df) ->
  (List.length (detect_outliers rt df) <= 5)%nat /\
  nrows df <> O /\
  (1 <= Outlier.outlier_count g <= nrows df)%nat /\
  rounds_to 10 (of_nat (Outlier.outlier_count g) / of_nat (nrows df) * 100)
            (Outlier.outlier_percentage g) /\
  (0 <= Outlier.outlier_percentage g <= 100)%Q /\
  exists hi lo : Q,
    Outlier.highest g = Some hi /\ Outlier.lowest g = Some lo /\ (lo <= hi)%Q.
Proof.
  intros Hg. split.
  { unfold detect_outliers. etransitivity.
    - apply flat_map_length_le. intros col. unfold outlier_attempt.
      destruct (0 <? _)%nat; [| simpl; lia].
      destruct (py_div _ _); simpl; lia.
    - rewrite length_firstn. lia. }
  unfold detect_outliers in Hg. apply in_flat_map in Hg.
  destruct Hg as (col & Hcol & Hg).
  assert (Hlen : List.length (s_vals col) = nrows df).
  { apply (select_numeric_len _ (columns df)); [apply df_uniform |].
    now apply In_firstn in Hcol. }
  assert (Hb : (List.length (beyond_fences rt col) <= nrows df)%nat).
  { rewrite <- Hlen. unfold beyond_fences.
    etransitivity; [apply dropna_length_le | apply filter_length_le]. }
  revert Hg. unfold outlier_attempt.
  change (dropna (filter _ (s_vals col))) with (beyond_fences rt col).
  destruct (Nat.ltb_spec 0 (List.length (beyond_fences rt col))) as [Hpos | Hz];
    [| intros []].
  unfold py_div. destruct (nrows df) as [| k] eqn:Hk; [intros [] |].
  intros [<- | []]. simpl Outlier.outlier_count. simpl Outlier.outlier_percentage.
  simpl Outlier.highest. simpl Outlier.lowest.
  assert (Hrange := ratio_percent_range (List.length (beyond_fences rt col)) (S k) Hb
                      ltac:(discriminate)).
  split; [discriminate |]. split; [lia |]. split; [apply py_round_1_rounds_to |].
  split.
  - split.
    + apply (py_round_1_ge 0). exact (proj1 Hrange).
    + apply (py_round_1_le 100). exact (proj2 Hrange).
  - eexists; eexists. split; [reflexivity |]. split; [reflexivity |].
    pose proof (Qmax_list_ge (hd 0%Q (beyond_fences rt col)) (beyond_fences rt col)).
    pose proof (Qmin_list_le (hd 0%Q (beyond_fences rt col)) (beyond_fences rt col)).
    lra.
Qed.

Lemma outlier_group_counts_witness :
  (List.length (detect_outliers Reference.runtime Samples.with_outlier) <= 5)%nat /\
  nrows Samples.with_outlier <> O /\
  rounds_to 10 (of_nat 1 / of_nat (nrows Samples.with_outlier) * 100) (200 # 10).
Proof.
  destruct (outlier_group_counts Reference.runtime Samples.with_outlier
              (Outlier.mk "spend" 1 (200 # 10) (Some 100%Q) (Some 100%Q)
                          (Fin (14 # 2)) (Fin (-2 # 2))))
    as (H1 & H2 & _ & H3 & _).
  - vm_compute. left. reflexivity.
  - split; [assumption |]. split; assumption.
Defined.

(** ** CorrelationAnalyzer: labels and the cut to five *)

Lemma correlation_of_pair_entry (rt : Runtime) (col1 col2 : Series Q) :
  correlation_of_pair rt (col1, col2) =
  if fge (fabs (pearson rt (s_vals col1) (s_vals col2))) (Fin (1 # 2))
  then [entry_of_pair rt col1 col2] else [].
Proof. reflexivity. Qed.

Lemma correlation_entries_In (rt : Runtime) (ncs : list (Series Q)) (c : Correlation.t) :
  In c (flat_map (correlation_of_pair rt) (pairs ncs)) <->
  exists col1 col2,
    In (col1, col2) (pairs ncs) /\
    fge (fabs (pearson rt (s_vals col1) (s_vals col2))) (Fin (1 # 2)) = true /\
    c = entry_of_pair rt col1 col2.
Proof.
  rewrite in_flat_map. split.
  - intros ([col1 col2] & Hp & Hc). rewrite correlation_of_pair_entry in Hc.
    destruct (fge _ _) eqn:E; [| contradiction].
    destruct Hc as [<- | []]. exists col1, col2. auto.
  - intros (col1 & col2 & Hp & Hge & ->). exists (col1, col2).
    split; [assumption |]. rewrite correlation_of_pair_entry, Hge. now left.
Qed.

Lemma pairs_length {A : Type} (a b : A) (l : list A) :
  In (a, b) (pairs l) -> (2 <= List.length l)%nat.
Proof.
  destruct l as [| x [| y l]]; simpl; try tauto; lia.
Qed.

Lemma analyze_correlations_unfold (rt : Runtime) (df : DataFrame) :
  (2 <= List.length (numeric_cols df))%nat ->
  analyze_correlations rt df =
  firstn 5 (sort_desc corr_key (flat_map (correlation_of_pair rt) (pairs (numeric_cols df)))).
Proof.
  intros H. unfold analyze_correlations.
  destruct (Nat.leb_spec 2 (List.length (numeric_cols df))); [reflexivity | lia].
Qed.

Lemma analyze_correlations_In (rt : Runtime) (df : DataFrame) (c : Correlation.t) :
  In c (analyze_correlations rt df) ->
  exists col1 col2,
    In (col1, col2) (pairs (numeric_cols df)) /\
    fge (fabs (pearson rt (s_vals col1) (s_vals col2))) (Fin (1 # 2)) = true /\
    c = entry_of_pair rt col1 col2.
Proof.
  unfold analyze_correlations. intros H. apply In_firstn in H.
  destruct (2 <=? _)%nat; [| contradiction].
  apply (proj1 (stable_sort_In _ _ _)) in H.
  now apply correlation_entries_In.
Qed.

Lemma entry_key_not_nan (rt : Runtime) (col1 col2 : Series Q) :
  fge (fabs (pearson rt (s_vals col1) (s_vals col2))) (Fin (1 # 2)) = true ->
  corr_key (entry_of_pair rt col1 col2) <> NaN.
Proof.
  intros H. apply fge_half_not_nan. unfold corr_key, entry_of_pair. simpl.
  now apply fround_3_abs_ge_half.
Qed.

(** X14. Every reported correlation is labelled from the coefficient of
    its pair, the first column of the pair coming before the second in the
    frame: "strong" when |r| is at least 0.7 and "moderate" otherwise,
    "positive" when r is above zero and "negative" when it is below. *)
Theorem correlation_labels (rt : Runtime) (df : DataFrame) (c : Correlation.t) :
  In c (analyze_correlations rt df) ->
  exists col1 col2 : Series Q,
    In (col1, col2) (pairs (numeric_cols df)) /\
    Correlation.variable_x c = s_name col1 /\
    Correlation.variable_y c = s_name col2 /\
    ((Correlation.strength c = "strong"%string /\
      fge (fabs (pearson rt (s_vals col1) (s_vals col2))) (Fin (7 # 10)) = true) \/
     (Correlation.strength c = "moderate"%string /\
      fge (fabs (pearson rt (s_vals col1) (s_vals col2))) (Fin (7 # 10)) = false)) /\
    ((Correlation.direction c = "positive"%string /\
      flt (Fin 0) (pearson rt (s_vals col1) (s_vals col2)) = true) \/
     (Correlation.direction c = "negative"%string /\
      flt (pearson rt (s_vals col1) (s_vals col2)) (Fin 0) = true)).
Proof.
  intros Hc.
  destruct (analyze_correlations_In rt df c Hc) as (col1 & col2 & Hp & Hge & ->).
  exists col1, col2. unfold entry_of_pair. cbv zeta.
  cbn [Correlation.variable_x Correlation.variable_y Correlation.strength
       Correlation.direction].
  split; [assumption |]. split; [reflexivity |]. split; [reflexivity |].
  split.
  - destruct (fge (fabs (pearson rt (s_vals col1) (s_vals col2))) (Fin (7 # 10))); auto.
  - unfold fgt.
    destruct (pearson rt (s_vals col1) (s_vals col2)) as [q | | |]; simpl in *;
      try discriminate; auto.
    destruct (Qltb 0 q) eqn:E; [auto |].
    right. split; [reflexivity |].
    apply Qltb_ge in E. apply Qleb_le in Hge. apply Qltb_lt.
    destruct (Qlt_le_dec q 0) as [Hneg | Hpos]; [assumption |].
    rewrite Qabs_pos in Hge by assumption. lra.
Qed.

Lemma correlation_labels_witness :
  exists col1 col2 : Series Q,
    In (col1, col2) (pairs (numeric_cols Samples.three_copies)) /\
    "a"%string = s_name col1 /\ "b"%string = s_name col2.
Proof.
  destruct (correlation_labels Reference.runtime Samples.three_copies
              (Correlation.mk "a" "b" (Fin (1000 # 1000)) "strong" "positive"
                              "As a increases, b strongly increases (r=1.00)"))
    as (col1 & col2 & Hp & Hx & Hy & _).
  - vm_compute. left. reflexivity.
  - exists col1, col2. repeat split; assumption.
Defined.

Lemma fle_trans (x y z : pyfloat) :
  fle x y = true -> fle y z = true -> fle x z = true.
Proof.
  destruct x as [a | | |], y as [b | | |], z as [c | | |]; simpl; try congruence.
  rewrite !Qleb_le. intros. lra.
Qed.

Lemma fle_refl (x : pyfloat) : x <> NaN -> fle x x = true.
Proof.
  destruct x as [a | | |]; simpl; try congruence.
  intros _. apply Qleb_le. lra.
Qed.

Lemma by_key_transitive {A : Type} (key : A -> pyfloat) :
  Relations_1.Transitive (fun a b => fle (key b) (key a) = true).
Proof. intros a b c Hab Hbc. eapply fle_trans; eassumption. Qed.

Lemma StronglySorted_app_order {A : Type} (R : A -> A -> Prop) (l1 l2 : list A) :
  StronglySorted R (l1 ++ l2) ->
  forall a b, In a l1 -> In b l2 -> R a b.
Proof.
  induction l1 as [| x l1 IH]; simpl; intros Hs a b Ha Hb; [contradiction |].
  apply StronglySorted_inv in Hs. destruct Hs as [Hs Hx].
  destruct Ha as [<- | Ha].
  - rewrite Forall_forall in Hx. apply Hx. apply in_or_app. now right.
  - now apply IH.
Qed.

Lemma StronglySorted_filter {A : Type} (R : A -> A -> Prop) (f : A -> bool) (l : list A) :
  StronglySorted R l -> StronglySorted R (filter f l).
Proof.
  induction 1 as [| x l Hs IH Hx]; simpl; [constructor |].
  destruct (f x); [| assumption].
  constructor; [assumption |].
  rewrite Forall_forall in *. intros y Hy. apply Hx.
  apply filter_In in Hy. tauto.
Qed.

Lemma correlation_entries_sorted (rt : Runtime) (df : DataFrame) :
  StronglySorted (fun a b => fle (corr_key b) (corr_key a) = true)
    (sort_desc corr_key (flat_map (correlation_of_pair rt) (pairs (numeric_cols df)))).
Proof.
  apply Sorted_StronglySorted; [apply by_key_transitive |].
  apply sort_desc_sorted. apply Forall_forall. intros c Hc.
  apply correlation_entries_In in Hc.
  destruct Hc as (col1 & col2 & _ & Hge & ->). now apply entry_key_not_nan.
Qed.

Lemma analyze_correlations_strongly_sorted (rt : Runtime) (df : DataFrame) :
  StronglySorted (fun a b => fle (corr_key b) (corr_key a) = true)
                 (analyze_correlations rt df).
Proof.
  unfold analyze_correlations.
  destruct (2 <=? _)%nat; [| rewrite firstn_nil; constructor].
  pose proof (correlation_entries_sorted rt df) as Hs.
  rewrite <- (firstn_skipn 5) in Hs.
  revert Hs. generalize (skipn 5 (sort_desc corr_key
     (flat_map (correlation_of_pair rt) (pairs (numeric_cols df))))).
  generalize (firstn 5 (sort_desc corr_key
     (flat_map (correlation_of_pair rt) (pairs (numeric_cols df))))).
  intros l1. induction l1 as [| x l1 IH]; intros l2 Hs; [constructor |].
  simpl in Hs. apply StronglySorted_inv in Hs. destruct Hs as [Hs Hx].
  constructor; [now apply (IH l2) |].
  rewrite Forall_forall in *. intros y Hy. apply Hx. apply in_or_app. now left.
Qed.

(** X15. On a frame whose column names are pairwise distinct the cut to
    five keeps the strongest pairs: a pair of numeric columns that passes
    the 0.5 threshold is reported, unless five pairs are reported whose
    absolute (rounded) coefficient is each at least as large as that
    pair's. *)
Theorem correlations_keep_the_strongest (rt : Runtime) (df : DataFrame)
    (col1 col2 : Series Q) :
  distinct_names df = true ->
  In (col1, col2) (pairs (numeric_cols df)) ->
  fge (fabs (pearson rt (s_vals col1) (s_vals col2))) (Fin (1 # 2)) = true ->
  In (entry_of_pair rt col1 col2) (analyze_correlations rt df) \/
  (List.length (analyze_correlations rt df) = 5%nat /\
   forall c, In c (analyze_correlations rt df) ->
             fle (corr_key (entry_of_pair rt col1 col2)) (corr_key c) = true).
Proof.
  intros _ Hp Hge.
  rewrite (analyze_correlations_unfold rt df (pairs_length _ _ _ Hp)).
  set (sorted := sort_desc corr_key
                   (flat_map (correlation_of_pair rt) (pairs (numeric_cols df)))).
  assert (He : In (entry_of_pair rt col1 col2) sorted).
  { apply stable_sort_In. apply correlation_entries_In. exists col1, col2. auto. }
  pose proof (correlation_entries_sorted rt df) as Hs. fold sorted in Hs.
  rewrite <- (firstn_skipn 5 sorted) in He, Hs.
  apply in_app_or in He. destruct He as [He | He]; [left; exact He | right].
  split.
  - rewrite length_firstn.
    assert (Hk : (List.length (skipn 5 sorted) <> 0)%nat).
    { destruct (skipn 5 sorted); [contradiction | discriminate]. }
    rewrite length_skipn in Hk. lia.
  - intros c Hc.
    exact (StronglySorted_app_order _ _ _ Hs c _ Hc He).
Qed.

Lemma correlations_keep_the_strongest_witness :
  In (entry_of_pair Reference.runtime
        (mkSeries "a" [Samples.n 1; Samples.n 2; Samples.n 3])
        (mkSeries "c" [Samples.n 1; Samples.n 2; Samples.n 3]))
     (analyze_correlations Reference.runtime Samples.three_copies) \/
  (List.length (analyze_correlations Reference.runtime Samples.three_copies) = 5%nat /\
   forall c, In c (analyze_correlations Reference.runtime Samples.three_copies) ->
             fle (corr_key (entry_of_pair Reference.runtime
                              (mkSeries "a" [Samples.n 1; Samples.n 2; Samples.n 3])
                              (mkSeries "c" [Samples.n 1; Samples.n 2; Samples.n 3])))
                 (corr_key c) = true).
Proof.
  apply (correlations_keep_the_strongest Reference.runtime Samples.three_copies).
  - reflexivity.
  - simpl. right. left. reflexivity.
  - reflexivity.
Defined.

(** ** InsightSynthesizer: which finding each insight describes *)

(** X16. The relationship insight, when there is one, describes a
    reported correlation labelled "strong" whose absolute coefficient is
    at least that of every other strong correlation reported. *)
Theorem relationship_insight_is_strongest (rt : Runtime) (df : DataFrame)
    (i : Insight.t) :
  In i (correlation_insights (analyze_correlations rt df)) ->
  exists c0 : Correlation.t,
    In c0 (analyze_correlations rt df) /\
    Correlation.strength c0 = "strong"%string /\
    Insight.type_ i = "relationship_discovery"%string /\
    Insight.description i = Correlation.business_insight c0 /\
    Insight.business_impact i = "medium"%string /\
    Insight.slide_recommendation i = "correlation_analysis"%string /\
    forall c, In c (analyze_correlations rt df) ->
              Correlation.strength c = "strong"%string ->
              fle (corr_key c) (corr_key c0) = true.
Proof.
  unfold correlation_insights.
  set (is_strong := fun c => String.eqb (Correlation.strength c) "strong").
  pose proof (StronglySorted_filter _ is_strong _
                (analyze_correlations_strongly_sorted rt df)) as Hs.
  destruct (filter is_strong (analyze_correlations rt df)) as [| c0 rest] eqn:Hf;
    [intros [] |].
  intros [<- | []].
  assert (H0 : In c0 (filter is_strong (analyze_correlations rt df))).
  { rewrite Hf. now left. }
  apply filter_In in H0. destruct H0 as [Hin Hstrong].
  apply String.eqb_eq in Hstrong.
  exists c0. simpl. repeat split; try assumption.
  intros c Hc Hcs.
  assert (Hc' : In c (c0 :: rest)).
  { rewrite <- Hf. apply filter_In. split; [assumption |]. now apply String.eqb_eq. }
  apply StronglySorted_inv in Hs. destruct Hs as [_ Hall].
  destruct Hc' as [<- | Hc'].
  - apply fle_refl.
    destruct (analyze_correlations_In rt df c0 Hin) as (col1 & col2 & _ & Hge & ->).
    now apply entry_key_not_nan.
  - rewrite Forall_forall in Hall. now apply Hall.
Qed.

Lemma relationship_insight_is_strongest_witness :
  exists c0 : Correlation.t,
    In c0 (analyze_correlations Reference.runtime Samples.three_copies) /\
    Correlation.strength c0 = "strong"%string.
Proof.
  destruct (relationship_insight_is_strongest Reference.runtime Samples.three_copies
              (Insight.mk "relationship_discovery" "Strong Relationship: a & b"
                          "As a increases, b strongly increases (r=1.00)"
                          "medium" "correlation_analysis"))
    as (c0 & Hin & Hs & _).
  - vm_compute. left. reflexivity.
  - exists c0. split; assumption.
Defined.

Lemma max_by_In {A : Type} (key : A -> Q) (x : A) (l : list A) :
  In (max_by key x l) (x :: l).
Proof.
  unfold max_by. revert x. induction l as [| y l IH]; intros x; simpl; [now left |].
  destruct (Qltb (key x) (key y)).
  - destruct (IH y) as [H | H]; [right; left; exact H | right; right; exact H].
  - destruct (IH x) as [H | H]; [left; exact H | right; right; exact H].
Qed.

Lemma max_by_bounds {A : Type} (key : A -> Q) (l : list A) :
  forall x,
    (key x <= key (max_by key x l))%Q /\
    (forall y, In y l -> (key y <= key (max_by key x l))%Q).
Proof.
  unfold max_by. induction l as [| z l IH]; intros x; simpl.
  - split; [lra | tauto].
  - destruct (Qltb (key x) (key z)) eqn:E.
    + apply Qltb_lt in E. destruct (IH z) as [Hz Hl].
      split; [lra |]. intros y [<- | Hy]; auto.
    + apply Qltb_ge in E. destruct (IH x) as [Hx Hl].
      split; [assumption |]. intros y [<- | Hy]; [lra | auto].
Qed.

Lemma max_by_ge {A : Type} (key : A -> Q) (x : A) (l : list A) (y : A) :
  In y (x :: l) -> (key y <= key (max_by key x l))%Q.
Proof.
  destruct (max_by_bounds key l x) as [Hx Hl].
  intros [<- | Hy]; auto.
Qed.

(** X17. The growth insight, when there is one, names a trend whose
    direction is "growth" and whose overall change exceeds 10, the largest
    such change in the list; growing trends of 10 or less give none. *)
Theorem growth_insight_is_best (rt : Runtime) (trends : list Trend.t) (i : Insight.t) :
  In i (trend_insights rt trends) ->
  exists best : Trend.t,
    In best trends /\
    Trend.direction best = "growth"%string /\
    (10 < Trend.overall_change_pct best)%Q /\
    Insight.type_ i = "growth_opportunity"%string /\
    Insight.title i = (Trend.metric best ++ " Shows Strong Growth")%string /\
    Insight.business_impact i = "high"%string /\
    Insight.slide_recommendation i = "metrics_performance"%string /\
    forall t, In t trends ->
              Trend.direction t = "growth"%string ->
              (10 < Trend.overall_change_pct t)%Q ->
              (Trend.overall_change_pct t <= Trend.overall_change_pct best)%Q.
Proof.
  unfold trend_insights.
  set (growing := fun t => (String.eqb (Trend.direction t) "growth"
                            && Qltb 10 (Trend.overall_change_pct t))%bool).
  destruct (filter growing trends) as [| g rest] eqn:Hf; [intros [] |].
  intros [<- | []].
  pose proof (max_by_In Trend.overall_change_pct g rest) as Hbest.
  rewrite <- Hf in Hbest. apply filter_In in Hbest. destruct Hbest as [Hin Hg].
  unfold growing in Hg. apply andb_true_iff in Hg. destruct Hg as [Hd Hp].
  apply String.eqb_eq in Hd. apply Qltb_lt in Hp.
  exists (max_by Trend.overall_change_pct g rest). simpl.
  repeat split; try assumption.
  intros t Ht Htd Htp. apply max_by_ge. rewrite <- Hf.
  apply filter_In. split; [assumption |].
  unfold growing. apply andb_true_iff. split.
  - now apply String.eqb_eq.
  - now apply Qltb_lt.
Qed.

Lemma growth_insight_is_best_witness :
  exists best : Trend.t,
    In best (detect_trends Reference.runtime Samples.doubling) /\
    Trend.direction best = "growth"%string.
Proof.
  destruct (growth_insight_is_best Reference.runtime
              (detect_trends Reference.runtime Samples.doubling)
              (Insight.mk "growth_opportunity" "revenue Shows Strong Growth"
                          "revenue increased 100.0% over 2024-01 to 2024-03"
                          "high" "metrics_performance"))
    as (best & Hin & Hd & _).
  - vm_compute. left. reflexivity.
  - exists best. split; assumption.
Defined.

(** ** SegmentAnalyzer: layout of the result and the cluster summary *)

Lemma categorical_attempt_layout (rt : Runtime) (df : DataFrame) (col : Series string) :
  (List.length (try_except (categorical_attempt rt df col)) <= 1)%nat /\
  Forall (fun s => segment_type s = "categorical"%string)
         (try_except (categorical_attempt rt df col)).
Proof.
  unfold categorical_attempt.
  destruct (_ && _)%bool; [| split; [simpl; lia | constructor]].
  destruct (traverse (category_entry rt df) _); simpl;
    split; try lia; repeat constructor.
Qed.

Lemma clustering_attempt_layout (rt : Runtime) (df : DataFrame) (ncs : list (Series Q)) :
  (List.length (try_except (clustering_attempt rt df ncs)) <= 1)%nat /\
  Forall (fun s => segment_type s = "numeric_clusters"%string)
         (try_except (clustering_attempt rt df ncs)).
Proof.
  unfold clustering_attempt.
  destruct (10 <=? _)%nat; [| split; [simpl; lia | constructor]].
  destruct (fit_predict rt _); [| split; [simpl; lia | constructor]].
  destruct (Nat.eqb _ _); [| split; [simpl; lia | constructor]].
  destruct (traverse (cluster_summary _ _ _ _) _);
    split; simpl; try lia; repeat constructor.
Qed.

Lemma flat_map_Forall {A B : Type} (P : B -> Prop) (f : A -> list B) (l : list A) :
  (forall x, Forall P (f x)) -> Forall P (flat_map f l).
Proof.
  intros H. induction l as [| x l IH]; simpl; [constructor |].
  apply Forall_app. split; [apply H | exact IH].
Qed.

(** X18. The analyzer's result is laid out as the categorical segments,
    at most three, followed by at most one cluster segment; a cluster
    segment needs scipy, two numeric columns and ten rows. *)
Theorem segments_layout (rt : Runtime) (df : DataFrame) :
  exists cats clus : list Segment,
    analyze_segments rt df = cats ++ clus /\
    (List.length cats <= 3)%nat /\
    Forall (fun s => segment_type s = "categorical"%string) cats /\
    (List.length clus <= 1)%nat /\
    Forall (fun s => segment_type s = "numeric_clusters"%string) clus /\
    (clus <> [] ->
     HAS_SCIPY rt = true /\
     (2 <= List.length (numeric_cols df))%nat /\ (10 <= nrows df)%nat).
Proof.
  unfold analyze_segments.
  destruct (HAS_SCIPY rt); simpl negb; cbv iota.
  - exists (flat_map (fun col => try_except (categorical_attempt rt df col))
                     (firstn 3 (categorical_cols df))).
    eexists. split; [reflexivity |].
    split.
    { etransitivity.
      - apply flat_map_length_le. intros col. apply categorical_attempt_layout.
      - rewrite length_firstn. lia. }
    split.
    { apply flat_map_Forall. intros col. apply categorical_attempt_layout. }
    destruct (Nat.leb_spec 2 (List.length (numeric_cols df)));
      destruct (Nat.leb_spec 10 (nrows df)); simpl andb; cbv iota;
      try (split; [simpl; lia | split; [constructor | congruence]]).
    split; [apply clustering_attempt_layout |].
    split; [apply clustering_attempt_layout |]. auto.
  - exists [], []. simpl. repeat split; try lia; try constructor; congruence.
Qed.

Lemma cluster_sizes_disjoint (labels : list nat) (data : list (list Q)) :
  (cluster_size labels data 0 + cluster_size labels data 1 + cluster_size labels data 2
   <= List.length data)%nat.
Proof.
  unfold cluster_size. revert data.
  induction labels as [| a labels IH]; intros data; simpl; [lia |].
  destruct data as [| d data].
  - destruct a as [| [| [| a]]]; simpl; lia.
  - specialize (IH data). simpl in IH.
    destruct a as [| [| [| a]]]; simpl; lia.
Qed.

Lemma cluster_summary_shape (rt : Runtime) (names : list string) (data : list (list Q))
    (labels : list nat) (k : nat) (l : list Cluster.t) :
  cluster_summary rt names data labels k = Some l ->
  (l = [] /\ cluster_size labels data k = O) \/
  (exists c, l = [c] /\
             Cluster.cluster_id c = k /\
             Cluster.size c = cluster_size labels data k /\
             (1 <= Cluster.size c)%nat /\
             List.length data <> O /\
             rounds_to 10 (of_nat (Cluster.size c) / of_nat (List.length data) * 100)
                       (Cluster.percentage c) /\
             (List.length (Cluster.characteristics c) <= 2)%nat).
Proof.
  unfold cluster_summary. fold (cluster_size labels data k).
  change (List.length (select_mask (map (Nat.eqb k) labels) data))
    with (cluster_size labels data k).
  destruct (Nat.ltb_spec 0 (cluster_size labels data k)) as [Hpos | Hz].
  - unfold py_div. destruct (List.length data) as [| m] eqn:Hd; [discriminate |].
    intros H. injection H as <-. right. eexists. split; [reflexivity |].
    cbn [Cluster.cluster_id Cluster.size Cluster.percentage Cluster.characteristics].
    repeat split; try assumption; try discriminate.
    + apply py_round_1_rounds_to.
    + rewrite length_map, length_seq.
      destruct (List.length names) as [| [| n]]; lia.
  - intros H. injection H as <-. left. split; [reflexivity | lia].
Qed.

Lemma rows_of_length (n : nat) (cols : list (Series Q)) :
  List.length (rows_of n cols) = n.
Proof. unfold rows_of. now rewrite length_map, length_seq. Qed.

Lemma dropna_any_length_le (rows : list (list (option Q))) :
  (List.length (dropna_any rows) <= List.length rows)%nat.
Proof.
  induction rows as [| r rows IH]; simpl; [lia |].
  destruct (forallb is_some r); simpl; lia.
Qed.

Lemma first_three_names (ncs : list (Series Q)) :
  firstn 3 (map s_name (firstn 3 ncs)) = map s_name (firstn 3 ncs).
Proof. destruct ncs as [| a [| b [| c l]]]; reflexivity. Qed.

Lemma cluster_summaries_combined (rt : Runtime) (names : list string) (data : list (list Q))
    (labels : list nat) (summaries : list (list Cluster.t)) :
  traverse (cluster_summary rt names data labels) (seq 0 optimal_k) = Some summaries ->
  (List.length (List.concat summaries) <= 3)%nat /\
  Forall (cluster_ok (List.length data)) (List.concat summaries) /\
  StronglySorted lt (map Cluster.cluster_id (List.concat summaries)) /\
  (list_sum (map Cluster.size (List.concat summaries)) <= List.length data)%nat.
Proof.
  change (seq 0 optimal_k) with [0; 1; 2]%nat. simpl.
  destruct (cluster_summary rt names data labels 0) as [l0 |] eqn:H0; [| discriminate].
  destruct (cluster_summary rt names data labels 1) as [l1 |] eqn:H1; [| discriminate].
  destruct (cluster_summary rt names data labels 2) as [l2 |] eqn:H2; [| discriminate].
  intros H. injection H as <-.
  pose proof (cluster_sizes_disjoint labels data) as Hsum.
  apply cluster_summary_shape in H0, H1, H2.
  destruct H0 as [[-> Z0] | (c0 & -> & I0 & S0 & P0 & D0 & Q0 & C0)];
    destruct H1 as [[-> Z1] | (c1 & -> & I1 & S1 & P1 & D1 & Q1 & C1)];
    destruct H2 as [[-> Z2] | (c2 & -> & I2 & S2 & P2 & D2 & Q2 & C2)];
    cbn [List.concat app map list_sum fold_right List.length];
    (split; [lia |]);
    (split;
     [repeat (apply Forall_cons;
              [unfold cluster_ok; repeat split; (assumption || lia) |]);
      apply Forall_nil |]);
    (split;
     [repeat (apply SSorted_cons || apply SSorted_nil
              || apply Forall_cons || apply Forall_nil); lia
     | lia]).
Qed.

(** X19. A cluster segment is built with "kmeans" on the first two or
    three numeric columns, from the rows of the frame that hold no null
    in them, at least ten.  It lists at most three clusters, by increasing
    id below 3, none of them empty; each carries, as percentage, a nearest
    tenth of its size over the number of those complete rows times 100,
    and the mean and median of at most two features; the sizes add up to
    no more than the complete rows. *)
Theorem cluster_segment_valid (rt : Runtime) (df : DataFrame)
    (method : string) (features : list string) (clusters : list Cluster.t) :
  In (NumericClusters method features clusters) (analyze_segments rt df) ->
  method = "kmeans"%string /\
  features = map s_name (firstn 3 (numeric_cols df)) /\
  (2 <= List.length features <= 3)%nat /\
  (10 <= List.length (complete_rows df) <= nrows df)%nat /\
  (List.length clusters <= 3)%nat /\
  Forall (cluster_ok (List.length (complete_rows df))) clusters /\
  StronglySorted lt (map Cluster.cluster_id clusters) /\
  (list_sum (map Cluster.size clusters) <= List.length (complete_rows df))%nat.
Proof.
  unfold analyze_segments.
  destruct (negb (HAS_SCIPY rt)); [intros [] |].
  intros H. apply in_app_or in H. destruct H as [H | H].
  { apply in_flat_map in H. destruct H as (col & _ & H).
    pose proof (proj2 (categorical_attempt_layout rt df col)) as Hcat.
    rewrite Forall_forall in Hcat. specialize (Hcat _ H). discriminate Hcat. }
  destruct (Nat.leb_spec 2 (List.length (numeric_cols df))) as [Hn | Hn];
    [| contradiction].
  destruct (Nat.leb_spec 10 (nrows df)) as [Hr | Hr]; [| contradiction].
  simpl andb in H. cbv iota in H. revert H. unfold clustering_attempt. cbv zeta.
  fold (complete_rows df). set (data := complete_rows df).
  destruct (Nat.leb_spec 10 (List.length data)) as [Hd | Hd]; [| intros []].
  destruct (fit_predict rt data) as [labels |]; [| intros []].
  destruct (Nat.eqb _ _); [| intros []].
  destruct (traverse (cluster_summary _ _ _ _) _) as [summaries |] eqn:Ht; [| intros []].
  intros [H | []]. injection H as <- <- <-.
  split; [reflexivity |].
  split; [apply first_three_names |].
  split.
  { clear - Hn. destruct (numeric_cols df) as [| a [| b [| c l]]]; simpl in *; lia. }
  split.
  { split; [assumption |]. subst data. unfold complete_rows.
    etransitivity; [apply dropna_any_length_le |]. now rewrite rows_of_length. }
  exact (cluster_summaries_combined _ _ _ _ _ Ht).
Qed.

Lemma cluster_segment_valid_witness :
  exists method features clusters,
    In (NumericClusters method features clusters)
       (analyze_segments runtime_round_robin sample_two_features) /\
    method = "kmeans"%string /\
    features = ["price"; "units"]%string /\
    List.length clusters = 3%nat /\
    Forall (cluster_ok (List.length (complete_rows sample_two_features))) clusters.
Proof.
  assert (H : exists method features clusters,
             analyze_segments runtime_round_robin sample_two_features
             = [NumericClusters method features clusters] /\
             List.length clusters = 3%nat).
  { vm_compute. eexists; eexists; eexists. split; reflexivity. }
  destruct H as (method & features & clusters & Heq & Hlen).
  assert (Hin : In (NumericClusters method features clusters)
                   (analyze_segments runtime_round_robin sample_two_features)).
  { rewrite Heq. now left. }
  destruct (cluster_segment_valid runtime_round_robin sample_two_features
              method features clusters Hin) as (Hm & Hf & _ & _ & _ & Hok & _).
  exists method, features, clusters.
  split; [exact Hin |]. split; [exact Hm |]. split; [| split; [exact Hlen | exact Hok]].
  rewrite Hf. reflexivity.
Defined.

(** ** SegmentAnalyzer: the counts of a categorical segment *)

Lemma insert_by_sum {A : Type} (g : A -> nat) (before : A -> A -> bool) (x : A) (l : list A) :
  list_sum (map g (insert_by before x l)) = (g x + list_sum (map g l))%nat.
Proof.
  induction l as [| y l IH]; simpl; [reflexivity |].
  destruct (before y x); simpl; [rewrite IH |]; lia.
Qed.

Lemma stable_sort_sum {A : Type} (g : A -> nat) (before : A -> A -> bool) (l : list A) :
  list_sum (map g (stable_sort before l)) = list_sum (map g l).
Proof.
  induction l as [| x l IH]; simpl; [reflexivity |].
  now rewrite insert_by_sum, IH.
Qed.

Lemma firstn_sum_le (n : nat) (l : list nat) :
  (list_sum (firstn n l) <= list_sum l)%nat.
Proof.
  revert l. induction n as [| n IH]; intros [| x l]; simpl; try lia.
  specialize (IH l). lia.
Qed.

Lemma filter_twice {A : Type} (p : A -> bool) (l : list A) :
  filter p (filter p l) = filter p l.
Proof.
  induction l as [| a l IH]; simpl; [reflexivity |].
  destruct (p a) eqn:E; simpl; [rewrite E, IH |]; auto.
Qed.

Lemma filter_swap {A : Type} (p q : A -> bool) (l : list A) :
  filter p (filter q l) = filter q (filter p l).
Proof.
  induction l as [| a l IH]; simpl; [reflexivity |].
  destruct (p a) eqn:Ep, (q a) eqn:Eq; simpl; rewrite ?Ep, ?Eq, IH; reflexivity.
Qed.

Lemma distinct_unfold (x : string) (rest : list string) :
  distinct (x :: rest) = x :: filter (differs_from x) (distinct rest).
Proof. reflexivity. Qed.

Lemma distinct_filter (x : string) (l : list string) :
  filter (differs_from x) (distinct l) = distinct (filter (differs_from x) l).
Proof.
  induction l as [| a l IH]; [reflexivity |].
  rewrite distinct_unfold.
  cbn [filter]. destruct (differs_from x a) eqn:E.
  - rewrite distinct_unfold, <- IH. f_equal. apply filter_swap.
  - unfold differs_from in E. apply negb_false_iff, String.eqb_eq in E. subst a.
    rewrite filter_twice. exact IH.
Qed.

Lemma In_distinct (y : string) (l : list string) : In y (distinct l) <-> In y l.
Proof.
  induction l as [| a l IH]; [simpl; tauto |].
  rewrite distinct_unfold. simpl. rewrite filter_In, IH.
  unfold differs_from. destruct (String.eqb_spec y a) as [-> | Hne]; simpl.
  - intuition.
  - intuition congruence.
Qed.

Lemma count_str_skip (s x : string) (l : list string) :
  s <> x -> count_str s (filter (differs_from x) l) = count_str s l.
Proof.
  intros Hne. induction l as [| a l IH]; simpl; [reflexivity |].
  unfold differs_from at 1.
  destruct (String.eqb_spec a x) as [-> | Hax]; simpl.
  - destruct (String.eqb_spec x s); [congruence | exact IH].
  - now rewrite IH.
Qed.

Lemma count_str_split (x : string) (l : list string) :
  (count_str x l + List.length (filter (differs_from x) l) = List.length l)%nat.
Proof.
  induction l as [| a l IH]; simpl; [reflexivity |].
  unfold differs_from at 1.
  destruct (String.eqb_spec a x); simpl; lia.
Qed.

Lemma count_str_pos (s : string) (l : list string) :
  In s l -> (1 <= count_str s l)%nat.
Proof.
  induction l as [| a l IH]; simpl; [tauto |].
  intros [-> | H].
  - rewrite String.eqb_refl. lia.
  - destruct (String.eqb a s); [lia | auto].
Qed.

Lemma distinct_counts_sum (l : list string) :
  list_sum (map (fun s => count_str s l) (distinct l)) = List.length l.
Proof.
  remember (List.length l) as n eqn:Hn.
  revert l Hn. induction n as [n IH] using lt_wf_ind. intros l Hn.
  destruct l as [| x r]; [subst; reflexivity |].
  rewrite distinct_unfold, distinct_filter.
  set (r' := filter (differs_from x) r).
  cbn [map list_sum fold_right].
  assert (Hmap : map (fun s => count_str s (x :: r)) (distinct r')
                 = map (fun s => count_str s r') (distinct r')).
  { apply map_ext_in. intros s Hs. apply (proj1 (In_distinct _ _)) in Hs.
    subst r'. apply filter_In in Hs. destruct Hs as [_ Hs].
    unfold differs_from in Hs. apply negb_true_iff, String.eqb_neq in Hs.
    simpl. destruct (String.eqb_spec x s); [congruence |].
    symmetry. now apply count_str_skip. }
  change (fold_right Init.Nat.add 0%nat (map (fun s => count_str s (x :: r)) (distinct r')))
    with (list_sum (map (fun s => count_str s (x :: r)) (distinct r'))).
  rewrite Hmap.
  pose proof (count_str_split x r) as Hsplit. fold r' in Hsplit.
  rewrite (IH (List.length r')) with (l := r'); [| simpl in Hn; lia | reflexivity].
  simpl. rewrite String.eqb_refl. simpl in Hn. lia.
Qed.

Lemma value_counts_total (cells : list (option string)) :
  list_sum (map snd (value_counts cells)) = List.length (dropna cells).
Proof.
  unfold value_counts. rewrite stable_sort_sum, map_map. simpl.
  apply distinct_counts_sum.
Qed.

Lemma value_counts_present (cells : list (option string)) (item : string * nat) :
  In item (value_counts cells) -> In (fst item) (dropna cells).
Proof.
  unfold value_counts. intros H.
  apply (proj1 (stable_sort_In _ _ _)) in H.
  apply in_map_iff in H. destruct H as (x & <- & Hx).
  simpl. now apply In_distinct.
Qed.

Lemma Forall2_map_eq {A B C : Type} (R : A -> B -> Prop) (f : A -> C) (g : B -> C)
    (l : list A) (l' : list B) :
  (forall a b, R a b -> g b = f a) ->
  Forall2 R l l' -> map g l' = map f l.
Proof.
  intros H HF. induction HF; simpl; [reflexivity |].
  f_equal; auto.
Qed.

(** X20. In a categorical segment every listed category occurs at least
    once, and the listed counts add up to no more than the number of rows
    of the frame. *)
Theorem categorical_counts_within_rows (rt : Runtime) (df : DataFrame)
    (by_col : string) (entries : list Category.t) :
  In (Categorical by_col entries) (analyze_segments rt df) ->
  Forall (fun e => (1 <= Category.count e)%nat) entries /\
  (list_sum (map Category.count entries) <= nrows df)%nat.
Proof.
  intros H.
  destruct (categorical_segment_origin rt df by_col entries H) as (col & Hcol & Hseg).
  destruct (categorical_attempt_segment rt df col _ Hseg) as (entries' & E & _ & HF).
  injection E as _ <-.
  split.
  - apply (Forall2_Forall_r _ (fun item => In item (value_counts (s_vals col))) _ _ _)
      with (3 := HF).
    + intros item e Hitem He. apply category_entry_some in He.
      destruct He as (_ & _ & -> & _).
      rewrite (value_counts_item _ _ Hitem).
      apply count_str_pos. now apply value_counts_present.
    + apply Forall_forall. intros item Hitem. now apply In_firstn in Hitem.
  - rewrite (Forall2_map_eq _ snd Category.count _ _
               (fun a b Hab => proj1 (proj2 (proj2 (category_entry_some rt df a b Hab)))) HF).
    rewrite <- firstn_map.
    etransitivity; [apply firstn_sum_le |].
    rewrite value_counts_total.
    etransitivity; [apply dropna_length_le |].
    apply Nat.eq_le_incl.
    apply (select_object_len _ (columns df)); [apply df_uniform |].
    now apply In_firstn in Hcol.
Qed.

Lemma categorical_counts_within_rows_witness :
  (list_sum (map Category.count
               [Category.mk "basic" 2 (667 # 10); Category.mk "pro" 1 (333 # 10)])
   <= nrows Samples.thirds)%nat.
Proof.
  apply (categorical_counts_within_rows Reference.runtime Samples.thirds "plan").
  vm_compute. left. reflexivity.
Defined.

(** ** From segments to the segmentation insight *)

Lemma analyze_dataframe_report (rt : Runtime) (df : DataFrame) :
  exists r : Report.t,
    analyze_dataframe rt df = Some r /\
    Report.segments r = analyze_segments rt df /\
    Report.key_insights r =
      key_insights_of rt (detect_trends rt df) (analyze_correlations rt df)
                      (analyze_segments rt df) /\
    Report.narrative_arc (Report.slide_recommendations r) =
      determine_narrative_arc (detect_trends rt df) (analyze_correlations rt df)
                              (analyze_segments rt df) /\
    Report.chart_types_recommended (Report.slide_recommendations r) =
      recommend_chart_types (detect_trends rt df) (analyze_correlations rt df)
                            (analyze_segments rt df) /\
    Report.has_scipy (Report.metadata r) = HAS_SCIPY rt.
Proof.
  pose proof (running_score_fin df) as Hfin.
  unfold analyze_dataframe, calculate_data_quality_score.
  destruct (running_score df) as [q | | |]; simpl in Hfin; try contradiction.
  simpl. eexists. split; [reflexivity |]. simpl. repeat split.
Qed.

Lemma traverse_total {A B : Type} (f : A -> option B) (l : list A) :
  (forall x, exists y, f x = Some y) -> exists ys, traverse f l = Some ys.
Proof.
  intros H. induction l as [| x l IH]; simpl; [eexists; reflexivity |].
  destruct (H x) as (y & ->). destruct IH as (ys & ->). eexists; reflexivity.
Qed.

Lemma category_entry_defined (rt : Runtime) (df : DataFrame) (item : string * nat) :
  nrows df <> O -> exists e, category_entry rt df item = Some e.
Proof.
  intros H. destruct item as [category count]. unfold category_entry, py_div.
  destruct (nrows df); [contradiction | eexists; reflexivity].
Qed.

Lemma nunique_needs_rows (df : DataFrame) (col : Series string) :
  In col (categorical_cols df) -> (1 <= nunique (s_vals col))%nat -> nrows df <> O.
Proof.
  intros Hcol Hn.
  rewrite <- (select_object_len _ (columns df) col (df_uniform df) Hcol).
  unfold nunique in Hn.
  destruct (distinct (dropna (s_vals col))) as [| y l] eqn:E; [simpl in Hn; lia |].
  assert (Hy : In y (distinct (dropna (s_vals col)))) by (rewrite E; now left).
  apply (proj1 (In_distinct _ _)) in Hy. apply In_dropna in Hy.
  destruct (s_vals col); [contradiction | discriminate].
Qed.

Lemma first_column_segment (rt : Runtime) (df : DataFrame)
    (col : Series string) (others : list (Series string)) :
  HAS_SCIPY rt = true ->
  categorical_cols df = col :: others ->
  (2 <= nunique (s_vals col) <= 10)%nat ->
  exists entries rest,
    analyze_segments rt df = Categorical (s_name col) entries :: rest /\
    Forall2 (fun item e => category_entry rt df item = Some e)
            (firstn 5 (value_counts (s_vals col))) entries.
Proof.
  intros Hs Hc Hn.
  assert (Hrows : nrows df <> O).
  { apply (nunique_needs_rows df col); [rewrite Hc; now left | lia]. }
  destruct (traverse_total (category_entry rt df) (firstn 5 (value_counts (s_vals col)))
              (fun item => category_entry_defined rt df item Hrows)) as (entries & Ht).
  unfold analyze_segments. rewrite Hs, Hc. cbn [negb firstn flat_map].
  unfold categorical_attempt at 1. rewrite value_counts_length.
  destruct (Nat.leb_spec 2 (nunique (s_vals col))); [| lia].
  destruct (Nat.leb_spec (nunique (s_vals col)) 10); [| lia].
  cbn [andb]. rewrite Ht. cbn [try_except app].
  eexists; eexists. split; [reflexivity |]. now apply traverse_Forall2.
Qed.

Lemma count_str_In (s : string) (l : list string) :
  (1 <= count_str s l)%nat -> In s l.
Proof.
  induction l as [| a l IH]; simpl; [lia |].
  destruct (String.eqb_spec a s); [auto |]. intros H. right. now apply IH.
Qed.

Lemma value_counts_head_is_largest (cells : list (option string))
    (item0 : string * nat) (tail : list (string * nat)) (v : string) :
  value_counts cells = item0 :: tail ->
  (count_str v (dropna cells) <= snd item0)%nat.
Proof.
  intros Hvc.
  destruct (Nat.eq_dec (count_str v (dropna cells)) 0) as [-> | Hpos]; [lia |].
  assert (Hin : In (v, count_str v (dropna cells)) (value_counts cells)).
  { unfold value_counts. apply stable_sort_In.
    apply in_map_iff. exists v. split; [reflexivity |].
    apply In_distinct. apply count_str_In. lia. }
  pose proof (value_counts_sorted cells) as Hs.
  apply Sorted_StronglySorted in Hs; [| intros a b c Hab Hbc; lia].
  rewrite Hvc in Hs, Hin. apply StronglySorted_inv in Hs. destruct Hs as [_ Hall].
  destruct Hin as [E | Hin]; [rewrite E; simpl; lia |].
  rewrite Forall_forall in Hall. exact (Hall _ Hin).
Qed.

Lemma share_at_least_40 (c n : nat) :
  n <> O -> (40 * n <= 100 * c)%nat ->
  (inject_Z 40 <= inject_Z (Z.of_nat c) / inject_Z (Z.of_nat n) * 100)%Q.
Proof.
  intros Hn H.
  assert (Hpos : (0 < inject_Z (Z.of_nat n))%Q) by (unfold Qlt; simpl; lia).
  assert (E : (inject_Z (Z.of_nat c) / inject_Z (Z.of_nat n) * 100
               == inject_Z (Z.of_nat c) * 100 / inject_Z (Z.of_nat n))%Q).
  { field. lra. }
  rewrite E. apply Qle_shift_div_l; [assumption |].
  change 100%Q with (inject_Z 100).
  rewrite <- !inject_Z_mult, <- Zle_Qle. lia.
Qed.

(** X21. When scipy is available and the first categorical column, with
    between 2 and 10 distinct values, has a value that fills at least 40%
    of the rows, the report carries a market_segmentation insight for that
    column, of medium impact, with the slide template "segment_breakdown". *)
Theorem dominant_category_yields_insight (rt : Runtime) (df : DataFrame)
    (col : Series string) (others : list (Series string)) (v : string) :
  HAS_SCIPY rt = true ->
  categorical_cols df = col :: others ->
  (2 <= nunique (s_vals col) <= 10)%nat ->
  (40 * nrows df <= 100 * count_str v (dropna (s_vals col)))%nat ->
  exists (r : Report.t) (i : Insight.t),
    analyze_dataframe rt df = Some r /\
    In i (Report.key_insights r) /\
    Insight.type_ i = "market_segmentation"%string /\
    Insight.title i = (s_name col ++ " Distribution Analysis")%string /\
    Insight.business_impact i = "medium"%string /\
    Insight.slide_recommendation i = "segment_breakdown"%string.
Proof.
  intros Hs Hc Hn Hshare.
  assert (Hrows : nrows df <> O).
  { apply (nunique_needs_rows df col); [rewrite Hc; now left | lia]. }
  destruct (first_column_segment rt df col others Hs Hc Hn) as (entries & rest & Hseg & HF).
  pose proof (value_counts_length (s_vals col)) as Hlen.
  destruct (value_counts (s_vals col)) as [| item0 [| item1 tail]] eqn:Hvc;
    simpl in Hlen; try lia.
  cbn [firstn] in HF.
  inversion HF as [| ? e0 ? es0 He0 HF']; subst.
  inversion HF' as [| ? e1 ? es1 He1 HF'']; subst.
  pose proof (value_counts_head_is_largest (s_vals col) item0 (item1 :: tail) v Hvc) as Htop.
  apply category_entry_some in He0. destruct He0 as (_ & _ & Hcount & Hpct).
  assert (H40 : (40 <= Category.percentage e0)%Q).
  { rewrite Hpct. apply (py_round_1_ge 40). apply share_at_least_40; [assumption | lia]. }
  pose proof (max_by_ge Category.percentage e0 (e1 :: es1) e0 (or_introl eq_refl)) as Hmax.
  assert (Hq : Qleb 40 (Category.percentage (max_by Category.percentage e0 (e1 :: es1)))
               = true) by (apply Qleb_le; lra).
  destruct (analyze_dataframe_report rt df) as (r & Hr & _ & Hk & _).
  exists r. eexists. split; [exact Hr |].
  split.
  - rewrite Hk. unfold key_insights_of. apply in_or_app. right.
    apply in_or_app. right. rewrite Hseg.
    cbn [segment_insights segment_type segment_entries segment_by String.eqb
         Ascii.eqb Bool.eqb List.length Nat.leb andb].
    rewrite Hq. left. reflexivity.
  - repeat split.
Qed.

Lemma dominant_category_yields_insight_witness :
  exists (r : Report.t) (i : Insight.t),
    analyze_dataframe Reference.runtime Samples.thirds = Some r /\
    In i (Report.key_insights r) /\
    Insight.type_ i = "market_segmentation"%string /\
    Insight.title i = "plan Distribution Analysis"%string /\
    Insight.business_impact i = "medium"%string /\
    Insight.slide_recommendation i = "segment_breakdown"%string.
Proof.
  apply (dominant_category_yields_insight Reference.runtime Samples.thirds
           (mkSeries "plan" [Samples.s "basic"; Samples.s "basic"; Samples.s "pro"]) []
           "basic"%string).
  - reflexivity.
  - reflexivity.
  - vm_compute. lia.
  - vm_compute. lia.
Defined.

Lemma segment_insights_numeric_only (rt : Runtime) (segments : list Segment) :
  Forall (fun s => segment_type s = "numeric_clusters"%string) segments ->
  segment_insights rt segments = [].
Proof.
  induction 1 as [| s l Hs Hl IH]; [reflexivity |].
  cbn [segment_insights]. rewrite Hs. exact IH.
Qed.

(** X22. The segmentation insight, when there is one, is about the first
    segment of the analyzer's result, a categorical one: it names the
    listed category with the largest percentage, and that percentage is at
    least 40. *)
Theorem segmentation_insight_from_first_segment (rt : Runtime) (df : DataFrame)
    (i : Insight.t) :
  In i (segment_insights rt (analyze_segments rt df)) ->
  exists (by_col : string) (entries : list Category.t) (rest : list Segment)
         (e : Category.t),
    analyze_segments rt df = Categorical by_col entries :: rest /\
    In e entries /\
    (40 <= Category.percentage e)%Q /\
    (forall e', In e' entries -> (Category.percentage e' <= Category.percentage e)%Q) /\
    Insight.type_ i = "market_segmentation"%string /\
    Insight.title i = (by_col ++ " Distribution Analysis")%string /\
    Insight.description i =
      (Category.name e ++ " represents " ++ str_float rt (Category.percentage e)
       ++ "% of the data")%string.
Proof.
  unfold analyze_segments.
  destruct (negb (HAS_SCIPY rt)); [intros [] |].
  destruct (flat_map (fun col => try_except (categorical_attempt rt df col))
                     (firstn 3 (categorical_cols df))) as [| s cats] eqn:Hcats.
  - cbn [app]. rewrite segment_insights_numeric_only; [intros [] |].
    destruct (_ && _)%bool; [apply clustering_attempt_layout | constructor].
  - assert (Hs : In s (flat_map (fun col => try_except (categorical_attempt rt df col))
                                (firstn 3 (categorical_cols df)))).
    { rewrite Hcats. now left. }
    apply in_flat_map in Hs. destruct Hs as (col & _ & Hs).
    destruct (categorical_attempt_segment rt df col s Hs) as (entries & -> & Hn & HF).
    assert (Hlen : (2 <= List.length entries)%nat).
    { rewrite <- (Forall2_length_eq _ _ _ HF), length_firstn, value_counts_length. lia. }
    destruct entries as [| e0 [| e1 es]]; simpl in Hlen; try lia.
    cbn [app segment_insights segment_type segment_entries segment_by String.eqb
         Ascii.eqb Bool.eqb List.length Nat.leb andb].
    destruct (Qleb 40 (Category.percentage (max_by Category.percentage e0 (e1 :: es))))
      eqn:Hq; [| intros []].
    intros [<- | []].
    exists (s_name col), (e0 :: e1 :: es). eexists.
    exists (max_by Category.percentage e0 (e1 :: es)).
    split; [reflexivity |].
    split; [apply max_by_In |].
    split; [now apply Qleb_le |].
    split; [intros e' He'; now apply max_by_ge |].
    repeat split.
Qed.

Lemma segmentation_insight_from_first_segment_witness :
  exists (by_col : string) (entries : list Category.t) (rest : list Segment),
    analyze_segments Reference.runtime Samples.thirds = Categorical by_col entries :: rest.
Proof.
  destruct (segmentation_insight_from_first_segment Reference.runtime Samples.thirds
              (Insight.mk "market_segmentation" "plan Distribution Analysis"
                          "basic represents 66.7% of the data" "medium"
                          "segment_breakdown"))
    as (by_col & entries & rest & e & H & _).
  - vm_compute. left. reflexivity.
  - exists by_col, entries, rest. exact H.
Defined.

(** X23. Without scipy the analyzer returns no segment at all, the
    categorical ones included; the report then has no market_segmentation
    insight, its narrative arc is not "segmentation_insights" and neither
    "bar" nor "donut" is recommended. *)
Theorem without_scipy_no_segmentation (rt : Runtime) (df : DataFrame) :
  HAS_SCIPY rt = false ->
  exists r : Report.t,
    analyze_dataframe rt df = Some r /\
    Report.segments r = [] /\
    Report.has_scipy (Report.metadata r) = false /\
    (forall i, In i (Report.key_insights r) ->
               Insight.type_ i <> "market_segmentation"%string) /\
    Report.narrative_arc (Report.slide_recommendations r)
      <> "segmentation_insights"%string /\
    ~ In "bar"%string (Report.chart_types_recommended (Report.slide_recommendations r)) /\
    ~ In "donut"%string (Report.chart_types_recommended (Report.slide_recommendations r)).
Proof.
  intros Hs.
  assert (Hseg : analyze_segments rt df = []).
  { unfold analyze_segments. now rewrite Hs. }
  destruct (analyze_dataframe_report rt df) as (r & Hr & Hsg & Hk & Harc & Hch & Hhas).
  exists r. rewrite Hsg, Hhas, Hk, Harc, Hch, Hseg.
  split; [exact Hr |]. split; [reflexivity |]. split; [exact Hs |].
  split; [| split; [| split]].
  - intros i Hi. unfold key_insights_of in Hi. simpl in Hi. rewrite app_nil_r in Hi.
    apply in_app_or in Hi.
    pose proof (trend_insights_kind rt (detect_trends rt df)) as [_ Hg].
    pose proof (correlation_insights_kind (analyze_correlations rt df)) as [_ Hc].
    rewrite Forall_forall in Hg, Hc.
    destruct Hi as [Hi | Hi]; [rewrite (Hg _ Hi) | rewrite (Hc _ Hi)]; discriminate.
  - unfold determine_narrative_arc.
    destruct (existsb _ _); [discriminate |].
    destruct (2 <=? _)%nat; discriminate.
  - unfold recommend_chart_types. cbv zeta.
    destruct (detect_trends rt df); destruct (analyze_correlations rt df);
      simpl; intuition discriminate.
  - unfold recommend_chart_types. cbv zeta.
    destruct (detect_trends rt df); destruct (analyze_correlations rt df);
      simpl; intuition discriminate.
Qed.

Lemma without_scipy_no_segmentation_witness :
  exists r : Report.t,
    analyze_dataframe runtime_without_scipy Samples.two_categoricals = Some r /\
    Report.segments r = [].
Proof.
  destruct (without_scipy_no_segmentation runtime_without_scipy Samples.two_categoricals)
    as (r & Hr & Hs & _).
  - reflexivity.
  - exists r. split; assumption.
Defined.
